(** * Customer retention pipeline: a shallow embedding of [app.py]

    The Streamlit script [app.py] matches a cancellation reason against a
    fixed catalog of retention offers through a reasoning service, drafts
    an email through the same service, and either sends the email over
    SMTP or notifies the team.  This file embeds the functions of the
    script and the handlers of [main] as programs of a small state and
    exception monad, and states the properties of the pipeline over them.

    External collaborators (the chat-completion service, the SMTP relay,
    [json.loads], [int], [repr], [str.lower] and [str.strip] outside
    ASCII) are variables of the development: every statement holds for
    any behaviour they may have.  Widget calls that only render (titles,
    spinners, tables) are left out; the progress bar of the batch tab is
    kept, since it refuses a value outside its range. *)

From Stdlib Require Import ZArith String Ascii List Lia Bool.
From stdpp Require Import base strings list pretty.
Import ListNotations.

Set Warnings "-register-all".

Local Open Scope string_scope.
Local Open Scope list_scope.

(** ** Python strings

    A [str] is carried as the bytes of its UTF-8 encoding, so that [in],
    [==] and concatenation are those of the byte strings.  The methods
    [lower] and [strip] are written out on the strings of ASCII
    characters, where they change the letters A-Z and remove the ASCII
    whitespace; on any other string Unicode's case mappings and its
    whitespace decide, and the result is the library's, a collaborator. *)

Module Py.

Definition nl : string := String "010"%char EmptyString.
Definition dq : string := String "034"%char EmptyString.
Definition sq : string := String "039"%char EmptyString.

(** A triple-quoted block, given line by line. *)
Definition text (ls : list string) : string := String.concat nl ls.

(** [sub in s] for two strings. *)
Fixpoint contains (sub s : string) : bool :=
  if String.prefix sub s then true
  else match s with
       | EmptyString => false
       | String _ t => contains sub t
       end.

Definition lower_char (c : ascii) : ascii :=
  let n := nat_of_ascii c in
  if (65 <=? n)%nat && (n <=? 90)%nat then ascii_of_nat (n + 32) else c.

Fixpoint is_ascii (s : string) : bool :=
  match s with
  | EmptyString => true
  | String c t => (nat_of_ascii c <? 128)%nat && is_ascii t
  end.

(** [s.lower()] on a string of ASCII characters: the letters A-Z. *)
Fixpoint lower_ascii (s : string) : string :=
  match s with
  | EmptyString => EmptyString
  | String c t => String (lower_char c) (lower_ascii t)
  end.

(** [s.lower()]; [unicode_lower] is [str.lower] on the strings that hold
    a character outside ASCII. *)
Definition lower (unicode_lower : string -> string) (s : string) : string :=
  if is_ascii s then lower_ascii s else unicode_lower s.

(** The ASCII characters that are whitespace: blank, tab, line feed,
    vertical tab, form feed, carriage return and the four separators
    0x1c-0x1f. *)
Definition is_space (c : ascii) : bool :=
  let n := nat_of_ascii c in
  (n =? 32)%nat || ((9 <=? n)%nat && (n <=? 13)%nat)
  || ((28 <=? n)%nat && (n <=? 31)%nat).

Fixpoint lstrip (s : string) : string :=
  match s with
  | EmptyString => EmptyString
  | String c t => if is_space c then lstrip t else s
  end.

Fixpoint rstrip (s : string) : string :=
  match s with
  | EmptyString => EmptyString
  | String c t =>
      match rstrip t with
      | EmptyString => if is_space c then EmptyString else String c EmptyString
      | t' => String c t'
      end
  end.

(** [s.strip()] on a string of ASCII characters. *)
Definition strip_ascii (s : string) : string := rstrip (lstrip s).

(** [s.strip()]; [unicode_strip] is [str.strip] on the strings that hold
    a character outside ASCII, where U+00A0, U+2003 and the other
    whitespace of Unicode are removed as well. *)
Definition strip (unicode_strip : string -> string) (s : string) : string :=
  if is_ascii s then strip_ascii s else unicode_strip s.

(** Truth value of a string that may be [None]: [not v] is the negation. *)
Definition truthy (v : option string) : bool :=
  match v with
  | Some s => negb (String.eqb s "")
  | None => false
  end.

(** Decimal digits [d] padded with zeros on the left to [width]. *)
Definition zero_pad (width : nat) (d : string) : string :=
  if (String.length d <? width)%nat
  then String.concat "" (repeat "0" (width - String.length d)) +:+ d
  else d.

(** The format specification [03d] applied to an int: the sign counts in
    the width, as in [-05]. *)
Definition fmt_03d (n : Z) : string :=
  if (n <? 0)%Z then "-" +:+ zero_pad 2 (pretty (Z.abs_N n))
  else zero_pad 3 (pretty (Z.abs_N n)).

End Py.

(** ** Values exchanged with the collaborators *)

(** The classes the handlers of the script name.  Every exception below
    is an instance of [Exception]; [SMTPAuthenticationError] is a
    subclass of [SMTPException]. *)
Inductive exc_class : Type :=
  | SMTPAuthenticationError
  | SMTPException
  | Exception.

Record exc : Type := mkExc {
  exc_class_of : exc_class;   (* most specific of the three classes *)
  exc_type_name : string;     (* type(e).__name__ *)
  exc_str : string            (* str(e) *)
}.

Definition subclass (c d : exc_class) : bool :=
  match c, d with
  | _, Exception => true
  | SMTPAuthenticationError, SMTPException => true
  | SMTPAuthenticationError, SMTPAuthenticationError => true
  | SMTPException, SMTPException => true
  | _, _ => false
  end.

Definition isinstance (e : exc) (c : exc_class) : bool :=
  subclass (exc_class_of e) c.

(** What leaves a block: an exception, or one of Streamlit's script
    control signals ([st.stop], [st.rerun]), which derive from
    [BaseException] and pass through [except Exception]. *)
Inductive thrown : Type :=
  | Exc (e : exc)
  | StopException
  | RerunException.

Definition ValueError (msg : string) : exc := mkExc Exception "ValueError" msg.
Definition TypeError (msg : string) : exc := mkExc Exception "TypeError" msg.
Definition AttributeError (msg : string) : exc := mkExc Exception "AttributeError" msg.

(** A value produced by [json.loads].  A dict is the list of its items in
    insertion order (its keys are distinct); a float is carried as its
    [repr]. *)
Inductive json : Type :=
  | JNull
  | JBool (b : bool)
  | JInt (n : Z)
  | JFloat (repr : string)
  | JStr (s : string)
  | JArr (items : list json)
  | JObj (items : list (string * json)).

Definition type_name (v : json) : string :=
  match v with
  | JNull => "NoneType"
  | JBool _ => "bool"
  | JInt _ => "int"
  | JFloat _ => "float"
  | JStr _ => "str"
  | JArr _ => "list"
  | JObj _ => "dict"
  end.

Fixpoint assoc (k : string) (items : list (string * json)) : option json :=
  match items with
  | [] => None
  | (k', v) :: rest => if String.eqb k k' then Some v else assoc k rest
  end.

(** A request to [client.chat.completions.create]. *)
Record chat_request : Type := mkChat {
  chat_client : string;            (* the API key the client was built with *)
  chat_model : string;
  chat_system : string;
  chat_user : string;
  chat_json_object : bool;         (* response_format={"type": "json_object"} *)
  chat_temperature : string
}.

(** One SMTP session: connect, STARTTLS, login, sendmail, quit. *)
Record smtp_call : Type := mkSmtp {
  smtp_host : string;
  smtp_port_no : Z;
  smtp_timeout : Z;
  smtp_user : string;
  smtp_password : string;
  smtp_from : string;
  smtp_rcpt : list string;
  msg_from : string;
  msg_to : string;
  msg_subject : string;
  msg_body : string
}.

(** The dict [sendmail] returns: one entry per refused recipient. *)
Definition send_errors : Type := list (string * (Z * string)).

(** Process environment, as read by [os.getenv], and the Streamlit secret. *)
Record environ : Type := mkEnv {
  SECRET_OPENAI_API_KEY : option string;  (* st.secrets.get, None when no secrets file *)
  OPENAI_API_KEY : option string;
  SENDER_EMAIL : option string;
  SENDER_PASSWORD : option string;
  SMTP_SERVER : option string;
  SMTP_PORT : option string
}.

(** The collaborators.  The two services answer as a function of the
    requests made so far and of the present request, so that the same
    request may succeed at one time and fail at another. *)
Record services : Type := mkServices {
  (* create(...) followed by .choices[0].message.content *)
  chat : list chat_request -> chat_request -> exc + option string;
  (* smtplib.SMTP(...), starttls, login, sendmail, quit *)
  smtp : list smtp_call -> smtp_call -> exc + send_errors;
  (* json.loads on a str: the value, or the JSONDecodeError *)
  json_loads : string -> exc + json;
  (* int(s): the number, or the message of the ValueError *)
  py_int : string -> string + Z;
  (* str() of a float, list or dict inside an f-string *)
  py_repr : json -> string;
  (* str() of a non-empty dict of refused recipients *)
  repr_errors : send_errors -> string;
  (* pd.Timestamp.today().strftime('%Y-%m-%d') *)
  today : string;
  (* str.lower and str.strip on a str with a character outside ASCII *)
  unicode_lower : string -> string;
  unicode_strip : string -> string;
  (* progress_bar.progress(a / b) for an a outside 0..b: what is raised, if
     anything; a value outside [0.0, 1.0] is a StreamlitAPIException *)
  progress_rejects : Z -> nat -> option exc
}.

(** ** State of a script run *)

Record processed : Type := mkProcessed {
  pd_customer_id : string;
  pd_customer_email : string;
  pd_cancellation_reason : string;
  pd_date_cancelled : string;
  pd_match_result : json;
  pd_email_content : string;
  pd_is_match : bool
}.

(** One dict of [results]; its keys are the field comments. *)
Record result_row : Type := mkRow {
  Customer_ID : string;          (* 'Customer ID' *)
  Email : string;                (* 'Email' *)
  Date_Cancelled : string;       (* 'Date Cancelled' *)
  Cancellation_Reason : string;  (* 'Cancellation Reason' *)
  Offer_Code : json;             (* 'Offer Code' *)
  Offer_Name : json;             (* 'Offer Name' *)
  Match_Found : string;          (* 'Match Found' *)
  Email_Content : string;        (* 'Email Content' *)
  Email_Sent : bool              (* 'Email Sent' *)
}.

(** [st.session_state].  [csv_results] holds the list object built by the
    batch run; its dicts are shared with every list later built from it,
    so a dict is referred to by its position in [csv_results]. *)
Record session_state : Type := mkSession {
  processed_data : option processed;
  email_sent : bool;
  team_notification_sent : bool;
  csv_results : option (list result_row)
}.

Record state : Type := mkState {
  session : session_state;
  chat_log : list chat_request;   (* requests made to the reasoning service *)
  smtp_log : list smtp_call       (* SMTP sessions attempted *)
}.

Definition initial_session : session_state := mkSession None false false None.

(** ** The monad of script fragments *)

Inductive outcome (A : Type) : Type :=
  | Return (a : A)
  | Raise (t : thrown).
Arguments Return {A} a.
Arguments Raise {A} t.

Definition py (A : Type) : Type := state -> outcome A * state.

Definition ret {A} (a : A) : py A := fun s => (Return a, s).

Definition bind {A B} (m : py A) (k : A -> py B) : py B :=
  fun s =>
    match m s with
    | (Return a, s') => k a s'
    | (Raise t, s') => (Raise t, s')
    end.

Definition raise {A} (e : exc) : py A := fun s => (Raise (Exc e), s).
Definition st_stop {A} : py A := fun s => (Raise StopException, s).
Definition st_rerun {A} : py A := fun s => (Raise RerunException, s).

Definition get_session : py session_state := fun s => (Return (session s), s).

Definition modify_session (f : session_state -> session_state) : py unit :=
  fun s => (Return tt, mkState (f (session s)) (chat_log s) (smtp_log s)).

Declare Scope py_scope.
Delimit Scope py_scope with py.
Notation "x <- m ;; k" := (bind m (fun x => k))
  (at level 100, m at next level, right associativity) : py_scope.
Notation "m ;; k" := (bind m (fun _ => k))
  (at level 100, right associativity) : py_scope.
Local Open Scope py_scope.

(** [try: body  except C1 as e: h1 e  except C2 as e: h2 e ...]: the first
    clause whose class the exception is an instance of handles it; an
    exception no clause names, and every control signal, goes on. *)
Fixpoint select_handler {A} (hs : list (exc_class * (exc -> py A))) (e : exc)
  : option (py A) :=
  match hs with
  | [] => None
  | (c, h) :: rest => if isinstance e c then Some (h e) else select_handler rest e
  end.

Arguments select_handler : simpl never.

Definition try_except {A} (body : py A) (hs : list (exc_class * (exc -> py A)))
  : py A :=
  fun s =>
    match body s with
    | (Return a, s') => (Return a, s')
    | (Raise (Exc e), s') =>
        match select_handler hs e with
        | Some h => h s'
        | None => (Raise (Exc e), s')
        end
    | (Raise t, s') => (Raise t, s')
    end.

(** Field updates of the session. *)
Definition set_processed_data (v : option processed) (ss : session_state) :=
  mkSession v (email_sent ss) (team_notification_sent ss) (csv_results ss).
Definition set_email_sent (v : bool) (ss : session_state) :=
  mkSession (processed_data ss) v (team_notification_sent ss) (csv_results ss).
Definition set_team_notification_sent (v : bool) (ss : session_state) :=
  mkSession (processed_data ss) (email_sent ss) v (csv_results ss).
Definition set_csv_results (v : option (list result_row)) (ss : session_state) :=
  mkSession (processed_data ss) (email_sent ss) (team_notification_sent ss) v.

(** ** The offer catalog *)

Record offer : Type := mkOffer {
  offer_code : string;
  offer_name : string;
  description : string;
  target_reasons : list string
}.

Definition RETENTION_OFFERS : list offer :=
  [ mkOffer "PRICE_DISC_20" "20% Discount for 6 Months"
      "20% discount on subscription for the next 6 months"
      ["too expensive"; "price"; "cost"; "budget"; "affordability"];
    mkOffer "PRICE_DISC_30" "30% Discount for 3 Months"
      "30% discount on subscription for the next 3 months"
      ["too expensive"; "price"; "cost"; "budget"; "affordability"; "expensive"];
    mkOffer "FEATURE_UPGRADE" "Free Feature Upgrade"
      "Upgrade to premium tier with additional features at no extra cost"
      ["missing features"; "need more features"; "limited functionality"; "features"];
    mkOffer "TRIAL_EXTEND" "Extended Free Trial"
      "Additional 30 days free trial to explore the platform"
      ["not sure"; "need more time"; "trial"; "testing"; "evaluating"];
    mkOffer "SUPPORT_PRIORITY" "Priority Support Access"
      "Dedicated support team and faster response times"
      ["support"; "customer service"; "help"; "assistance"; "response time"];
    mkOffer "CUSTOM_SOLUTION" "Custom Solution Consultation"
      "Free consultation to create a customized solution for your needs"
      ["doesn't fit"; "not suitable"; "custom"; "specific needs"; "requirements"] ].

Definition catalog_codes : list string := map offer_code RETENTION_OFFERS.

Definition render_offer (o : offer) : string :=
  "OFFER_CODE: " +:+ offer_code o +:+ Py.nl
  +:+ "OFFER_NAME: " +:+ offer_name o +:+ Py.nl
  +:+ "DESCRIPTION: " +:+ description o +:+ Py.nl
  +:+ "TARGET_REASONS: " +:+ String.concat ", " (target_reasons o) +:+ Py.nl
  +:+ Py.nl +:+ "---" +:+ Py.nl +:+ Py.nl.

(** Convert offers to a readable format for the AI agent. *)
Definition get_offers_database : string :=
  fold_left (fun offers_text o => offers_text +:+ render_offer o)
    RETENTION_OFFERS ("AVAILABLE RETENTION OFFERS:" +:+ Py.nl +:+ Py.nl).

(** ** Prompts *)

Definition quoted (s : string) : string := Py.dq +:+ s +:+ Py.dq.

Definition matcher_system_message : string := Py.text
  [ "ROLE: You are an offer matching specialist for customer retention.";
    "";
    "TASK: Match customer cancellation reasons with appropriate retention offers from our available inventory.";
    "";
    "INPUT: You will receive:";
    "- A customer's cancellation reason (text explanation)";
    "- Access to our retention offers database";
    "";
    "OUTPUT: Provide your response in this exact JSON format:";
    "{";
    "    " +:+ quoted "OFFER_CODE" +:+ ": " +:+ quoted "the offer code"
      +:+ " OR " +:+ quoted "NO_MATCH" +:+ ",";
    "    " +:+ quoted "OFFER_NAME" +:+ ": " +:+ quoted "the offer name"
      +:+ " OR " +:+ quoted "None" +:+ ",";
    "    " +:+ quoted "MATCH_REASONING" +:+ ": "
      +:+ quoted "1-2 sentences explaining why this offer addresses their concern, or why no match exists";
    "}";
    "";
    "CONSTRAINTS:";
    "- Only recommend offers that directly address the customer's stated cancellation reason";
    "- Never recommend multiple offers - select only the single best match";
    "- If the cancellation reason is vague, return NO_MATCH rather than guessing";
    "- Do not create or modify offer codes - only use existing ones from the database";
    "";
    "PROCESS:";
    "1. Analyze the customer's cancellation reason to identify the core issue (price, features, service quality, competitor, etc.)";
    "2. Compare the cancellation reason against each offer's intended purpose";
    "3. Select the offer that most directly resolves their specific concern";
    "4. If no offer addresses their reason (e.g., they're moving countries and we don't service that area), return NO_MATCH" ].

Definition matcher_user_message (cancellation_reason offers_db : string) : string :=
  Py.text
  [ "Please find the best retention offer for this customer.";
    "";
    "CANCELLATION REASON: " +:+ cancellation_reason;
    "";
    offers_db;
    "";
    "Follow your process to analyze this reason and return your recommendation in the specified JSON format." ].

Definition writer_system_message : string := Py.text
  [ "ROLE: You are an email writer for customer retention.";
    "";
    "TASK: Write a brief, friendly email to convince customers to stay using a matched offer.";
    "";
    "INPUT: ";
    "- Matched offer (or " +:+ quoted "NO_MATCH" +:+ ")";
    "- Customer's cancellation reason";
    "- Customer email";
    "";
    "OUTPUT:";
    "- If offer is " +:+ quoted "NO_MATCH" +:+ ": return only " +:+ quoted "NO_MATCH";
    "- If offer exists: write a 100-150 word email (no subject line)";
    "";
    "CONSTRAINTS:";
    "- Start with the Hey Customer_Name (you can extract it from the email):";
    "- Acknowledge their cancellation reason";
    "- Explain how the offer solves their problem";
    "- End with: " +:+ quoted ("Best regards," +:+ Py.nl +:+ "The Customer Team");
    "- Be warm and professional, not pushy";
    "- Include a clear next step for them to take";
    "";
    "STRUCTURE:";
    "1. Friendly greeting";
    "2. Acknowledge their concern (1 sentence)";
    "3. Present the offer as a solution (2-3 sentences)";
    "4. Call-to-action (1 sentence)";
    "5. Signature" ].

Definition writer_user_message (matched_offer cancellation_reason customer_email : string)
  : string := Py.text
  [ "Write a retention email:";
    "";
    "Matched offer: " +:+ matched_offer;
    "Cancellation reason: " +:+ cancellation_reason;
    "Customer email: " +:+ customer_email ].

Definition matcher_request (client cancellation_reason offers_db : string) : chat_request :=
  mkChat client "gpt-4o-mini" matcher_system_message
    (matcher_user_message cancellation_reason offers_db) true "0.3".

Definition writer_request (client matched_offer cancellation_reason customer_email : string)
  : chat_request :=
  mkChat client "gpt-4o-mini" writer_system_message
    (writer_user_message matched_offer cancellation_reason customer_email) false "0.7".

Definition team_notification_body (customer_id customer_email date_cancelled : string)
  : string := Py.text
  [ "A customer cancellation was detected but no matching retention offer was found.";
    "";
    "Please review manually:";
    "";
    "Customer's ID: " +:+ customer_id;
    "";
    "Email: " +:+ customer_email;
    "";
    "Date Cancelled: " +:+ date_cancelled;
    "";
    "";
    "Thank you,";
    "" ].

Definition retention_subject : string :=
  "We'd Love to Keep You - Special Retention Offer".

Definition team_subject : string :=
  "Manual Review Required - Customer Cancellation".

(** ** Helpers for dicts and f-strings *)

(** [d.get(key, default)]; [JNull] stands for the default [None].  A value
    that is not a dict has no [get]. *)
Definition dict_get (d : json) (key : string) (default : json) : py json :=
  match d with
  | JObj items =>
      ret (match assoc key items with Some v => v | None => default end)
  | _ =>
      raise (AttributeError
               (Py.sq +:+ type_name d +:+ "' object has no attribute 'get'"))
  end.

(** [v != s] for a string literal [s]: a value that is not a string differs. *)
Definition ne_str (v : json) (s : string) : bool :=
  match v with
  | JStr t => negb (String.eqb t s)
  | _ => true
  end.

(** [st.metric(label, value)] accepts an int, a float, a str or None. *)
Definition st_metric (str_value : string) (value : json) : py unit :=
  match value with
  | JArr _ | JObj _ =>
      raise (TypeError
               (Py.sq +:+ str_value +:+ "' is of type <class '" +:+ type_name value
                +:+ "'>, which is not an accepted type. value only accepts: int, float, str, or None. Please convert the value to an accepted type."))
  | _ => ret tt
  end.

(** ** The agents and the mail functions *)

Section Pipeline.

Variable env : environ.
Variable sv : services.

(** [{v}] inside an f-string. *)
Definition format_value (v : json) : string :=
  match v with
  | JNull => "None"
  | JBool b => if b then "True" else "False"
  | JInt n => pretty n
  | JFloat r => r
  | JStr s => s
  | JArr _ | JObj _ => py_repr sv v
  end.

Definition get_openai_client : py string :=
  let api_key := SECRET_OPENAI_API_KEY env in
  let api_key := if negb (Py.truthy api_key) then OPENAI_API_KEY env else api_key in
  if negb (Py.truthy api_key) then st_stop else ret (default "" api_key).

Definition chat_completions_create (req : chat_request) : py (option string) :=
  fun s =>
    (match chat sv (chat_log s) req with
     | inl e => Raise (Exc e)
     | inr content => Return content
     end,
     mkState (session s) (chat_log s ++ [req]) (smtp_log s)).

Definition loads (content : option string) : py json :=
  match content with
  | None =>
      raise (TypeError "the JSON object must be str, bytes or bytearray, not NoneType")
  | Some c =>
      match json_loads sv c with
      | inl e => raise e
      | inr v => ret v
      end
  end.

Definition no_match_decision (e : exc) : json :=
  JObj [ ("OFFER_CODE", JStr "NO_MATCH");
         ("OFFER_NAME", JStr "None");
         ("MATCH_REASONING", JStr ("Error occurred: " +:+ exc_str e)) ].

(** Agent 1: matches cancellation reasons with retention offers. *)
Definition offer_matcher_agent (client cancellation_reason offers_db : string)
  : py json :=
  try_except
    (content <- chat_completions_create
                  (matcher_request client cancellation_reason offers_db);;
     result <- loads content;;
     ret result)
    [ (Exception, fun e => ret (no_match_decision e)) ].

Definition content_strip (content : option string) : py string :=
  match content with
  | None => raise (AttributeError "'NoneType' object has no attribute 'strip'")
  | Some c => ret (Py.strip (unicode_strip sv) c)
  end.

(** Agent 2: writes retention emails based on matched offers. *)
Definition email_writer_agent
  (client matched_offer cancellation_reason customer_email : string) : py string :=
  try_except
    (content <- chat_completions_create
                  (writer_request client matched_offer cancellation_reason customer_email);;
     content_strip content)
    [ (Exception,
       fun e => ret ("Error occurred while generating email: " +:+ exc_str e)) ].

Definition smtp_session (c : smtp_call) : py send_errors :=
  fun s =>
    (match smtp sv (smtp_log s) c with
     | inl e => Raise (Exc e)
     | inr errs => Return errs
     end,
     mkState (session s) (chat_log s) (smtp_log s ++ [c])).

(** [int(smtp_port) if smtp_port else 587] *)
Definition port_or_default (smtp_port : option string) : py Z :=
  match smtp_port with
  | Some p =>
      if String.eqb p "" then ret 587%Z
      else match py_int sv p with
           | inl msg => raise (ValueError msg)
           | inr n => ret n
           end
  | None => ret 587%Z
  end.

(** Lines 252-269 of [send_email]: the server and port to connect to, or
    [None] where the function returns the custom-domain message. *)
Definition resolve_endpoint (sender_email : string) : py (option (string * Z)) :=
  if negb (Py.truthy (SMTP_SERVER env)) then
    (* Auto-detect based on email domain *)
    if Py.contains "gmail.com" (Py.lower (unicode_lower sv) sender_email) then
      p <- port_or_default (SMTP_PORT env);; ret (Some ("smtp.gmail.com", p))
    else if Py.contains "outlook.com" (Py.lower (unicode_lower sv) sender_email)
            || Py.contains "hotmail.com" (Py.lower (unicode_lower sv) sender_email) then
      p <- port_or_default (SMTP_PORT env);; ret (Some ("smtp-mail.outlook.com", p))
    else if Py.contains "yahoo.com" (Py.lower (unicode_lower sv) sender_email) then
      p <- port_or_default (SMTP_PORT env);; ret (Some ("smtp.mail.yahoo.com", p))
    else
      (* For custom domains, require SMTP settings to be set *)
      ret None
  else
    (* Use provided SMTP settings *)
    p <- port_or_default (SMTP_PORT env);;
    ret (Some (default "" (SMTP_SERVER env), p)).

Definition msg_configuration_missing : string :=
  "Email configuration missing. Please set SENDER_EMAIL and SENDER_PASSWORD in .env file".

Definition msg_invalid_format (to_email sender_email : string) : string :=
  "Invalid email format. To: " +:+ to_email +:+ ", From: " +:+ sender_email.

Definition msg_custom_domain (sender_email : string) : string :=
  "Custom email domain detected (" +:+ sender_email
  +:+ "). Please set SMTP_SERVER and SMTP_PORT in .env file. For Gmail-hosted custom domains, use smtp.gmail.com:587".

Definition msg_send_errors (errs : send_errors) : string :=
  "Email sending reported errors: " +:+ repr_errors sv errs.

Definition msg_sent (to_email : string) : string :=
  "Email sent successfully to " +:+ to_email +:+ "! Check your inbox (and spam folder).".

Definition msg_authentication (e : exc) : string :=
  "Authentication failed: " +:+ exc_str e
  +:+ ". Check your email and password. For Gmail, use an App Password. For custom domains, verify SMTP credentials.".

Definition msg_smtp (e : exc) : string :=
  "SMTP error: " +:+ exc_str e +:+ ". Check SMTP_SERVER and SMTP_PORT settings.".

Definition msg_other (e : exc) : string :=
  "Error sending email (" +:+ exc_type_name e +:+ "): " +:+ exc_str e
  +:+ ". Verify your email configuration in .env file.".

(** The body of the [try] of [send_email]. *)
Definition send_email_body (to_email subject body : string) : py (bool * string) :=
  let sender_email := default "" (SENDER_EMAIL env) in
  let sender_password := default "" (SENDER_PASSWORD env) in
  if negb (Py.truthy (SENDER_EMAIL env)) || negb (Py.truthy (SENDER_PASSWORD env)) then
    ret (false, msg_configuration_missing)
  else if negb (Py.contains "@" to_email) || negb (Py.contains "@" sender_email) then
    ret (false, msg_invalid_format to_email sender_email)
  else
    endpoint <- resolve_endpoint sender_email;;
    match endpoint with
    | None => ret (false, msg_custom_domain sender_email)
    | Some (smtp_server, smtp_port) =>
        errs <- smtp_session
                  (mkSmtp smtp_server smtp_port 10 sender_email sender_password
                     sender_email [to_email]
                     sender_email to_email subject body);;
        match errs with
        | _ :: _ => ret (false, msg_send_errors errs)
        | [] => ret (true, msg_sent to_email)
        end
    end.

(** Send an email using SMTP (supports Gmail and custom domains). *)
Definition send_email (to_email subject body : string) : py (bool * string) :=
  try_except (send_email_body to_email subject body)
    [ (SMTPAuthenticationError, fun e => ret (false, msg_authentication e));
      (SMTPException, fun e => ret (false, msg_smtp e));
      (Exception, fun e => ret (false, msg_other e)) ].

(** Send notification email to team when no match is found. *)
Definition send_team_notification (customer_id customer_email date_cancelled : string)
  : py (bool * string) :=
  (* Use SENDER_EMAIL as the team email address *)
  let team_email := SENDER_EMAIL env in
  if negb (Py.truthy team_email) then
    ret (false, "SENDER_EMAIL not set in .env file")
  else
    send_email (default "" team_email) team_subject
      (team_notification_body customer_id customer_email date_cancelled).

(** ** The single-record tab *)

Record form_input : Type := mkForm {
  form_customer_id : string;
  form_customer_email : string;
  form_cancellation_reason : string;
  form_date_cancelled : string       (* str(date_cancelled) *)
}.

Definition yes_no (is_match : bool) : string := if is_match then "Yes" else "No".

(** Lines 366-431: the form was submitted with a reason. *)
Definition process_cancellation (f : form_input) : py unit :=
  let customer_id := form_customer_id f in
  let customer_email := form_customer_email f in
  let cancellation_reason := form_cancellation_reason f in
  (* Reset email sent status for new processing *)
  modify_session (set_email_sent false);;
  modify_session (set_team_notification_sent false);;
  client <- get_openai_client;;
  let offers_db := get_offers_database in
  match_result <- offer_matcher_agent client cancellation_reason offers_db;;
  shown_code <- dict_get match_result "OFFER_CODE" (JStr "N/A");;
  st_metric (format_value shown_code) shown_code;;
  shown_name <- dict_get match_result "OFFER_NAME" (JStr "N/A");;
  st_metric (format_value shown_name) shown_name;;
  code <- dict_get match_result "OFFER_CODE" JNull;;
  name <- dict_get match_result "OFFER_NAME" JNull;;
  let matched_offer_text := format_value code +:+ " - " +:+ format_value name in
  email_content <- email_writer_agent client matched_offer_text
                     cancellation_reason customer_email;;
  checked_code <- dict_get match_result "OFFER_CODE" (JStr "NO_MATCH");;
  let is_match :=
    ne_str checked_code "NO_MATCH" && negb (String.eqb email_content "NO_MATCH") in
  modify_session
    (set_processed_data
       (Some (mkProcessed customer_id customer_email cancellation_reason
                (form_date_cancelled f) match_result email_content is_match))).

(** Lines 434-521: the stored result is displayed; [send_clicked] tells
    whether the run was started by the Send Email button. *)
Definition display_processed (send_clicked : bool) : py unit :=
  ss <- get_session;;
  match processed_data ss with
  | None => ret tt
  | Some data =>
      if pd_is_match data then
        (* the button is disabled once the email is sent *)
        if send_clicked && negb (email_sent ss) then
          r <- send_email (pd_customer_email data) retention_subject
                 (pd_email_content data);;
          if fst r then modify_session (set_email_sent true);; st_rerun
          else ret tt
        else ret tt
      else
        (* Send notification email to team (only once) *)
        if negb (team_notification_sent ss) then
          r <- send_team_notification (pd_customer_id data) (pd_customer_email data)
                 (pd_date_cancelled data);;
          if fst r then modify_session (set_team_notification_sent true)
          else ret tt
        else ret tt
  end.

Inductive tab1_event : Type :=
  | NoTab1Event
  | FormSubmitted (f : form_input)
  | SendEmailClicked
  | CopyEmailClicked.

Definition tab1 (ev : tab1_event) : py unit :=
  match ev with
  | FormSubmitted f =>
      (if negb (String.eqb (form_cancellation_reason f) "")
       then process_cancellation f else ret tt);;
      display_processed false
  | SendEmailClicked => display_processed true
  | NoTab1Event | CopyEmailClicked => display_processed false
  end.

(** ** The batch tab *)

(** A cell of the uploaded frame: missing, or a value given by its [str]. *)
Inductive cell : Type :=
  | NaN
  | Cell (s : string).

Definition cell_str (c : cell) : string :=
  match c with
  | NaN => "nan"
  | Cell s => s
  end.

(** The index label of a row, the [idx] of [df.iterrows()].  A frame
    read by [pd.read_csv(uploaded_file)] has the labels 0, 1, 2, ... of a
    range index, unless the data lines of the file hold one field more
    than its header: then the first field of each line is the label of
    its row, and labels may repeat and need not be numbers.  A label
    that is not an int carries what [f"CUST-{idx+1:03d}"] raises for it:
    a [TypeError] for a str, a [ValueError] for a float. *)
Inductive label : Type :=
  | IntLabel (n : Z)
  | OtherLabel (raised : exc).

(** A row of the frame.  The two optional columns are [None] where the
    frame has no such column. *)
Record df_row : Type := mkDfRow {
  row_label : label;
  col_Email : cell;
  col_Cancellation_Reason : cell;
  col_Customer_ID : option cell;
  col_Date_Cancelled : option cell
}.

(** Lines 561-576: the fields read from the row of label [idx]. *)
Definition row_customer_email (row : df_row) : string :=
  Py.strip (unicode_strip sv) (cell_str (col_Email row)).

Definition row_cancellation_reason (row : df_row) : string :=
  Py.strip (unicode_strip sv) (cell_str (col_Cancellation_Reason row)).

Definition row_customer_id (idx : Z) (row : df_row) : string :=
  let generated_id := "CUST-" +:+ Py.fmt_03d (idx + 1) in
  match col_Customer_ID row with
  | Some (Cell s) => Py.strip (unicode_strip sv) s
  | Some NaN => generated_id
  | None => Py.strip (unicode_strip sv) generated_id
  end.

Definition row_date_cancelled (row : df_row) : string :=
  match col_Date_Cancelled row with
  | Some (Cell s) => s
  | Some NaN | None => today sv
  end.

(** [progress_bar.progress(a / b)], line 579: a float in [0.0, 1.0] is
    accepted, which [a / b] is for every [a] from 0 to [b]. *)
Definition progress (a : Z) (b : nat) : py unit :=
  match b with
  | O => raise (mkExc Exception "ZeroDivisionError" "division by zero")
  | _ =>
      if ((0 <=? a) && (a <=? Z.of_nat b))%Z then ret tt
      else match progress_rejects sv a b with
           | Some e => raise e
           | None => ret tt
           end
  end.

(** What lines 565 and 579 do with the label of a row in a frame of
    [total] rows, before anything is asked of the service: [idx+1] is
    formatted, whatever the columns of the row, and the progress bar is
    moved to [(idx + 1) / len(df)]. *)
Definition accept_label (total : nat) (l : label) : py Z :=
  match l with
  | OtherLabel e => raise e
  | IntLabel idx => progress (idx + 1) total;; ret idx
  end.

(** The body of the loop of lines 560-607 for a row whose label is the
    int [idx], once [accept_label] has passed. *)
Definition process_row (client offers_db : string) (idx : Z) (row : df_row)
  : py result_row :=
  let customer_email := row_customer_email row in
  let cancellation_reason := row_cancellation_reason row in
  let customer_id := row_customer_id idx row in
  let date_cancelled := row_date_cancelled row in
  (* Match offer *)
  match_result <- offer_matcher_agent client cancellation_reason offers_db;;
  (* Generate email *)
  code <- dict_get match_result "OFFER_CODE" JNull;;
  name <- dict_get match_result "OFFER_NAME" JNull;;
  let matched_offer_text := format_value code +:+ " - " +:+ format_value name in
  email_content <- email_writer_agent client matched_offer_text
                     cancellation_reason customer_email;;
  checked_code <- dict_get match_result "OFFER_CODE" (JStr "NO_MATCH");;
  let is_match :=
    ne_str checked_code "NO_MATCH" && negb (String.eqb email_content "NO_MATCH") in
  row_code <- dict_get match_result "OFFER_CODE" (JStr "NO_MATCH");;
  row_name <- dict_get match_result "OFFER_NAME" (JStr "None");;
  ret (mkRow customer_id customer_email date_cancelled cancellation_reason
         row_code row_name (yes_no is_match) email_content false).

(** [for idx, row in df.iterrows(): ... results.append({...})] in a frame
    of [total] rows. *)
Fixpoint process_rows (client offers_db : string) (total : nat)
  (rows : list (label * df_row)) (results : list result_row)
  : py (list result_row) :=
  match rows with
  | [] => ret results
  | (l, row) :: rest =>
      idx <- accept_label total l;;
      r <- process_row client offers_db idx row;;
      process_rows client offers_db total rest (results ++ [r])
  end.

(** [df.iterrows()]: the rows in the order of the frame, each with its
    index label. *)
Definition iterrows (df : list df_row) : list (label * df_row) :=
  map (fun row => (row_label row, row)) df.

(** What the uploader holds. *)
Inductive upload : Type :=
  | NoFile
  | Unreadable (e : exc)         (* pd.read_csv raises *)
  | MissingColumns               (* 'Email' or 'Cancellation Reason' is absent *)
  | Frame (df : list df_row).

(** Lines 534-615; [clicked] tells whether the run was started by the
    Process All Cancellations button. *)
Definition process_all_cancellations (up : upload) (clicked : bool) : py unit :=
  match up with
  | NoFile => ret tt
  | _ =>
      try_except
        (match up with
         | Unreadable e => raise e
         | Frame df =>
             if clicked then
               client <- get_openai_client;;
               let offers_db := get_offers_database in
               results <- process_rows client offers_db (length df) (iterrows df) [];;
               (* Store results in session state *)
               modify_session (set_csv_results (Some results));;
               st_rerun
             else ret tt
         | _ => ret tt
         end)
        [ (Exception, fun e => ret tt) ]
  end.

(** The dicts of [results] a list comprehension keeps, as references. *)
Fixpoint select_refs (keep : result_row -> bool) (first : nat)
  (results : list result_row) : list nat :=
  match results with
  | [] => []
  | r :: rest =>
      if keep r then first :: select_refs keep (S first) rest
      else select_refs keep (S first) rest
  end.

Definition unsent_match (r : result_row) : bool :=
  String.eqb (Match_Found r) "Yes" && negb (Email_Sent r).

Definition no_match (r : result_row) : bool :=
  String.eqb (Match_Found r) "No".

Definition current_results (ss : session_state) : list result_row :=
  default [] (csv_results ss).

(** [matched_results] of line 640. *)
Definition matched_results (ss : session_state) : list nat :=
  select_refs unsent_match 0 (current_results ss).

(** [no_match_results] of line 679. *)
Definition no_match_results (ss : session_state) : list nat :=
  select_refs no_match 0 (current_results ss).

Definition mark_sent (r : result_row) : result_row :=
  mkRow (Customer_ID r) (Email r) (Date_Cancelled r) (Cancellation_Reason r)
    (Offer_Code r) (Offer_Name r) (Match_Found r) (Email_Content r) true.

(** [result['Email Sent'] = True] on the dict referred to by [ref]. *)
Definition set_sent (ref : nat) (ss : session_state) : session_state :=
  set_csv_results (alter mark_sent ref <$> csv_results ss) ss.

(** One turn of the loop of lines 654-668. *)
Definition send_one (ref : nat) (counts : nat * nat) : py (nat * nat) :=
  let '(success_count, fail_count) := counts in
  ss <- get_session;;
  match current_results ss !! ref with
  | None => ret counts
  | Some result =>
      r <- send_email (Email result) retention_subject (Email_Content result);;
      if fst r then
        modify_session (set_sent ref);;
        ret (S success_count, fail_count)
      else ret (success_count, S fail_count)
  end.

Fixpoint send_all_loop (refs : list nat) (counts : nat * nat) : py (nat * nat) :=
  match refs with
  | [] => ret counts
  | ref :: rest => counts' <- send_one ref counts;; send_all_loop rest counts'
  end.

(** Lines 640-676; [clicked] tells whether the run was started by the
    Send All Emails button, which exists only while [matched_results] is
    not empty. *)
Definition send_all_emails (clicked : bool) : py unit :=
  ss <- get_session;;
  match matched_results ss with
  | [] => ret tt
  | refs =>
      if clicked then
        counts <- send_all_loop refs (0, 0);;
        st_rerun
      else ret tt
  end.

Definition notify_one (ref : nat) : py unit :=
  ss <- get_session;;
  match current_results ss !! ref with
  | None => ret tt
  | Some result =>
      send_team_notification (Customer_ID result) (Email result)
        (Date_Cancelled result);;
      ret tt
  end.

Fixpoint notify_loop (refs : list nat) : py unit :=
  match refs with
  | [] => ret tt
  | ref :: rest => notify_one ref;; notify_loop rest
  end.

(** Lines 679-694. *)
Definition send_team_notifications (clicked : bool) : py unit :=
  ss <- get_session;;
  match no_match_results ss with
  | [] => ret tt
  | refs => if clicked then notify_loop refs else ret tt
  end.

(** The frame handed to [to_csv]: its header and its rows. *)
Record export_row : Type := mkExport {
  x_Customer_ID : string;
  x_Email : string;
  x_Date_Cancelled : string;
  x_Cancellation_Reason : string;
  x_Offer_Code : json;
  x_Offer_Name : json;
  x_Match_Found : string;
  x_Email_Sent : bool
}.

Definition export_header : list string :=
  [ "Customer ID"; "Email"; "Date Cancelled"; "Cancellation Reason";
    "Offer Code"; "Offer Name"; "Match Found"; "Email Sent" ].

Definition export_of (r : result_row) : export_row :=
  mkExport (Customer_ID r) (Email r) (Date_Cancelled r) (Cancellation_Reason r)
    (Offer_Code r) (Offer_Name r) (Match_Found r) (Email_Sent r).

(** Lines 698-700: [csv_results_export]. *)
Definition csv_results_export (ss : session_state) : list string * list export_row :=
  (export_header, map export_of (current_results ss)).

Inductive tab2_event : Type :=
  | NoTab2Event
  | ProcessAllClicked
  | SendAllClicked
  | SendTeamNotificationsClicked.

Definition is_event (ev expected : tab2_event) : bool :=
  match ev, expected with
  | ProcessAllClicked, ProcessAllClicked => true
  | SendAllClicked, SendAllClicked => true
  | SendTeamNotificationsClicked, SendTeamNotificationsClicked => true
  | _, _ => false
  end.

(** The batch tab; its value is the frame behind the download button,
    when the results are displayed. *)
Definition tab2 (up : upload) (ev : tab2_event)
  : py (option (list string * list export_row)) :=
  process_all_cancellations up (is_event ev ProcessAllClicked);;
  ss <- get_session;;
  match current_results ss with
  | [] => ret None
  | _ =>
      send_all_emails (is_event ev SendAllClicked);;
      send_team_notifications (is_event ev SendTeamNotificationsClicked);;
      ss' <- get_session;;
      ret (Some (csv_results_export ss'))
  end.

(** ** The script *)

Inductive event : Type :=
  | Rerun                         (* a run no widget started *)
  | ResetClicked
  | Tab1 (ev : tab1_event)
  | Tab2 (ev : tab2_event).

Definition main (up : upload) (ev : event)
  : py (option (list string * list export_row)) :=
  (match ev with
   | ResetClicked => modify_session (fun _ => initial_session);; st_rerun
   | _ => ret tt
   end);;
  tab1 (match ev with Tab1 e => e | _ => NoTab1Event end);;
  tab2 up (match ev with Tab2 e => e | _ => NoTab2Event end).

End Pipeline.

(** ** Vocabulary of the statements *)

(** The domain of an address: what follows its last [@]. *)
Fixpoint domain_of (address : string) : string :=
  match address with
  | EmptyString => EmptyString
  | String c rest =>
      if Py.contains "@" rest then domain_of rest
      else if Ascii.eqb c "@" then rest
      else String c rest
  end.

(** The provider domains [send_email] knows. *)
Definition known_domains : list string :=
  [ "gmail.com"; "outlook.com"; "hotmail.com"; "yahoo.com" ].

Definition is_dict (v : json) : bool :=
  match v with
  | JObj _ => true
  | _ => false
  end.

(** A value [st.metric] accepts. *)
Definition is_metric_value (v : json) : bool :=
  match v with
  | JArr _ | JObj _ => false
  | _ => true
  end.

(** The value of a key of a decision, with the default the script uses
    where it stores the decision. *)
Definition decision_field (d : json) (key : string) (default : json) : json :=
  match d with
  | JObj items => match assoc key items with Some v => v | None => default end
  | _ => default
  end.

(** The offer text both workflows hand to the email writer. *)
Definition matched_offer_text (sv : services) (d : json) : string :=
  format_value sv (decision_field d "OFFER_CODE" JNull)
  +:+ " - " +:+ format_value sv (decision_field d "OFFER_NAME" JNull).

(** [is_match] of both workflows, for a decision and a draft. *)
Definition is_match_of (d : json) (email_content : string) : bool :=
  ne_str (decision_field d "OFFER_CODE" (JStr "NO_MATCH")) "NO_MATCH"
  && negb (String.eqb email_content "NO_MATCH").

Definition no_get_error (d : json) : exc :=
  AttributeError (Py.sq +:+ type_name d +:+ "' object has no attribute 'get'").

(** The decisions the single-record workflow can display: a dict whose
    code and name [st.metric] accepts. *)
Definition displayable (d : json) : bool :=
  is_dict d
  && is_metric_value (decision_field d "OFFER_CODE" (JStr "N/A"))
  && is_metric_value (decision_field d "OFFER_NAME" (JStr "N/A")).

(** The codes a decision may carry according to the data model. *)
Definition allowed_codes : list json := map JStr ("NO_MATCH" :: catalog_codes).

Definition with_session (ss : session_state) (s : state) : state :=
  mkState ss (chat_log s) (smtp_log s).

Definition count_true (oks : list bool) : nat := length (List.filter (fun b => b) oks).
Definition count_false (oks : list bool) : nat := length (List.filter negb oks).

(** An SMTP session that carries the retention email of the dict [r]. *)
Definition carries (r : result_row) (c : smtp_call) : Prop :=
  smtp_rcpt c = [Email r] /\ msg_to c = Email r
  /\ msg_subject c = retention_subject /\ msg_body c = Email_Content r.

(** The labels 0, 1, ..., n-1 of a range index. *)
Definition range_index (n : nat) : list label :=
  map (fun i => IntLabel (Z.of_nat i)) (seq 0 n).

(** The frame has the index [pd.read_csv] gives a file whose lines hold
    as many fields as its header: the label of a row is its position. *)
Definition has_range_index (df : list df_row) : Prop :=
  map row_label df = range_index (length df).


Section Runs.

Variable env : environ.
Variable sv : services.

(** The message of the clause of [send_email] that handles [e]. *)
Definition handler_message (e : exc) : string :=
  match exc_class_of e with
  | SMTPAuthenticationError => msg_authentication e
  | SMTPException => msg_smtp e
  | Exception => msg_other e
  end.

(** What [send_email] returns once the SMTP session [c] was opened after
    the sessions [log]. *)
Definition session_result (log : list smtp_call) (c : smtp_call) (to_email : string)
  : bool * string :=
  match smtp sv log c with
  | inl e => (false, handler_message e)
  | inr [] => (true, msg_sent to_email)
  | inr errs => (false, msg_send_errors sv errs)
  end.

Definition log_chat (req : chat_request) (s : state) : state :=
  mkState (session s) (chat_log s ++ [req]) (smtp_log s).

Definition content_type_error : exc :=
  TypeError "the JSON object must be str, bytes or bytearray, not NoneType".

(** The exception raised inside the [try] of the matcher, when the
    reasoning call fails: the request raises, the reply has no content, or
    the content does not parse. *)
Definition matcher_failure (log : list chat_request) (req : chat_request) : option exc :=
  match chat sv log req with
  | inl e => Some e
  | inr None => Some content_type_error
  | inr (Some content) =>
      match json_loads sv content with
      | inl e => Some e
      | inr _ => None
      end
  end.

(** The decision the matcher returns for the reply of the service. *)
Definition matcher_decision (log : list chat_request) (req : chat_request) : json :=
  match chat sv log req with
  | inl e => no_match_decision e
  | inr None => no_match_decision content_type_error
  | inr (Some content) =>
      match json_loads sv content with
      | inl e => no_match_decision e
      | inr v => v
      end
  end.

(** The draft the email writer returns for the reply of the service. *)
Definition writer_draft (log : list chat_request) (req : chat_request) : string :=
  match chat sv log req with
  | inl e => "Error occurred while generating email: " +:+ exc_str e
  | inr None =>
      "Error occurred while generating email: 'NoneType' object has no attribute 'strip'"
  | inr (Some content) => Py.strip (unicode_strip sv) content
  end.

(** The dict the batch loop appends for a row, given the decision and the
    draft. *)
Definition row_result (idx : Z) (row : df_row) (d : json) (email_content : string)
  : result_row :=
  mkRow (row_customer_id sv idx row) (row_customer_email sv row)
    (row_date_cancelled sv row) (row_cancellation_reason sv row)
    (decision_field d "OFFER_CODE" (JStr "NO_MATCH"))
    (decision_field d "OFFER_NAME" (JStr "None"))
    (yes_no (is_match_of d email_content)) email_content false.

(** The dict appended for a row carries the fields of that row. *)
Definition row_of (idx : Z) (row : df_row) (r : result_row) : Prop :=
  exists d draft, r = row_result idx row d draft.

(** The result the single-record workflow stores for a form. *)
Definition form_result (f : form_input) (d : json) (email_content : string) : processed :=
  mkProcessed (form_customer_id f) (form_customer_email f)
    (form_cancellation_reason f) (form_date_cancelled f)
    d email_content (is_match_of d email_content).

(** An API key is found, in the secrets or in the environment. *)
Definition api_key_configured : bool :=
  Py.truthy (SECRET_OPENAI_API_KEY env) || Py.truthy (OPENAI_API_KEY env).

(** The service honours [response_format={"type": "json_object"}]: where
    the reply to such a request parses, it parses to a JSON object.
    Nothing is asked of [json.loads] on other texts. *)
Definition replies_with_json_objects : Prop :=
  forall log req content v,
    chat_json_object req = true ->
    chat sv log req = inr (Some content) ->
    json_loads sv content = inr v ->
    is_dict v = true.

(** The state after one dispatch of the Send All loop: a success marks
    the dict. *)
Definition after_dispatch (ok : bool) (ref : nat) (s : state) : state :=
  if ok then with_session (set_sent ref (session s)) s else s.

(** A run of the Send All loop over the references [refs]: the dict of
    each reference is dispatched in turn, [oks] lists whether each
    dispatch succeeded, and a success marks the dict before the next
    dispatch. *)
Inductive dispatch_run : list nat -> state -> list bool -> state -> Prop :=
  | dispatch_done s : dispatch_run [] s [] s
  | dispatch_next ref refs result ok message s s' s'' oks :
      current_results (session s) !! ref = Some result ->
      send_email env sv (Email result) retention_subject (Email_Content result) s
        = (Return (ok, message), s') ->
      dispatch_run refs (after_dispatch ok ref s') oks s'' ->
      dispatch_run (ref :: refs) s (ok :: oks) s''.

End Runs.

(** ** Concrete collaborators and environments *)

Module Demo.

Definition APIConnectionError : exc :=
  mkExc Exception "APIConnectionError" "Connection error.".

Definition JSONDecodeError : exc :=
  mkExc Exception "JSONDecodeError" "Expecting value: line 1 column 1 (char 0)".

Definition SMTPServerDisconnected : exc :=
  mkExc SMTPException "SMTPServerDisconnected" "Connection unexpectedly closed".

Definition BadCredentials : exc :=
  mkExc SMTPAuthenticationError "SMTPAuthenticationError"
    "(535, b'5.7.8 Username and Password not accepted.')".

(** A JSON object of three string members, as text. *)
Definition reply_text (code name reasoning : string) : string :=
  "{" +:+ quoted "OFFER_CODE" +:+ ": " +:+ quoted code +:+ ", "
  +:+ quoted "OFFER_NAME" +:+ ": " +:+ quoted name +:+ ", "
  +:+ quoted "MATCH_REASONING" +:+ ": " +:+ quoted reasoning +:+ "}".

Definition reply_value (code name reasoning : string) : json :=
  JObj [ ("OFFER_CODE", JStr code); ("OFFER_NAME", JStr name);
         ("MATCH_REASONING", JStr reasoning) ].

Definition price_reply : string :=
  reply_text "PRICE_DISC_20" "20% Discount for 6 Months"
    "The customer finds the price too high.".
Definition price_decision : json :=
  reply_value "PRICE_DISC_20" "20% Discount for 6 Months"
    "The customer finds the price too high.".

Definition no_match_reply : string :=
  reply_text "NO_MATCH" "None" "No offer addresses a relocation.".
Definition service_no_match : json :=
  reply_value "NO_MATCH" "None" "No offer addresses a relocation.".

Definition fabricated_reply : string :=
  reply_text "LOYALTY_50" "50% Loyalty Discount" "A loyalty discount keeps the customer.".
Definition fabricated_decision : json :=
  reply_value "LOYALTY_50" "50% Loyalty Discount" "A loyalty discount keeps the customer.".

(** [json.loads] on the three replies above and on the empty array; any
    other text is taken not to parse. *)
Definition loads_replies (content : string) : exc + json :=
  if String.eqb content price_reply then inr price_decision
  else if String.eqb content no_match_reply then inr service_no_match
  else if String.eqb content fabricated_reply then inr fabricated_decision
  else if String.eqb content "[]" then inr (JArr [])
  else inl JSONDecodeError.

(** [str.lower] on the strings of the examples: the letters A-Z, and the
    Kelvin sign U+212A, whose lower case is the letter k. *)
Fixpoint lower_utf8 (s : string) : string :=
  match s with
  | EmptyString => EmptyString
  | String c t =>
      match t with
      | String c2 (String c3 t3) =>
          if Ascii.eqb c "226" && Ascii.eqb c2 "132" && Ascii.eqb c3 "170"
          then String "k" (lower_utf8 t3)
          else String (Py.lower_char c) (lower_utf8 t)
      | _ => String (Py.lower_char c) (lower_utf8 t)
      end
  end.

(** The whitespace of Unicode outside ASCII, in UTF-8: U+0085 and U+00A0
    take two bytes, U+1680, U+2000-U+200A, U+2028, U+2029, U+202F, U+205F
    and U+3000 three. *)
Definition space2 (a b : ascii) : bool :=
  Ascii.eqb a "194" && (Ascii.eqb b "133" || Ascii.eqb b "160").

Definition space3 (a b c : ascii) : bool :=
  let n := nat_of_ascii c in
  (Ascii.eqb a "225" && Ascii.eqb b "154" && Ascii.eqb c "128")
  || (Ascii.eqb a "226" && Ascii.eqb b "128"
      && (((128 <=? n)%nat && (n <=? 138)%nat)
          || (n =? 168)%nat || (n =? 169)%nat || (n =? 175)%nat))
  || (Ascii.eqb a "226" && Ascii.eqb b "129" && Ascii.eqb c "159")
  || (Ascii.eqb a "227" && Ascii.eqb b "128" && Ascii.eqb c "128").

(** Whitespace removed from the front of a string; [backwards] reads a
    reversed string, so that the bytes of a character come last first. *)
Fixpoint lstrip_utf8 (backwards : bool) (s : string) : string :=
  match s with
  | EmptyString => EmptyString
  | String a t =>
      if Py.is_space a then lstrip_utf8 backwards t
      else match t with
           | String b u =>
               if (if backwards then space2 b a else space2 a b)
               then lstrip_utf8 backwards u
               else match u with
                    | String c v =>
                        if (if backwards then space3 c b a else space3 a b c)
                        then lstrip_utf8 backwards v
                        else s
                    | EmptyString => s
                    end
           | EmptyString => s
           end
  end.

(** [str.strip] on a str given in UTF-8. *)
Definition strip_utf8 (s : string) : string :=
  String.rev (lstrip_utf8 true (String.rev (lstrip_utf8 false s))).

(** ["%f" % (a / b)], to six decimals. *)
Definition percent_f (a : Z) (b : nat) : string :=
  let scaled := ((2 * Z.abs a * 1000000 + Z.of_nat b) / (2 * Z.of_nat b))%Z in
  (if (a <? 0)%Z then "-" else "")
  +:+ pretty (scaled / 1000000)%Z +:+ "."
  +:+ Py.zero_pad 6 (pretty (Z.to_N (scaled mod 1000000))).

(** [st.progress] refuses every value outside [0.0, 1.0]. *)
Definition progress_refused (a : Z) (b : nat) : option exc :=
  Some (mkExc Exception "StreamlitAPIException"
          ("Progress Value has invalid value [0.0, 1.0]: " +:+ percent_f a b)).

(** [int] on the usual ports; any other text is taken not to be a number. *)
Definition int_ports (s : string) : string + Z :=
  if String.eqb s "587" then inr 587%Z
  else if String.eqb s "465" then inr 465%Z
  else if String.eqb s "25" then inr 25%Z
  else inl ("invalid literal for int() with base 10: " +:+ Py.sq +:+ s +:+ Py.sq).

Definition retention_email : string :=
  Py.text [ "Hey Customer,"; "";
            "We are sorry to see you go. Here is 20% off for 6 months.";
            "Reply to this email to accept."; "";
            "Best regards,"; "The Customer Team" ].

(** A service that matches a complaint about the price, finds no match
    for anything else, and writes the email its prompt asks for. *)
Definition helpful_chat (log : list chat_request) (req : chat_request)
  : exc + option string :=
  if chat_json_object req then
    if Py.contains "CANCELLATION REASON: The service is too expensive" (chat_user req)
    then inr (Some price_reply)
    else inr (Some no_match_reply)
  else
    if Py.contains "Matched offer: NO_MATCH" (chat_user req)
    then inr (Some "NO_MATCH")
    else inr (Some (retention_email +:+ Py.nl)).

Definition accepting_smtp (log : list smtp_call) (c : smtp_call) : exc + send_errors :=
  inr [].

(** A relay that drops the first session and accepts the later ones. *)
Definition flaky_smtp (log : list smtp_call) (c : smtp_call) : exc + send_errors :=
  match log with
  | [] => inl SMTPServerDisconnected
  | _ => inr []
  end.

Definition helpful : services :=
  mkServices helpful_chat accepting_smtp loads_replies int_ports
    (fun _ => "[...]") (fun _ => "{...}") "2026-01-15"
    lower_utf8 strip_utf8 progress_refused.

Definition helpful_flaky : services :=
  mkServices helpful_chat flaky_smtp loads_replies int_ports
    (fun _ => "[...]") (fun _ => "{...}") "2026-01-15"
    lower_utf8 strip_utf8 progress_refused.

(** The reasoning service is unreachable. *)
Definition down : services :=
  mkServices (fun _ _ => inl APIConnectionError) accepting_smtp loads_replies int_ports
    (fun _ => "[...]") (fun _ => "{...}") "2026-01-15"
    lower_utf8 strip_utf8 progress_refused.

(** The reasoning service answers with a code of its own making. *)
Definition fabricating : services :=
  mkServices (fun _ _ => inr (Some fabricated_reply)) accepting_smtp loads_replies
    int_ports (fun _ => "[...]") (fun _ => "{...}") "2026-01-15"
    lower_utf8 strip_utf8 progress_refused.



(** The reasoning service answers every request with an empty array. *)
Definition listing : services :=
  mkServices (fun _ _ => inr (Some "[]")) accepting_smtp loads_replies int_ports
    (fun _ => "[]") (fun _ => "{...}") "2026-01-15"
    lower_utf8 strip_utf8 progress_refused.

(** The no-break space U+00A0. *)
Definition nbsp : string := String "194" (String "160" EmptyString).

(** The writer's reply ends with a no-break space. *)
Definition padding : services :=
  mkServices (fun _ _ => inr (Some (" NO_MATCH" +:+ nbsp))) accepting_smtp
    loads_replies int_ports (fun _ => "[...]") (fun _ => "{...}") "2026-01-15"
    lower_utf8 strip_utf8 progress_refused.

Definition TimeoutError : exc := mkExc Exception "TimeoutError" "timed out".

(** A relay that answers every session with the given exception. *)
Definition refusing (e : exc) : services :=
  mkServices helpful_chat (fun _ _ => inl e) loads_replies int_ports
    (fun _ => "[...]") (fun _ => "{...}") "2026-01-15"
    lower_utf8 strip_utf8 progress_refused.

Definition gmail_env : environ :=
  mkEnv None (Some "sk-test") (Some "retention@gmail.com") (Some "app-password")
    None None.

(** A sender of a company domain whose local part names a provider. *)
Definition acme_env : environ :=
  mkEnv None (Some "sk-test") (Some "alerts.gmail.com@acme.io") (Some "app-password")
    None None.

Definition unset_env : environ := mkEnv None None None None None None.

Definition fresh : state := mkState initial_session [] [].

Definition frame3 : list df_row :=
  [ mkDfRow (IntLabel 0) (Cell "ann@example.com")
      (Cell "The service is too expensive for my budget") None None;
    mkDfRow (IntLabel 1) (Cell " bob@example.com ")
      (Cell "I am relocating to a country you do not serve") None None;
    mkDfRow (IntLabel 2) (Cell "cy@example.com")
      (Cell "The service is too expensive") None None ].

(** Two data lines that both begin with the field 0, under a header with
    one field less: the first field is the label of its row. *)
Definition frame_same_label : list df_row :=
  [ mkDfRow (IntLabel 0) (Cell "ann@example.com")
      (Cell "The service is too expensive for my budget") None None;
    mkDfRow (IntLabel 0) (Cell "cy@example.com")
      (Cell "The service is too expensive") None None ].

Definition str_plus_int : exc :=
  TypeError ("can only concatenate str (not " +:+ Py.dq +:+ "int" +:+ Py.dq
             +:+ ") to str").

(** Data lines that end with a delimiter the header does not have: the
    address is the label of its row, and the columns move by one. *)
Definition frame_trailing_delimiter : list df_row :=
  [ mkDfRow (OtherLabel str_plus_int) (Cell "The service is too expensive") NaN
      None None ].

Definition price_form : form_input :=
  mkForm "CUST-001" "customer@example.com"
    "The service is too expensive for my budget" "2026-01-15".

(** A session in which an earlier result was sent and notified. *)
Definition used : state :=
  mkState
    (mkSession
       (Some (mkProcessed "CUST-000" "old@example.com" "old reason" "2026-01-01"
                service_no_match "NO_MATCH" false))
       true true None)
    [] [].

Definition sent_row (id email : string) (sent : bool) : result_row :=
  mkRow id email "2026-01-15" "The service is too expensive"
    (JStr "PRICE_DISC_20") (JStr "20% Discount for 6 Months") "Yes"
    retention_email sent.

(** A batch of one matched dict not yet sent. *)
Definition one_unsent : state :=
  mkState (mkSession None false false (Some [sent_row "CUST-001" "ann@example.com" false]))
    [] [].

End Demo.

(** ** The summary of the batch tab *)

(** Lines 622-633: the three metrics shown above the results table. *)
Definition summary_metrics (ss : session_state) : nat * nat * nat :=
  let results_df := current_results ss in
  let matches :=
    length (List.filter (fun r => String.eqb (Match_Found r) "Yes") results_df) in
  let no_matches :=
    length (List.filter (fun r => String.eqb (Match_Found r) "No") results_df) in
  (length results_df, matches, no_matches).

(** ** Further vocabulary *)

Definition is_digit (c : ascii) : bool :=
  let n := nat_of_ascii c in (48 <=? n)%nat && (n <=? 57)%nat.

Fixpoint digits_only (s : string) : bool :=
  match s with
  | EmptyString => true
  | String c t => is_digit c && digits_only t
  end.

(** The number a string of decimal digits writes, read after [acc]. *)
Definition digit_value (c : ascii) : N := N.of_nat (nat_of_ascii c - 48).

Fixpoint number_from (acc : N) (s : string) : N :=
  match s with
  | EmptyString => acc
  | String c t => number_from (acc * 10 + digit_value c) t
  end.

(** A string of ASCII characters none of which is whitespace. *)
Fixpoint spaceless (s : string) : bool :=
  match s with
  | EmptyString => true
  | String c t =>
      negb (Py.is_space c) && (nat_of_ascii c <? 128)%nat && spaceless t
  end.

(** The id the batch loop generates for the row of label [idx]. *)
Definition generated_id (idx : Z) : string := "CUST-" +:+ Py.fmt_03d (idx + 1).

(** The row carries no customer id: the column is absent or the cell is
    missing. *)
Definition lacks_customer_id (row : df_row) : Prop :=
  col_Customer_ID row = None \/ col_Customer_ID row = Some NaN.

(** Dicts as the batch loop builds them: unsent, and labelled Yes or No. *)
Definition fresh_rows (results : list result_row) : Prop :=
  Forall (fun r => Email_Sent r = false
                   /\ (Match_Found r = "Yes" \/ Match_Found r = "No")) results.

(** A script fragment keeps a component of the state: however it ends,
    the component is what it was. *)
Definition keeps {A B : Type} (component : state -> B) (m : py A) : Prop :=
  forall s o s', m s = (o, s') -> component s' = component s.

(** The stored single-record result is a non-match whose team notification
    has not gone out yet. *)
Definition pending_notification (ss : session_state) : bool :=
  match processed_data ss with
  | Some data => negb (pd_is_match data) && negb (team_notification_sent ss)
  | None => false
  end.

(** The events that run one of the two workflows. *)
Definition runs_workflow (ev : event) : bool :=
  match ev with
  | Tab1 (FormSubmitted f) => negb (String.eqb (form_cancellation_reason f) "")
  | Tab2 ProcessAllClicked => true
  | _ => false
  end.

(** A script fragment opens only SMTP sessions of one kind: however it
    ends, the log has grown by sessions that satisfy [kind]. *)
Definition opens_only {A : Type} (kind : smtp_call -> Prop) (m : py A) : Prop :=
  forall s o s', m s = (o, s') ->
    exists calls, smtp_log s' = smtp_log s ++ calls /\ Forall kind calls.

(** The two buttons that send retention emails. *)
Definition is_send_click (ev : event) : bool :=
  match ev with
  | Tab1 SendEmailClicked => true
  | Tab2 SendAllClicked => true
  | _ => false
  end.

(** The dict [r1] is the dict [r], possibly marked as sent. *)
Definition same_or_marked (r r1 : result_row) : Prop :=
  r1 = r \/ r1 = mark_sent r.

(** Two rows of the export agree in every column but [Email Sent], which
    may only have turned from False to True. *)
Definition only_sent_differs (x x1 : export_row) : Prop :=
  x_Customer_ID x1 = x_Customer_ID x /\ x_Email x1 = x_Email x
  /\ x_Date_Cancelled x1 = x_Date_Cancelled x
  /\ x_Cancellation_Reason x1 = x_Cancellation_Reason x
  /\ x_Offer_Code x1 = x_Offer_Code x /\ x_Offer_Name x1 = x_Offer_Name x
  /\ x_Match_Found x1 = x_Match_Found x
  /\ (x_Email_Sent x = true -> x_Email_Sent x1 = true).

Section Configuration.

Variable env : environ.
Variable sv : services.

(** One of the four provider names occurs in the lowered sender address. *)
Definition provider_found (sender_email : string) : bool :=
  Py.contains "gmail.com" (Py.lower (unicode_lower sv) sender_email)
  || Py.contains "outlook.com" (Py.lower (unicode_lower sv) sender_email)
  || Py.contains "hotmail.com" (Py.lower (unicode_lower sv) sender_email)
  || Py.contains "yahoo.com" (Py.lower (unicode_lower sv) sender_email).

(** [send_email] gets as far as reading the port: a server is configured or
    a provider name is found. *)
Definition reads_port (sender_email : string) : bool :=
  Py.truthy (SMTP_SERVER env) || provider_found sender_email.

(** Sender and password are set and both addresses contain an [@]. *)
Definition addresses_accepted (to_email : string) : bool :=
  Py.truthy (SENDER_EMAIL env) && Py.truthy (SENDER_PASSWORD env)
  && Py.contains "@" to_email
  && Py.contains "@" (default "" (SENDER_EMAIL env)).

(** The session [send_email] opens for a recipient once host and port are
    known. *)
Definition session_for (host : string) (port : Z) (to_email subject body : string)
  : smtp_call :=
  mkSmtp host port 10 (default "" (SENDER_EMAIL env)) (default "" (SENDER_PASSWORD env))
    (default "" (SENDER_EMAIL env)) [to_email]
    (default "" (SENDER_EMAIL env)) to_email subject body.

Definition log_smtp (c : smtp_call) (s : state) : state :=
  mkState (session s) (chat_log s) (smtp_log s ++ [c]).

(** The notification of the team about the dict [r]. *)
Definition notification_for (host : string) (port : Z) (r : result_row) : smtp_call :=
  session_for host port (default "" (SENDER_EMAIL env)) team_subject
    (team_notification_body (Customer_ID r) (Email r) (Date_Cancelled r)).

(** An SMTP session that carries a team notification: it is addressed to
    the sender address and has the subject of the manual review. *)
Definition is_team_notification (c : smtp_call) : Prop :=
  smtp_rcpt c = [default "" (SENDER_EMAIL env)]
  /\ msg_to c = default "" (SENDER_EMAIL env)
  /\ msg_subject c = team_subject.

End Configuration.

(** ** Further concrete states *)

Module Samples.

(** The port is not a number. *)
Definition bad_port_env : environ :=
  mkEnv None (Some "sk-test") (Some "retention@gmail.com") (Some "app-password")
    None (Some "smtp").

(** A stored single-record match that was not sent yet. *)
Definition matched : state :=
  mkState
    (mkSession
       (Some (mkProcessed "CUST-001" "customer@example.com"
                "The service is too expensive" "2026-01-15"
                Demo.price_decision Demo.retention_email true))
       false false None)
    [] [].

Definition unmatched_row (id email : string) : result_row :=
  mkRow id email "2026-01-15" "I am relocating"
    (JStr "NO_MATCH") (JStr "None") "No" "NO_MATCH" false.

(** Batch results with one match between two non-matches. *)
Definition mixed : state :=
  mkState
    (mkSession None false false
       (Some [ unmatched_row "CUST-001" "ann@example.com";
               Demo.sent_row "CUST-002" "bob@example.com" false;
               unmatched_row "CUST-003" "cy@example.com" ]))
    [] [].

Definition relocation_form : form_input :=
  mkForm "CUST-002" "bob@example.com" "I am relocating abroad" "2026-01-15".

End Samples.

(** * Properties *)

Section Properties.

Variable env : environ.
Variable sv : services.

Local Open Scope py_scope.

(** ** The monad *)

Lemma bind_Return {A B} (m : py A) (k : A -> py B) s a s' :
  m s = (Return a, s') -> bind m k s = k a s'.
Proof. intros H. unfold bind. now rewrite H. Qed.

Lemma isinstance_Exception e : isinstance e Exception = true.
Proof. unfold isinstance. now destruct (exc_class_of e). Qed.

(** ** [send_email] *)

Lemma port_or_default_frame p s o s' :
  port_or_default sv p s = (o, s') ->
  s' = s /\ (forall t, o = Raise t -> exists msg, t = Exc (ValueError msg)).
Proof.
  unfold port_or_default. intros H.
  destruct p as [p|]; [destruct (String.eqb p "")|]; [| destruct (py_int sv p) |];
    inversion H; subst; split; try reflexivity; intros t Ht; try discriminate.
  inversion Ht. eauto.
Qed.

Lemma resolve_endpoint_frame sender s o s' :
  resolve_endpoint env sv sender s = (o, s') ->
  s' = s /\ (forall t, o = Raise t -> exists msg, t = Exc (ValueError msg)).
Proof.
  unfold resolve_endpoint. intros H.
  repeat match type of H with
         | (if ?c then _ else _) _ = _ => destruct c
         end;
    try (inversion H; subst; split; [reflexivity | intros; discriminate]);
    unfold bind in H;
    destruct (port_or_default sv (SMTP_PORT env) s) as [[p|t] s1] eqn:E;
    apply port_or_default_frame in E as [-> Ht];
    inversion H; subst; (split; [reflexivity|]); intros t' Ht'; try discriminate;
    inversion Ht'; subst; eauto.
Qed.

Lemma select_handler_send_email e :
  select_handler
    [ (SMTPAuthenticationError, fun e => ret (false, msg_authentication e));
      (SMTPException, fun e => ret (false, msg_smtp e));
      (Exception, fun e => ret (false, msg_other e)) ] e
  = Some (ret (false, handler_message e)).
Proof.
  unfold handler_message. destruct e as [[] n m]; reflexivity.
Qed.

(** [send_email] always returns a pair; it leaves the session and the
    chat log alone, and opens at most one SMTP session, whose envelope and
    message carry the sender of the environment and the given recipient. *)
Lemma send_email_cases to_email subject body s :
  exists ok message s',
    send_email env sv to_email subject body s = (Return (ok, message), s')
    /\ session s' = session s /\ chat_log s' = chat_log s
    /\ ((s' = s /\ ok = false)
        \/ exists host port sender password,
             let c := mkSmtp host port 10 sender password sender [to_email]
                        sender to_email subject body in
             SENDER_EMAIL env = Some sender /\ SENDER_PASSWORD env = Some password
             /\ smtp_log s' = smtp_log s ++ [c]
             /\ (ok, message) = session_result sv (smtp_log s) c to_email).
Proof.
  unfold send_email, try_except, send_email_body.
  destruct (SENDER_EMAIL env) as [sender|] eqn:Es; simpl;
    [| eexists _, _, _; repeat split; auto].
  destruct (SENDER_PASSWORD env) as [password|] eqn:Ep; simpl;
    [| rewrite orb_true_r; eexists _, _, _; repeat split; auto].
  destruct (negb (negb (String.eqb sender "")) || negb (negb (String.eqb password "")));
    [eexists _, _, _; repeat split; auto |].
  destruct (negb (Py.contains "@" to_email) || negb (Py.contains "@" sender));
    [eexists _, _, _; repeat split; auto |].
  unfold bind.
  destruct (resolve_endpoint env sv sender s) as [[ep|t] s1] eqn:Er;
    apply resolve_endpoint_frame in Er as [-> Ht].
  - destruct ep as [[host port]|]; [| eexists _, _, _; repeat split; auto].
    unfold smtp_session.
    destruct (smtp sv (smtp_log s)
                (mkSmtp host port 10 sender password sender [to_email]
                   sender to_email subject body)) as [e|errs] eqn:Ec.
    + rewrite select_handler_send_email. unfold ret.
      eexists _, _, _; repeat split; auto. right.
      exists host, port, sender, password. simpl. repeat split; auto.
      unfold session_result. now rewrite Ec.
    + destruct errs as [|err errs]; unfold ret;
        eexists _, _, _; (repeat split; auto); right;
        exists host, port, sender, password; simpl; (repeat split; auto);
        unfold session_result; now rewrite Ec.
  - destruct (Ht t eq_refl) as [msg ->].
    rewrite select_handler_send_email. unfold ret.
    eexists _, _, _; repeat split; auto.
Qed.

Lemma bind_Raise {A B} (m : py A) (k : A -> py B) s t s' :
  m s = (Raise t, s') -> bind m k s = (Raise t, s').
Proof. intros H. unfold bind. now rewrite H. Qed.

(** ** [send_email], case by case *)

Lemma truthy_Some v : Py.truthy v = true -> exists s, v = Some s /\ s <> "".
Proof.
  destruct v as [s|]; simpl; [|discriminate].
  destruct (String.eqb_spec s ""); [discriminate|]. eauto.
Qed.

(** Where the port is read, the host does not depend on it. *)
Lemma resolve_endpoint_reads_port sender :
  reads_port env sv sender = true ->
  exists host, forall s,
    resolve_endpoint env sv sender s
    = bind (port_or_default sv (SMTP_PORT env)) (fun p => ret (Some (host, p))) s.
Proof.
  unfold reads_port, provider_found, resolve_endpoint. intros H.
  destruct (Py.truthy (SMTP_SERVER env)); simpl in *; [eauto|].
  destruct (Py.contains "gmail.com" _); [eauto|].
  destruct (Py.contains "outlook.com" _); [simpl; eauto|].
  destruct (Py.contains "hotmail.com" _); [simpl; eauto|].
  destruct (Py.contains "yahoo.com" _); [simpl; eauto|].
  discriminate.
Qed.

(** With accepted addresses and a resolved endpoint exactly one session is
    opened, and its outcome is the result. *)
Lemma send_email_session to_email subject body host port s :
  addresses_accepted env to_email = true ->
  resolve_endpoint env sv (default "" (SENDER_EMAIL env)) s
  = (Return (Some (host, port)), s) ->
  let c := session_for env host port to_email subject body in
  send_email env sv to_email subject body s
  = (Return (session_result sv (smtp_log s) c to_email), log_smtp c s).
Proof.
  unfold addresses_accepted. intros Ha Hr. cbv zeta.
  apply andb_prop in Ha as [Ha Hfrom]. apply andb_prop in Ha as [Ha Hto].
  apply andb_prop in Ha as [Hs Hp].
  unfold send_email, try_except, send_email_body.
  rewrite Hs, Hp, Hto, Hfrom. simpl.
  rewrite (bind_Return _ _ _ _ _ Hr).
  unfold bind, smtp_session, session_result, session_for, log_smtp.
  destruct (smtp sv (smtp_log s) _) as [e|[|err errs]].
  - now rewrite select_handler_send_email.
  - reflexivity.
  - reflexivity.
Qed.

(** With accepted addresses, no server configured and no provider name
    in the sender address, the custom-domain message is returned and no
    session is opened. *)
Lemma send_email_custom_domain to_email subject body s :
  addresses_accepted env to_email = true ->
  reads_port env sv (default "" (SENDER_EMAIL env)) = false ->
  send_email env sv to_email subject body s
  = (Return (false, msg_custom_domain (default "" (SENDER_EMAIL env))), s).
Proof.
  unfold addresses_accepted, reads_port, provider_found. intros Ha Hr.
  apply andb_prop in Ha as [Ha Hfrom]. apply andb_prop in Ha as [Ha Hto].
  apply andb_prop in Ha as [Hs Hp].
  apply orb_false_elim in Hr as [Hsrv Hr].
  apply orb_false_elim in Hr as [Hr Hy]. apply orb_false_elim in Hr as [Hr Hh].
  apply orb_false_elim in Hr as [Hg Ho].
  unfold send_email, try_except, send_email_body, resolve_endpoint, bind.
  rewrite Hs, Hp, Hto, Hfrom, Hsrv, Hg, Ho, Hh, Hy. reflexivity.
Qed.

Lemma failure_messages_distinct e1 e2 e3 sender :
  msg_configuration_missing <> msg_custom_domain sender
  /\ msg_configuration_missing <> msg_authentication e1
  /\ msg_configuration_missing <> msg_smtp e2
  /\ msg_configuration_missing <> msg_other e3
  /\ msg_custom_domain sender <> msg_authentication e1
  /\ msg_custom_domain sender <> msg_smtp e2
  /\ msg_custom_domain sender <> msg_other e3
  /\ msg_authentication e1 <> msg_smtp e2
  /\ msg_authentication e1 <> msg_other e3
  /\ msg_smtp e2 <> msg_other e3.
Proof.
  unfold msg_configuration_missing, msg_custom_domain, msg_authentication,
    msg_smtp, msg_other.
  repeat split; simpl; discriminate.
Qed.

(** C6.  [send_email] returns a pair (success, message) on every input
    and in every state: no exception leaves it.  A missing sender address
    or password yields the configuration message, and a sender address of
    an unknown domain without a configured server the custom-domain
    message, both without any SMTP session.  Once the addresses are
    accepted and the endpoint is known, the session is opened, and when it
    raises [e] the result is a failure whose message is the one of the
    first clause that names a class of [e]: the authentication message
    for an [SMTPAuthenticationError], the SMTP message for any other
    [SMTPException], the general message for anything else, each carrying
    [str(e)].  The five messages are pairwise different, whatever the
    exceptions are. *)
Theorem send_email_returns_and_names_failure (to_email subject body : string) (s : state) :
  let sender := default "" (SENDER_EMAIL env) in
  (exists ok message s',
     send_email env sv to_email subject body s = (Return (ok, message), s'))
  /\ (Py.truthy (SENDER_EMAIL env) && Py.truthy (SENDER_PASSWORD env) = false ->
      send_email env sv to_email subject body s
      = (Return (false, msg_configuration_missing), s))
  /\ (addresses_accepted env to_email = true -> reads_port env sv sender = false ->
      send_email env sv to_email subject body s
      = (Return (false, msg_custom_domain sender), s))
  /\ (forall host port e,
        let c := session_for env host port to_email subject body in
        addresses_accepted env to_email = true ->
        resolve_endpoint env sv sender s = (Return (Some (host, port)), s) ->
        smtp sv (smtp_log s) c = inl e ->
        (exc_class_of e = SMTPAuthenticationError ->
         send_email env sv to_email subject body s
         = (Return (false, msg_authentication e), log_smtp c s))
        /\ (exc_class_of e = SMTPException ->
            send_email env sv to_email subject body s
            = (Return (false, msg_smtp e), log_smtp c s))
        /\ (exc_class_of e = Exception ->
            send_email env sv to_email subject body s
            = (Return (false, msg_other e), log_smtp c s)))
  /\ (forall e1 e2 e3 a,
        msg_configuration_missing <> msg_custom_domain a
        /\ msg_configuration_missing <> msg_authentication e1
        /\ msg_configuration_missing <> msg_smtp e2
        /\ msg_configuration_missing <> msg_other e3
        /\ msg_custom_domain a <> msg_authentication e1
        /\ msg_custom_domain a <> msg_smtp e2
        /\ msg_custom_domain a <> msg_other e3
        /\ msg_authentication e1 <> msg_smtp e2
        /\ msg_authentication e1 <> msg_other e3
        /\ msg_smtp e2 <> msg_other e3).
Proof.
  cbv zeta. split; [|split; [|split; [|split]]].
  - destruct (send_email_cases to_email subject body s)
      as (ok & message & s' & Hrun & _).
    now exists ok, message, s'.
  - intros Hmissing.
    unfold send_email, try_except, send_email_body.
    assert (Hc : negb (Py.truthy (SENDER_EMAIL env))
                 || negb (Py.truthy (SENDER_PASSWORD env)) = true).
    { destruct (Py.truthy (SENDER_EMAIL env)), (Py.truthy (SENDER_PASSWORD env));
        simpl in *; congruence. }
    now rewrite Hc.
  - apply send_email_custom_domain.
  - intros host port e Ha Hr Hraise.
    pose proof (send_email_session to_email subject body host port s Ha Hr) as Hrun.
    cbv zeta in Hrun. unfold session_result in Hrun. rewrite Hraise in Hrun.
    unfold handler_message in Hrun.
    repeat split; intros Hclass; rewrite Hclass in Hrun; exact Hrun.
  - intros e1 e2 e3 a. apply failure_messages_distinct.
Qed.

(** ** The transport endpoint *)

(** An explicit server is used as it is, whatever the sender. *)
Lemma resolve_endpoint_explicit sender server s :
  SMTP_SERVER env = Some server -> server <> "" ->
  resolve_endpoint env sv sender s
  = bind (port_or_default sv (SMTP_PORT env)) (fun p => ret (Some (server, p))) s.
Proof.
  intros Hs Hne. unfold resolve_endpoint. rewrite Hs. simpl.
  destruct (String.eqb_spec server ""); [contradiction | reflexivity].
Qed.

(** Without a port in the environment the port is 587. *)
Lemma port_or_default_unset s : port_or_default sv None s = (Return 587%Z, s).
Proof. reflexivity. Qed.

(** With no server configured, a sender address in which none of the four
    provider names occurs is refused with the custom-domain message, and
    no SMTP session is opened. *)
Lemma send_email_unrecognized to_email subject body sender password s :
  SENDER_EMAIL env = Some sender -> SENDER_PASSWORD env = Some password ->
  sender <> "" -> password <> "" ->
  Py.contains "@" to_email = true -> Py.contains "@" sender = true ->
  Py.truthy (SMTP_SERVER env) = false ->
  Forall (fun d => Py.contains d (Py.lower (unicode_lower sv) sender) = false)
    known_domains ->
  send_email env sv to_email subject body s
  = (Return (false, msg_custom_domain sender), s).
Proof.
  intros Hs Hp Hs' Hp' Hto Hfrom Hsrv Hdom.
  unfold send_email, try_except, send_email_body, resolve_endpoint, bind.
  rewrite Hs, Hp, Hsrv. simpl.
  destruct (String.eqb_spec sender ""); [contradiction|].
  destruct (String.eqb_spec password ""); [contradiction|].
  rewrite Hto, Hfrom. simpl.
  unfold known_domains in Hdom.
  repeat match goal with
         | H : Forall _ (_ :: _) |- _ => apply Forall_cons_1 in H as [? H]
         end.
  repeat match goal with
         | H : Py.contains _ _ = false |- _ => rewrite H; clear H
         end.
  reflexivity.
Qed.

Lemma prefix_refl d : String.prefix d d = true.
Proof.
  induction d as [|c d IH]; simpl; [reflexivity|].
  destruct (ascii_dec c c); [exact IH | contradiction].
Qed.

Lemma contains_prefix d s : String.prefix d s = true -> Py.contains d s = true.
Proof. intros H. destruct s; cbn [Py.contains]; now rewrite H. Qed.

Lemma contains_append before d : Py.contains d (before +:+ d) = true.
Proof.
  induction before as [|c before IH].
  - apply contains_prefix, prefix_refl.
  - change (String c before +:+ d) with (String c (before +:+ d)).
    cbn [Py.contains].
    destruct (String.prefix d (String c (before +:+ d))); [reflexivity | exact IH].
Qed.

Lemma domain_of_suffix address : exists before, address = before +:+ domain_of address.
Proof.
  induction address as [|c rest [before IH]]; simpl.
  - now exists EmptyString.
  - destruct (Py.contains "@" rest).
    + exists (String c before).
      change (String c rest = String c (before +:+ domain_of rest)). now f_equal.
    + destruct (Ascii.eqb c "@").
      * now exists (String c EmptyString).
      * now exists EmptyString.
Qed.

Lemma contains_domain_of address : Py.contains (domain_of address) address = true.
Proof.
  destruct (domain_of_suffix address) as [before H].
  rewrite H at 2. apply contains_append.
Qed.

(** With no server or port configured, a sender of the domain gmail.com
    is served by smtp.gmail.com on port 587. *)
Lemma resolve_endpoint_gmail sender s :
  Py.truthy (SMTP_SERVER env) = false -> SMTP_PORT env = None ->
  domain_of (Py.lower (unicode_lower sv) sender) = "gmail.com" ->
  resolve_endpoint env sv sender s = (Return (Some ("smtp.gmail.com", 587%Z)), s).
Proof.
  intros Hs Hp Hd. unfold resolve_endpoint. rewrite Hs, Hp. simpl.
  pose proof (contains_domain_of (Py.lower (unicode_lower sv) sender)) as H.
  rewrite Hd in H.
  now rewrite H.
Qed.

(** With no server configured the endpoint, when there is one, is one of
    the three provider hosts. *)
Lemma resolve_endpoint_hosts sender s host port s' :
  Py.truthy (SMTP_SERVER env) = false ->
  resolve_endpoint env sv sender s = (Return (Some (host, port)), s') ->
  In host ["smtp.gmail.com"; "smtp-mail.outlook.com"; "smtp.mail.yahoo.com"].
Proof.
  intros Hs. unfold resolve_endpoint. rewrite Hs. simpl. unfold bind.
  repeat match goal with
         | |- context [if ?c then _ else _] => destruct c
         end;
    try (destruct (port_or_default sv (SMTP_PORT env) s) as [[p|t] s1]);
    intros H; inversion H; subst; simpl; auto.
Qed.

(** ** The team notification *)

(** C9.  [send_team_notification] takes the sender address [SENDER_EMAIL]
    as the team address: when it is set, the call is [send_email] with
    that address as recipient, and every SMTP session the call opens is
    addressed from the sender to the sender itself; when it is unset or
    empty, the call returns (false, message) and opens no session. *)
Theorem team_notification_goes_to_sender
  (customer_id customer_email date_cancelled : string) (s : state) :
  exists ok message s' calls,
    send_team_notification env sv customer_id customer_email date_cancelled s
      = (Return (ok, message), s')
    /\ session s' = session s /\ chat_log s' = chat_log s
    /\ smtp_log s' = smtp_log s ++ calls
    /\ Forall (fun c =>
                 SENDER_EMAIL env = Some (msg_to c)
                 /\ smtp_rcpt c = [msg_to c]
                 /\ smtp_from c = msg_to c /\ msg_from c = msg_to c
                 /\ msg_subject c = team_subject
                 /\ msg_body c
                    = team_notification_body customer_id customer_email date_cancelled)
         calls
    /\ (Py.truthy (SENDER_EMAIL env) = true ->
        send_team_notification env sv customer_id customer_email date_cancelled
        = send_email env sv (default "" (SENDER_EMAIL env)) team_subject
            (team_notification_body customer_id customer_email date_cancelled))
    /\ (Py.truthy (SENDER_EMAIL env) = false ->
        ok = false /\ message = "SENDER_EMAIL not set in .env file" /\ calls = []).
Proof.
  unfold send_team_notification.
  destruct (Py.truthy (SENDER_EMAIL env)) eqn:Ht; simpl.
  - destruct (SENDER_EMAIL env) as [sender|] eqn:Es; [|discriminate]. simpl.
    destruct (send_email_cases sender team_subject
                (team_notification_body customer_id customer_email date_cancelled) s)
      as (ok & message & s' & Hrun & Hss & Hchat & Hcases).
    destruct Hcases as [[-> ->] | (host & port & sender' & password & Hs & _ & Hlog & _)].
    + exists false, message, s, []. rewrite app_nil_r.
      repeat split; auto; discriminate.
    + cbv zeta in Hlog. rewrite Es in Hs. injection Hs as <-. eexists ok, message, s', [_].
      split; [exact Hrun|]. split; [exact Hss|]. split; [exact Hchat|].
      split; [exact Hlog|]. split; [|split; [reflexivity | discriminate]].
      constructor; [|constructor]. simpl. repeat split; auto.
  - exists false, "SENDER_EMAIL not set in .env file", s, []. rewrite app_nil_r.
    repeat split; auto; discriminate.
Qed.

(** ** The two agents *)

Lemma matcher_failure_or_answer log req :
  (exists e, matcher_failure sv log req = Some e
             /\ matcher_decision sv log req = no_match_decision e)
  \/ (exists content v,
        chat sv log req = inr (Some content) /\ json_loads sv content = inr v
        /\ matcher_failure sv log req = None
        /\ matcher_decision sv log req = v).
Proof.
  unfold matcher_failure, matcher_decision.
  destruct (chat sv log req) as [e|[content|]]; eauto.
  destruct (json_loads sv content) as [e|v] eqn:E; eauto 10.
Qed.

(** The matcher always returns: the parsed answer of the service, or the
    no-match decision that names the failure. *)
Lemma offer_matcher_agent_run client cancellation_reason offers_db s :
  let req := matcher_request client cancellation_reason offers_db in
  offer_matcher_agent sv client cancellation_reason offers_db s
  = (Return (matcher_decision sv (chat_log s) req), log_chat req s).
Proof.
  unfold offer_matcher_agent, try_except, bind, chat_completions_create, loads,
    matcher_decision, log_chat.
  cbv zeta.
  destruct (chat sv (chat_log s) _) as [e|[content|]].
  - unfold select_handler. now rewrite isinstance_Exception.
  - destruct (json_loads sv content) as [e|v]; unfold raise, ret.
    + unfold select_handler. now rewrite isinstance_Exception.
    + reflexivity.
  - reflexivity.
Qed.

(** The writer always returns: the stripped reply, or a draft that names
    the failure. *)
Lemma email_writer_agent_run client matched_offer cancellation_reason customer_email s :
  let req := writer_request client matched_offer cancellation_reason customer_email in
  email_writer_agent sv client matched_offer cancellation_reason customer_email s
  = (Return (writer_draft sv (chat_log s) req), log_chat req s).
Proof.
  unfold email_writer_agent, try_except, bind, chat_completions_create,
    content_strip, writer_draft, log_chat.
  cbv zeta.
  destruct (chat sv (chat_log s) _) as [e|[content|]].
  - unfold select_handler. now rewrite isinstance_Exception.
  - reflexivity.
  - reflexivity.
Qed.

(** C3.  When the reasoning call of the matcher fails (the request
    raises, the reply has no content, or the content does not parse), the
    matcher returns a decision whose offer code is NO_MATCH, whose offer
    name is None and whose reasoning names the failure and is not empty;
    the failure does not reach the caller. *)
Theorem matcher_degrades_to_no_match
  (client cancellation_reason offers_db : string) (s : state) (e : exc) :
  matcher_failure sv (chat_log s)
    (matcher_request client cancellation_reason offers_db) = Some e ->
  exists reasoning,
    offer_matcher_agent sv client cancellation_reason offers_db s
    = (Return (JObj [ ("OFFER_CODE", JStr "NO_MATCH");
                      ("OFFER_NAME", JStr "None");
                      ("MATCH_REASONING", JStr reasoning) ]),
       log_chat (matcher_request client cancellation_reason offers_db) s)
    /\ reasoning = "Error occurred: " +:+ exc_str e
    /\ reasoning <> "".
Proof.
  intros Hfail. exists ("Error occurred: " +:+ exc_str e).
  rewrite offer_matcher_agent_run. cbv zeta.
  destruct (matcher_failure_or_answer (chat_log s)
              (matcher_request client cancellation_reason offers_db))
    as [(e' & He' & Hd) | (content & v & _ & _ & Hnone & _)].
  - rewrite Hfail in He'. injection He' as <-. rewrite Hd.
    repeat split. simpl. discriminate.
  - rewrite Hfail in Hnone. discriminate.
Qed.

(** C2, as the code has it.  The matcher returns the parsed answer of the
    reasoning service unchanged, or the no-match decision when the call
    fails: its offer code is NO_MATCH on a failure and otherwise the code
    the service answered, so it is a catalog code or NO_MATCH whenever the
    code of the service's answer is. *)
Theorem matcher_code_is_service_code_or_no_match
  (client cancellation_reason offers_db : string) (s : state) :
  let req := matcher_request client cancellation_reason offers_db in
  exists d,
    offer_matcher_agent sv client cancellation_reason offers_db s
    = (Return d, log_chat req s)
    /\ ((exists e, matcher_failure sv (chat_log s) req = Some e
                   /\ d = no_match_decision e
                   /\ decision_field d "OFFER_CODE" JNull = JStr "NO_MATCH")
        \/ (exists content, chat sv (chat_log s) req = inr (Some content)
                            /\ json_loads sv content = inr d))
    /\ ((forall content v,
           chat sv (chat_log s) req = inr (Some content) ->
           json_loads sv content = inr v ->
           In (decision_field v "OFFER_CODE" JNull) allowed_codes) ->
        In (decision_field d "OFFER_CODE" JNull) allowed_codes).
Proof.
  cbv zeta. eexists. split; [apply offer_matcher_agent_run|]. cbv zeta.
  destruct (matcher_failure_or_answer (chat_log s)
              (matcher_request client cancellation_reason offers_db))
    as [(e & He & Hd) | (content & v & Hc & Hv & _ & Hd)]; rewrite Hd.
  - split; [left; eauto|]. intros _. left. reflexivity.
  - split; [right; eauto|]. intros Hall. eauto.
Qed.


(** ** Stripping ASCII whitespace *)







(** ** One record of the batch *)

Lemma dict_get_dict items key default s :
  dict_get (JObj items) key default s
  = (Return (decision_field (JObj items) key default), s).
Proof. reflexivity. Qed.

(** The loop body, in one equation: the matcher is asked, then the writer
    is asked with the offer text of the decision, and the dict is built;
    a decision that is not a dict stops the body at its first [get]. *)
Lemma process_row_run client offers_db idx row s :
  let reason := row_cancellation_reason sv row in
  let email := row_customer_email sv row in
  let req1 := matcher_request client reason offers_db in
  let d := matcher_decision sv (chat_log s) req1 in
  let s1 := log_chat req1 s in
  let req2 := writer_request client (matched_offer_text sv d) reason email in
  process_row sv client offers_db idx row s
  = if is_dict d
    then (Return (row_result sv idx row d (writer_draft sv (chat_log s1) req2)),
          log_chat req2 s1)
    else (Raise (Exc (no_get_error d)), s1).
Proof.
  cbv zeta. unfold process_row.
  rewrite (bind_Return _ _ _ _ _ (offer_matcher_agent_run _ _ _ _)).
  destruct (matcher_decision sv (chat_log s) _) as [| | | | | |items] eqn:Ed;
    try reflexivity.
  simpl is_dict. cbv iota.
  rewrite (bind_Return _ _ _ _ _ (dict_get_dict _ _ _ _)).
  rewrite (bind_Return _ _ _ _ _ (dict_get_dict _ _ _ _)).
  rewrite (bind_Return _ _ _ _ _ (email_writer_agent_run _ _ _ _ _)).
  reflexivity.
Qed.

Lemma matcher_decision_is_dict log client reason offers_db :
  replies_with_json_objects sv ->
  is_dict (matcher_decision sv log (matcher_request client reason offers_db)) = true.
Proof.
  intros Hd. unfold matcher_decision.
  destruct (chat sv log _) as [e|[content|]] eqn:Ec; try reflexivity.
  destruct (json_loads sv content) as [e|v] eqn:E; [reflexivity|].
  exact (Hd log (matcher_request client reason offers_db) content v eq_refl Ec E).
Qed.

Lemma get_openai_client_run s :
  api_key_configured env = true ->
  exists key, get_openai_client env s = (Return key, s).
Proof.
  unfold api_key_configured, get_openai_client. intros H.
  destruct (Py.truthy (SECRET_OPENAI_API_KEY env)) eqn:E1; simpl in *.
  - rewrite E1. simpl. eauto.
  - rewrite H. simpl. eauto.
Qed.

Lemma get_openai_client_frame s o s' :
  get_openai_client env s = (o, s') -> s' = s.
Proof.
  unfold get_openai_client. intros H.
  destruct (negb (Py.truthy _)) in H; inversion H; reflexivity.
Qed.

(** ** The batch run *)

(** A label from 0 to [total]-1 passes lines 565 and 579. *)
Lemma accept_label_position total i s :
  (i < total)%nat ->
  accept_label sv total (IntLabel (Z.of_nat i)) s = (Return (Z.of_nat i), s).
Proof.
  intros Hi. unfold accept_label, progress, bind.
  destruct total as [|n]; [lia|].
  assert (H : ((0 <=? Z.of_nat i + 1) && (Z.of_nat i + 1 <=? Z.of_nat (S n)))%Z = true).
  { apply andb_true_intro. split; apply Z.leb_le; lia. }
  now rewrite H.
Qed.

Lemma process_rows_run client offers_db total rows :
  replies_with_json_objects sv ->
  Forall (fun lr => exists i, fst lr = IntLabel (Z.of_nat i) /\ (i < total)%nat) rows ->
  forall results s,
  exists appended s',
    process_rows sv client offers_db total rows results s
    = (Return (results ++ appended), s')
    /\ session s' = session s /\ smtp_log s' = smtp_log s
    /\ Forall2 (fun lr r => exists idx, fst lr = IntLabel idx /\ row_of sv idx (snd lr) r)
         rows appended.
Proof.
  intros Hd Hrows. induction Hrows as [|[l row] rest (i & Hl & Hi) _ IH]; intros results s.
  - exists [], s. simpl. rewrite app_nil_r. auto.
  - simpl in Hl. subst l. cbn [process_rows].
    rewrite (bind_Return _ _ _ _ _ (accept_label_position total i s Hi)).
    unfold bind at 1. rewrite process_row_run.
    rewrite matcher_decision_is_dict by assumption. cbv zeta.
    match goal with
    | |- context [process_rows _ _ _ _ rest (results ++ [?r]) ?s1] =>
        destruct (IH (results ++ [r]) s1) as (appended & s' & Hrun & Hss & Hsmtp & Hall);
        exists (r :: appended), s'
    end.
    rewrite Hrun, <- app_assoc. simpl.
    repeat split; auto.
    constructor; [|assumption]. simpl. exists (Z.of_nat i). unfold row_of. eauto.
Qed.

Lemma lookup_iterrows (df : list df_row) i :
  iterrows df !! i = (fun row => (row_label row, row)) <$> df !! i.
Proof. unfold iterrows. apply list_lookup_fmap. Qed.

Lemma lookup_range_index n i : (i < n)%nat -> range_index n !! i = Some (IntLabel (Z.of_nat i)).
Proof.
  intros Hi. unfold range_index. rewrite list_lookup_fmap, lookup_seq_lt by exact Hi.
  reflexivity.
Qed.

(** In a frame with a range index the label of a row is its position. *)
Lemma range_index_label df i row :
  has_range_index df -> df !! i = Some row -> row_label row = IntLabel (Z.of_nat i).
Proof.
  unfold has_range_index. intros Hr Hrow.
  assert (Hi : (i < length df)%nat) by (apply lookup_lt_is_Some; eauto).
  pose proof (lookup_range_index _ _ Hi) as H. rewrite <- Hr in H.
  rewrite list_lookup_fmap, Hrow in H. simpl in H. congruence.
Qed.

Lemma range_index_rows df :
  has_range_index df ->
  Forall (fun lr => exists i, fst lr = IntLabel (Z.of_nat i) /\ (i < length df)%nat)
    (iterrows df).
Proof.
  intros Hr. apply Forall_lookup_2. intros i [l row] Hi.
  rewrite lookup_iterrows in Hi.
  destruct (df !! i) as [row'|] eqn:Hrow; [|discriminate]. simpl in Hi.
  injection Hi as <- <-. exists i. simpl. split.
  - now apply range_index_label with df.
  - apply lookup_lt_is_Some. eauto.
Qed.

Lemma send_all_emails_idle s : send_all_emails env sv false s = (Return tt, s).
Proof.
  unfold send_all_emails, bind, get_session.
  now destruct (matched_results (session s)).
Qed.

Lemma send_team_notifications_idle s :
  send_team_notifications env sv false s = (Return tt, s).
Proof.
  unfold send_team_notifications, bind, get_session.
  now destruct (no_match_results (session s)).
Qed.

(** C7, as the code has it.  When an API key is configured, the replies
    of the reasoning service to the matcher parse to JSON objects wherever
    they parse, and the frame has the range index of a well-formed file,
    the batch run ends by storing one dict per row of the frame, the dict
    at each position built from the row at that position; the frame handed
    to the CSV export has the eight columns of the download and one row
    per row of the upload, in the same order, each carrying the fields of
    its row and of its dict. *)
Theorem batch_keeps_rows_and_order (df : list df_row) (s : state) :
  api_key_configured env = true ->
  replies_with_json_objects sv ->
  has_range_index df ->
  exists results s',
    process_all_cancellations env sv (Frame df) true s = (Raise RerunException, s')
    /\ csv_results (session s') = Some results
    /\ length results = length df
    /\ (forall i row, df !! i = Some row ->
         exists r x,
           results !! i = Some r
           /\ Customer_ID r = row_customer_id sv (Z.of_nat i) row
           /\ Email r = row_customer_email sv row
           /\ Date_Cancelled r = row_date_cancelled sv row
           /\ Cancellation_Reason r = row_cancellation_reason sv row
           /\ Email_Sent r = false
           /\ snd (csv_results_export (session s')) !! i = Some x
           /\ x_Customer_ID x = row_customer_id sv (Z.of_nat i) row
           /\ x_Email x = row_customer_email sv row
           /\ x_Date_Cancelled x = row_date_cancelled sv row
           /\ x_Cancellation_Reason x = row_cancellation_reason sv row
           /\ x_Offer_Code x = Offer_Code r
           /\ x_Offer_Name x = Offer_Name r
           /\ x_Match_Found x = Match_Found r
           /\ x_Email_Sent x = false)
    /\ fst (csv_results_export (session s'))
       = [ "Customer ID"; "Email"; "Date Cancelled"; "Cancellation Reason";
           "Offer Code"; "Offer Name"; "Match Found"; "Email Sent" ]
    /\ length (snd (csv_results_export (session s'))) = length df
    /\ (df <> [] ->
        tab2 env sv (Frame df) NoTab2Event s'
        = (Return (Some (csv_results_export (session s'))), s')).
Proof.
  intros Hkey Hd Hindex.
  destruct (get_openai_client_run s Hkey) as [client Hclient].
  destruct (process_rows_run client get_offers_database (length df) (iterrows df) Hd
              (range_index_rows df Hindex) [] s)
    as (results & s1 & Hrun & Hss & Hsmtp & Hall).
  simpl in Hrun.
  exists results, (with_session (set_csv_results (Some results) (session s1)) s1).
  assert (Hlen : length results = length df).
  { apply Forall2_length in Hall. unfold iterrows in Hall.
    rewrite length_map in Hall. congruence. }
  split; [|split; [reflexivity|split; [exact Hlen|split; [|split; [|split]]]]].
  - unfold process_all_cancellations, try_except.
    rewrite (bind_Return _ _ _ _ _ Hclient).
    rewrite (bind_Return _ _ _ _ _ Hrun).
    reflexivity.
  - intros i row Hrow.
    assert (Hi : iterrows df !! i = Some (row_label row, row))
      by (now rewrite lookup_iterrows, Hrow).
    destruct (Forall2_lookup_l _ _ _ _ _ Hall Hi) as (r & Hr & idx & Hidx & d & draft & ->).
    simpl in Hidx. rewrite (range_index_label df i row Hindex Hrow) in Hidx.
    injection Hidx as <-.
    exists (row_result sv (Z.of_nat i) row d draft),
           (export_of (row_result sv (Z.of_nat i) row d draft)).
    split; [exact Hr|].
    assert (Hx : snd (csv_results_export
                        (session (with_session (set_csv_results (Some results) (session s1)) s1)))
                 !! i = Some (export_of (row_result sv (Z.of_nat i) row d draft))).
    { unfold csv_results_export, current_results. simpl.
      now rewrite list_lookup_fmap, Hr. }
    rewrite Hx. simpl. repeat split; reflexivity.
  - reflexivity.
  - unfold csv_results_export, current_results. simpl.
    now rewrite length_map.
  - intros Hne.
    unfold tab2, process_all_cancellations, try_except, bind, get_session.
    simpl. unfold current_results. simpl.
    destruct results as [|r results]; [destruct df; simpl in Hlen; congruence|].
    rewrite send_all_emails_idle, send_team_notifications_idle. reflexivity.
Qed.

(** ** The single-record workflow *)

Lemma st_metric_accepted text v s :
  is_metric_value v = true -> st_metric text v s = (Return tt, s).
Proof. destruct v; simpl; intros H; try discriminate; reflexivity. Qed.


(** The workflow in one equation, for a decision it can display. *)
Lemma process_cancellation_run f s client :
  get_openai_client env s = (Return client, s) ->
  let reason := form_cancellation_reason f in
  let req1 := matcher_request client reason get_offers_database in
  let d := matcher_decision sv (chat_log s) req1 in
  let req2 := writer_request client (matched_offer_text sv d) reason
                (form_customer_email f) in
  let draft := writer_draft sv (chat_log s ++ [req1]) req2 in
  displayable d = true ->
  process_cancellation env sv f s
  = (Return tt,
     mkState (mkSession (Some (form_result f d draft)) false false
                (csv_results (session s)))
       (chat_log s ++ [req1; req2]) (smtp_log s)).
Proof.
  intros Hclient. cbv zeta. intros Hd.
  unfold process_cancellation.
  unfold bind at 1. simpl. unfold bind at 1. simpl. unfold bind at 1.
  assert (Hclient' : forall s0, get_openai_client env s0 = (Return client, s0)).
  { intros s0. unfold get_openai_client in *.
    destruct (negb (Py.truthy _)); inversion Hclient. reflexivity. }
  rewrite Hclient'.
  rewrite (bind_Return _ _ _ _ _ (offer_matcher_agent_run _ _ _ _)).
  simpl chat_log.
  unfold displayable in Hd.
  apply andb_prop in Hd as [Hd Hname]. apply andb_prop in Hd as [Hdict Hcode].
  destruct (matcher_decision sv (chat_log s) _) as [| | | | | |items] eqn:Ed;
    try discriminate.
  rewrite (bind_Return _ _ _ _ _ (dict_get_dict _ _ _ _)).
  rewrite (bind_Return _ _ _ _ _ (st_metric_accepted _ _ _ Hcode)).
  rewrite (bind_Return _ _ _ _ _ (dict_get_dict _ _ _ _)).
  rewrite (bind_Return _ _ _ _ _ (st_metric_accepted _ _ _ Hname)).
  rewrite (bind_Return _ _ _ _ _ (dict_get_dict _ _ _ _)).
  rewrite (bind_Return _ _ _ _ _ (dict_get_dict _ _ _ _)).
  rewrite (bind_Return _ _ _ _ _ (email_writer_agent_run _ _ _ _ _)).
  rewrite (bind_Return _ _ _ _ _ (dict_get_dict _ _ _ _)).
  unfold modify_session, log_chat, with_session, form_result, is_match_of,
    matched_offer_text. simpl.
  rewrite <- app_assoc. reflexivity.
Qed.

Lemma send_team_notification_run customer_id customer_email date_cancelled s :
  exists ok message s',
    send_team_notification env sv customer_id customer_email date_cancelled s
    = (Return (ok, message), s')
    /\ session s' = session s /\ chat_log s' = chat_log s.
Proof.
  unfold send_team_notification.
  destruct (negb (Py.truthy (SENDER_EMAIL env))).
  - exists false, "SENDER_EMAIL not set in .env file", s. auto.
  - destruct (send_email_cases (default "" (SENDER_EMAIL env)) team_subject
                (team_notification_body customer_id customer_email date_cancelled) s)
      as (ok & message & s' & Hrun & Hss & Hchat & _).
    exists ok, message, s'. auto.
Qed.



(** ** The offer text handed to the writer *)

Lemma dash_text_not_sentinel a b : a +:+ " - " +:+ b <> "NO_MATCH".
Proof.
  intros H.
  do 8 (destruct a as [|? a]; simpl in H; [discriminate|]; injection H as _ H).
  destruct a; discriminate.
Qed.

(** C10.  Both workflows call the email writer once the decision is a
    dict, whatever its offer code, and the offer they hand to it is the
    code and the name of the decision joined by [" - "].  That text is
    never the bare sentinel NO_MATCH; for the no-match decision (code
    NO_MATCH, name the string None or absent) it is "NO_MATCH - None". *)
Theorem writer_receives_code_dash_name :
  (forall client offers_db idx row s,
     let reason := row_cancellation_reason sv row in
     let req1 := matcher_request client reason offers_db in
     let d := matcher_decision sv (chat_log s) req1 in
     let text := format_value sv (decision_field d "OFFER_CODE" JNull)
                 +:+ " - " +:+ format_value sv (decision_field d "OFFER_NAME" JNull) in
     is_dict d = true ->
     exists r s',
       process_row sv client offers_db idx row s = (Return r, s')
       /\ chat_log s'
          = chat_log s ++ [req1; writer_request client text reason (row_customer_email sv row)])
  /\ (forall client f s,
       get_openai_client env s = (Return client, s) ->
       let reason := form_cancellation_reason f in
       let req1 := matcher_request client reason get_offers_database in
       let d := matcher_decision sv (chat_log s) req1 in
       let text := format_value sv (decision_field d "OFFER_CODE" JNull)
                   +:+ " - " +:+ format_value sv (decision_field d "OFFER_NAME" JNull) in
       displayable d = true ->
       exists s',
         process_cancellation env sv f s = (Return tt, s')
         /\ chat_log s'
            = chat_log s ++ [req1; writer_request client text reason (form_customer_email f)])
  /\ (forall d, matched_offer_text sv d <> "NO_MATCH")
  /\ (forall d,
       decision_field d "OFFER_CODE" JNull = JStr "NO_MATCH" ->
       decision_field d "OFFER_NAME" JNull = JStr "None"
       \/ decision_field d "OFFER_NAME" JNull = JNull ->
       matched_offer_text sv d = "NO_MATCH - None")
  /\ (forall e, matched_offer_text sv (no_match_decision e) = "NO_MATCH - None").
Proof.
  split; [|split; [|split; [|split]]].
  - intros client offers_db idx row s. cbv zeta. intros Hd.
    rewrite process_row_run. cbv zeta. rewrite Hd.
    eexists _, _. split; [reflexivity|].
    unfold log_chat. simpl. now rewrite <- app_assoc.
  - intros client f s Hclient. cbv zeta. intros Hd.
    eexists. split; [apply (process_cancellation_run f s client Hclient Hd)|].
    reflexivity.
  - intros d. apply dash_text_not_sentinel.
  - intros d Hcode Hname. unfold matched_offer_text. rewrite Hcode.
    destruct Hname as [-> | ->]; reflexivity.
  - intros e. reflexivity.
Qed.

(** ** Send All Emails *)

Lemma current_results_set_sent ref ss :
  current_results (set_sent ref ss) = alter mark_sent ref (current_results ss).
Proof. unfold current_results, set_sent. now destruct (csv_results ss). Qed.

Lemma elem_of_select_refs keep (results : list result_row) first i :
  i ∈ select_refs keep first results
  <-> exists r, first <= i /\ results !! (i - first) = Some r /\ keep r = true.
Proof.
  revert first. induction results as [|r rest IH]; intros first; simpl.
  - split; [intros H; inversion H | intros (r & _ & H & _); discriminate].
  - assert (Hhere : i = first -> i - first = 0) by lia.
    assert (Hnext : S first <= i -> i - first = S (i - S first)) by lia.
    destruct (keep r) eqn:Ek.
    + rewrite elem_of_cons, IH. split.
      * intros [-> | (r' & Hle & Hr' & Hk)].
        -- exists r. rewrite Nat.sub_diag. auto.
        -- exists r'. rewrite (Hnext Hle). split; [lia | auto].
      * intros (r' & Hle & Hr' & Hk).
        destruct (decide (i = first)) as [->|Hne]; [now left | right].
        assert (Hlt : S first <= i) by lia.
        rewrite (Hnext Hlt) in Hr'. exists r'. auto.
    + rewrite IH. split.
      * intros (r' & Hle & Hr' & Hk).
        exists r'. rewrite (Hnext Hle). split; [lia | auto].
      * intros (r' & Hle & Hr' & Hk).
        destruct (decide (i = first)) as [->|Hne].
        -- rewrite Nat.sub_diag in Hr'. simpl in Hr'. congruence.
        -- assert (Hlt : S first <= i) by lia.
           rewrite (Hnext Hlt) in Hr'. exists r'. auto.
Qed.

Lemma NoDup_select_refs keep (results : list result_row) first :
  NoDup (select_refs keep first results).
Proof.
  revert first. induction results as [|r rest IH]; intros first; simpl.
  - constructor.
  - destruct (keep r); [|apply IH].
    constructor; [|apply IH].
    rewrite elem_of_select_refs. intros (r' & Hle & _). lia.
Qed.

Lemma elem_of_matched_results ss i :
  i ∈ matched_results ss
  <-> exists r, current_results ss !! i = Some r /\ unsent_match r = true.
Proof.
  unfold matched_results. rewrite elem_of_select_refs. rewrite Nat.sub_0_r.
  split; intros (r & H); exists r; [tauto | split; [lia | tauto]].
Qed.

(** One turn of the loop: the dict is dispatched, and marked when the
    dispatch succeeds. *)
Lemma send_one_run ref result a b s :
  current_results (session s) !! ref = Some result ->
  exists ok message s',
    send_email env sv (Email result) retention_subject (Email_Content result) s
    = (Return (ok, message), s')
    /\ send_one env sv ref (a, b) s
       = (Return (if ok then (S a, b) else (a, S b)),
          after_dispatch ok ref s')
    /\ session s' = session s /\ chat_log s' = chat_log s
    /\ exists calls, smtp_log s' = smtp_log s ++ calls
                     /\ Forall (carries result) calls.
Proof.
  intros Hres.
  destruct (send_email_cases (Email result) retention_subject (Email_Content result) s)
    as (ok & message & s' & Hrun & Hss & Hchat & Hcases).
  exists ok, message, s'. split; [exact Hrun|]. split; [|split; [exact Hss|split; [exact Hchat|]]].
  - unfold send_one, bind, get_session. rewrite Hres, Hrun. simpl.
    destruct ok; reflexivity.
  - destruct Hcases as [[-> _] | (host & port & sender & password & _ & _ & Hlog & _)].
    + exists []. rewrite app_nil_r. split; [reflexivity | constructor].
    + cbv zeta in Hlog. eexists [_]. split; [exact Hlog|].
      constructor; [|constructor]. unfold carries. simpl. auto.
Qed.

Lemma after_dispatch_frame ok ref s :
  chat_log (after_dispatch ok ref s) = chat_log s
  /\ smtp_log (after_dispatch ok ref s) = smtp_log s
  /\ processed_data (session (after_dispatch ok ref s)) = processed_data (session s)
  /\ email_sent (session (after_dispatch ok ref s)) = email_sent (session s)
  /\ team_notification_sent (session (after_dispatch ok ref s))
     = team_notification_sent (session s).
Proof. destruct ok; simpl; auto. Qed.

Lemma after_dispatch_same ok ref s :
  current_results (session (after_dispatch ok ref s)) !! ref
  = (if ok then mark_sent else id) <$> current_results (session s) !! ref.
Proof.
  destruct ok; simpl.
  - rewrite current_results_set_sent. apply list_lookup_alter_eq.
  - now destruct (current_results (session s) !! ref).
Qed.

Lemma after_dispatch_other ok ref s i :
  i <> ref ->
  current_results (session (after_dispatch ok ref s)) !! i
  = current_results (session s) !! i.
Proof.
  intros Hne. destruct ok; simpl; [|reflexivity].
  rewrite current_results_set_sent. apply list_lookup_alter_ne. congruence.
Qed.

(** The loop over distinct references to dicts of the list: it ends, it
    counts the dispatches that succeeded and those that failed, it marks
    exactly the dicts whose dispatch succeeded, and every SMTP session it
    opens carries the email of one of the referred dicts. *)
Lemma send_all_loop_run refs :
  NoDup refs ->
  forall s a b,
  (forall i, i ∈ refs -> is_Some (current_results (session s) !! i)) ->
  exists oks s1,
    dispatch_run env sv refs s oks s1
    /\ send_all_loop env sv refs (a, b) s
       = (Return (a + count_true oks, b + count_false oks), s1)
    /\ length oks = length refs
    /\ chat_log s1 = chat_log s
    /\ processed_data (session s1) = processed_data (session s)
    /\ email_sent (session s1) = email_sent (session s)
    /\ team_notification_sent (session s1) = team_notification_sent (session s)
    /\ (forall i, i ∉ refs ->
         current_results (session s1) !! i = current_results (session s) !! i)
    /\ (forall (k i : nat) (ok : bool), refs !! k = Some i -> oks !! k = Some ok ->
         current_results (session s1) !! i
         = (if ok then mark_sent else id) <$> current_results (session s) !! i)
    /\ exists calls,
         smtp_log s1 = smtp_log s ++ calls
         /\ Forall (fun c => exists i r,
                      i ∈ refs /\ current_results (session s) !! i = Some r
                      /\ carries r c) calls.
Proof.
  induction refs as [|ref rest IH]; intros Hnd s a b Hin.
  - exists [], s. simpl. rewrite !Nat.add_0_r.
    repeat split; auto; try constructor.
    + intros k i ok H. discriminate.
    + exists []. rewrite app_nil_r. split; [reflexivity | constructor].
  - apply NoDup_cons in Hnd as [Hfresh Hnd].
    destruct (Hin ref) as [result Hres]; [left|].
    destruct (send_one_run ref result a b s Hres)
      as (ok & message & s' & Hsend & Hone & Hss & Hchat & calls1 & Hlog1 & Hcalls1).
    pose proof (after_dispatch_frame ok ref s') as (Fchat & Fsmtp & Fpd & Fes & Ftn).
    assert (Hother : forall i, i <> ref ->
              current_results (session (after_dispatch ok ref s')) !! i
              = current_results (session s) !! i).
    { intros i Hne. rewrite after_dispatch_other by assumption. now rewrite Hss. }
    assert (Hsame : current_results (session (after_dispatch ok ref s')) !! ref
                    = (if ok then mark_sent else id) <$> current_results (session s) !! ref).
    { rewrite after_dispatch_same. now rewrite Hss. }
    destruct (IH Hnd (after_dispatch ok ref s')
                (if ok then S a else a) (if ok then b else S b))
      as (oks & s1 & Hrun & Hloop & Hlen & Hc & Hpd & Hes & Htn & Hout & Hat
          & calls2 & Hlog2 & Hcalls2).
    { intros i Hi. rewrite Hother; [apply Hin; now right|].
      intros ->. contradiction. }
    exists (ok :: oks), s1.
    split; [econstructor; eassumption|].
    split.
    { simpl. rewrite (bind_Return _ _ _ _ _ Hone).
      replace (if ok then (S a, b) else (a, S b))
        with (if ok then S a else a, if ok then b else S b) by now destruct ok.
      rewrite Hloop. unfold count_true, count_false. destruct ok; simpl;
        repeat f_equal; lia. }
    split; [simpl; congruence|].
    split; [congruence|]. split; [rewrite Hpd, Fpd; now rewrite Hss|].
    split; [rewrite Hes, Fes; now rewrite Hss|].
    split; [rewrite Htn, Ftn; now rewrite Hss|].
    split; [|split].
    + intros i Hi. apply not_elem_of_cons in Hi as [Hne Hi].
      rewrite Hout by assumption. now apply Hother.
    + intros k i ok' Hk Hok. destruct k as [|k]; simpl in Hk, Hok.
      * injection Hk as <-. injection Hok as <-.
        rewrite Hout by assumption. exact Hsame.
      * assert (Hi : i ∈ rest) by (eapply list_elem_of_lookup_2; eassumption).
        rewrite (Hat k i ok' Hk Hok). rewrite Hother; [reflexivity|].
        intros ->. contradiction.
    + exists (calls1 ++ calls2). split.
      * rewrite Hlog2, Fsmtp, Hlog1. now rewrite app_assoc.
      * apply Forall_app. split.
        -- eapply Forall_impl; [exact Hcalls1|]. intros c Hc'.
           exists ref, result. split; [left | auto].
        -- eapply Forall_impl; [exact Hcalls2|].
           intros c (i & r & Hi & Hr & Hc').
           exists i, r. split; [now right|]. split; [|exact Hc'].
           rewrite <- Hother; [exact Hr|]. intros ->. contradiction.
Qed.

Lemma unsent_match_mark_sent r : unsent_match (mark_sent r) = false.
Proof. unfold unsent_match. simpl. apply andb_false_r. Qed.

Lemma count_false_pos (oks : list bool) k : oks !! k = Some false -> 0 < count_false oks.
Proof.
  revert k. induction oks as [|ok oks IH]; intros k H; [discriminate|].
  destruct k as [|k]; simpl in H.
  - injection H as ->. unfold count_false. simpl. lia.
  - apply IH in H. unfold count_false in *. destruct ok; simpl; lia.
Qed.

(** With nothing left to send the section has no button and does nothing. *)
Lemma send_all_emails_nothing_left clicked s :
  matched_results (session s) = [] ->
  send_all_emails env sv clicked s = (Return tt, s).
Proof.
  intros H. unfold send_all_emails, bind, get_session. now rewrite H.
Qed.

(** C1.  One invocation of Send All Emails dispatches the dicts that are
    matched and not yet sent, in the order of the list, and no others:
    [oks] tells for each of them whether its dispatch succeeded.  The dict
    of a successful dispatch is marked sent, the dict of a failed one is
    left as it was, every other dict is untouched, and the two counters
    are the numbers of successes and failures.  Hence the dicts still to
    send afterwards are exactly those whose dispatch failed: a second
    invocation never dispatches a dict that was sent, and when nothing is
    left to send it opens no SMTP session and changes nothing. *)
Theorem send_all_matched_is_idempotent (s : state) :
  let refs := matched_results (session s) in
  let rows := current_results (session s) in
  exists oks s1,
    dispatch_run env sv refs s oks s1
    /\ length oks = length refs
    /\ send_all_loop env sv refs (0, 0) s
       = (Return (count_true oks, count_false oks), s1)
    /\ send_all_emails env sv true s
       = (match refs with [] => Return tt | _ => Raise RerunException end, s1)
    /\ (forall (k i : nat), refs !! k = Some i ->
         exists (r : result_row) (ok : bool),
           rows !! i = Some r /\ unsent_match r = true /\ oks !! k = Some ok
           /\ current_results (session s1) !! i = Some (if ok then mark_sent r else r))
    /\ (forall i, i ∉ refs -> current_results (session s1) !! i = rows !! i)
    /\ (exists calls,
          smtp_log s1 = smtp_log s ++ calls
          /\ Forall (fun c => exists i r,
                       i ∈ refs /\ rows !! i = Some r /\ unsent_match r = true
                       /\ carries r c) calls)
    /\ (forall i, i ∈ matched_results (session s1)
                  <-> exists k, refs !! k = Some i /\ oks !! k = Some false)
    /\ (count_false oks = 0 ->
        matched_results (session s1) = []
        /\ send_all_emails env sv true s1 = (Return tt, s1)).
Proof.
  cbv zeta.
  set (refs := matched_results (session s)).
  assert (Hrefs : forall i, i ∈ refs ->
            exists r, current_results (session s) !! i = Some r /\ unsent_match r = true).
  { intros i Hi. now apply elem_of_matched_results. }
  destruct (send_all_loop_run refs (NoDup_select_refs _ _ _) s 0 0)
    as (oks & s1 & Hrun & Hloop & Hlen & _ & _ & _ & _ & Hout & Hat & calls & Hlog & Hcalls).
  { intros i Hi. destruct (Hrefs i Hi) as (r & Hr & _). now exists r. }
  simpl in Hloop.
  assert (Hmarked : forall (k i : nat), refs !! k = Some i ->
            exists (r : result_row) (ok : bool),
              current_results (session s) !! i = Some r /\ unsent_match r = true
              /\ oks !! k = Some ok
              /\ current_results (session s1) !! i = Some (if ok then mark_sent r else r)).
  { intros k i Hk.
    destruct (Hrefs i) as (r & Hr & Hu); [eapply list_elem_of_lookup_2; eassumption|].
    destruct (lookup_lt_is_Some_2 oks k) as [ok Hok].
    { rewrite Hlen. eapply lookup_lt_Some; eassumption. }
    exists r, ok. repeat split; auto.
    rewrite (Hat k i ok Hk Hok), Hr. now destruct ok. }
  assert (Hleft : forall i, i ∈ matched_results (session s1)
                   <-> exists k, refs !! k = Some i /\ oks !! k = Some false).
  { intros i. rewrite elem_of_matched_results. split.
    - intros (r1 & Hr1 & Hu1).
      destruct (decide (i ∈ refs)) as [Hi|Hi].
      + apply list_elem_of_lookup_1 in Hi as [k Hk]. exists k. split; [exact Hk|].
        destruct (Hmarked k i Hk) as (r & ok & _ & _ & Hok & Hr).
        rewrite Hr in Hr1. injection Hr1 as <-.
        destruct ok; [|exact Hok].
        rewrite unsent_match_mark_sent in Hu1. discriminate.
      + exfalso. apply Hi. apply elem_of_matched_results.
        exists r1. rewrite <- Hout by assumption. auto.
    - intros (k & Hk & Hok).
      destruct (Hmarked k i Hk) as (r & ok & _ & Hu & Hok' & Hr).
      rewrite Hok in Hok'. injection Hok' as <-. exists r. auto. }
  exists oks, s1.
  split; [exact Hrun|]. split; [exact Hlen|]. split; [exact Hloop|].
  split; [|split; [exact Hmarked|split; [exact Hout|split; [|split; [exact Hleft|]]]]].
  - unfold send_all_emails, bind, get_session. fold refs.
    destruct refs as [|ref rest] eqn:Er.
    + inversion Hrun. reflexivity.
    + now rewrite Hloop.
  - exists calls. split; [exact Hlog|].
    eapply Forall_impl; [exact Hcalls|].
    intros c (i & r & Hi & Hr & Hc). exists i, r.
    destruct (Hrefs i Hi) as (r' & Hr' & Hu).
    rewrite Hr in Hr'. injection Hr' as <-. auto.
  - intros Hnone.
    assert (Hempty : matched_results (session s1) = []).
    { destruct (matched_results (session s1)) as [|i rest] eqn:Em; [reflexivity|].
      exfalso. destruct (proj1 (Hleft i)) as (k & _ & Hok); [left|].
      apply count_false_pos in Hok. lia. }
    split; [exact Hempty | now apply send_all_emails_nothing_left].
Qed.

(** ** The script *)

(** The Reset button clears the session and starts the script again. *)
Lemma main_reset up s :
  main env sv up ResetClicked s = (Raise RerunException, with_session initial_session s).
Proof. reflexivity. Qed.

(** A click in the batch tab leaves the single-record tab to display its
    stored result: without a stored result the run is the batch tab's. *)
Lemma main_batch_only up ev s :
  processed_data (session s) = None ->
  main env sv up (Tab2 ev) s = tab2 env sv up ev s.
Proof.
  intros H. unfold main, tab1, display_processed, bind, get_session, ret.
  now rewrite H.
Qed.

End Properties.

(** * Further properties of the script *)

Section MoreProperties.

Variable env : environ.
Variable sv : services.

Local Open Scope py_scope.

(** X1.  [send_email] reports success exactly when it opened an SMTP
    session and [sendmail] returned an empty dict; the message is then the
    one that names the recipient.  When [sendmail] returns refused
    recipients the result is a failure whose message carries them. *)
Theorem send_email_succeeds_iff_accepted (to_email subject body : string) (s : state) :
  exists ok message s',
    send_email env sv to_email subject body s = (Return (ok, message), s')
    /\ (ok = true <->
        exists c, smtp_log s' = smtp_log s ++ [c] /\ smtp sv (smtp_log s) c = inr [])
    /\ (ok = true -> message = msg_sent to_email)
    /\ (forall c err errs,
          smtp_log s' = smtp_log s ++ [c] ->
          smtp sv (smtp_log s) c = inr (err :: errs) ->
          ok = false /\ message = msg_send_errors sv (err :: errs)).
Proof.
  destruct (send_email_cases env sv to_email subject body s)
    as (ok & message & s' & Hrun & _ & _ & Hcases).
  exists ok, message, s'. split; [exact Hrun|].
  destruct Hcases as [[-> ->] | (host & port & sender & password & _ & _ & Hlog & Hres)].
  - assert (Hno : forall c, smtp_log s <> smtp_log s ++ [c]).
    { intros c H. apply (f_equal (@length _)) in H.
      rewrite length_app in H. simpl in H. lia. }
    split; [|split].
    + split; [discriminate | intros (c & H & _); now apply Hno in H].
    + discriminate.
    + intros c err errs H. now apply Hno in H.
  - cbv zeta in Hlog, Hres. unfold session_result in Hres.
    assert (Hsame : forall c, smtp_log s' = smtp_log s ++ [c] ->
              c = mkSmtp host port 10 sender password sender [to_email]
                    sender to_email subject body).
    { intros c H. rewrite Hlog in H. apply app_inv_head in H. now injection H. }
    split; [|split].
    + split.
      * intros ->. eexists. split; [exact Hlog|].
        destruct (smtp sv (smtp_log s) _) as [e|[|err errs]];
          [discriminate | reflexivity | discriminate].
      * intros (c & Hc & Hans). rewrite (Hsame c Hc) in Hans.
        rewrite Hans in Hres. now injection Hres.
    + intros ->. destruct (smtp sv (smtp_log s) _) as [e|[|err errs]];
        [discriminate | now injection Hres | discriminate].
    + intros c err errs Hc Hans. rewrite (Hsame c Hc) in Hans.
      rewrite Hans in Hres. now injection Hres.
Qed.

(** X2.  With sender and password set, a recipient or a sender address
    without [@] is refused before anything else is looked at: the result is
    the invalid-format message, and no session is opened. *)
Theorem send_email_refuses_address_without_at
  (to_email subject body sender password : string) (s : state) :
  SENDER_EMAIL env = Some sender -> SENDER_PASSWORD env = Some password ->
  sender <> "" -> password <> "" ->
  Py.contains "@" to_email && Py.contains "@" sender = false ->
  send_email env sv to_email subject body s
  = (Return (false, msg_invalid_format to_email sender), s).
Proof.
  intros Hs Hp Hs' Hp' Hat.
  unfold send_email, try_except, send_email_body. rewrite Hs, Hp. simpl.
  destruct (String.eqb_spec sender ""); [contradiction|].
  destruct (String.eqb_spec password ""); [contradiction|]. simpl.
  destruct (Py.contains "@" to_email), (Py.contains "@" sender);
    try discriminate; reflexivity.
Qed.

(** X3.  With accepted addresses and a server configured or a provider
    name found, a port that [int] rejects makes [send_email] fail with the
    message of the general clause, which names the [ValueError]; no session
    is opened. *)
Theorem send_email_reports_bad_port
  (to_email subject body port_text reason : string) (s : state) :
  addresses_accepted env to_email = true ->
  reads_port env sv (default "" (SENDER_EMAIL env)) = true ->
  SMTP_PORT env = Some port_text -> port_text <> "" ->
  py_int sv port_text = inl reason ->
  send_email env sv to_email subject body s
  = (Return (false,
             "Error sending email (ValueError): " +:+ reason
             +:+ ". Verify your email configuration in .env file."), s).
Proof.
  unfold addresses_accepted. intros Ha Hr Hport Hne Hint.
  apply andb_prop in Ha as [Ha Hfrom]. apply andb_prop in Ha as [Ha Hto].
  apply andb_prop in Ha as [Hs Hp].
  destruct (resolve_endpoint_reads_port env sv _ Hr) as [host Hhost].
  unfold send_email, try_except, send_email_body.
  rewrite Hs, Hp, Hto, Hfrom. simpl.
  unfold bind at 1. rewrite Hhost. unfold bind, port_or_default.
  rewrite Hport. destruct (String.eqb_spec port_text ""); [contradiction|].
  rewrite Hint. unfold raise. now rewrite select_handler_send_email.
Qed.

(** ** The batch run, whatever the service replies *)

(** Lines 565 and 579 leave the state alone: the label passes, and is an
    int, or an exception is raised. *)
Lemma accept_label_frame total l s o s' :
  accept_label sv total l s = (o, s') ->
  s' = s
  /\ match o with
     | Return idx => l = IntLabel idx
     | Raise t => exists e, t = Exc e
     end.
Proof.
  unfold accept_label, progress, bind, raise, ret. intros H.
  destruct l as [n|e]; [|inversion H; subst; eauto].
  destruct total as [|k]; [inversion H; subst; eauto|].
  destruct ((0 <=? n + 1) && (n + 1 <=? Z.of_nat (S k)))%Z;
    [inversion H; subst; auto|].
  destruct (progress_rejects sv (n + 1) (S k)); inversion H; subst; eauto.
Qed.

(** Rows are processed until one fails: the session and the SMTP log are
    left alone, each row asks the service at most twice, and either every
    row had an int for its label and got its dict, or an exception was
    raised: by the label of a row, or by a decision that is not a dict. *)
Lemma process_rows_any client offers_db total rows :
  forall results s,
  exists o s',
    process_rows sv client offers_db total rows results s = (o, s')
    /\ session s' = session s /\ smtp_log s' = smtp_log s
    /\ (exists reqs, chat_log s' = chat_log s ++ reqs
                     /\ length reqs <= 2 * length rows)
    /\ match o with
       | Return all =>
           exists appended,
             all = results ++ appended
             /\ Forall2 (fun lr r => exists idx, fst lr = IntLabel idx
                                                /\ row_of sv idx (snd lr) r)
                  rows appended
       | Raise t => exists e, t = Exc e
       end.
Proof.
  induction rows as [|[l row] rest IH]; intros results s.
  - exists (Return results), s. simpl. repeat split; auto.
    + exists []. rewrite app_nil_r. split; [reflexivity | simpl; lia].
    + exists []. rewrite app_nil_r. split; [reflexivity | constructor].
  - cbn [process_rows]. unfold bind at 1.
    destruct (accept_label sv total l s) as [[idx|t] s0] eqn:El;
      apply accept_label_frame in El as [-> Hl].
    2:{ exists (Raise t), s. split; [reflexivity|]. split; [reflexivity|].
        split; [reflexivity|]. split; [|exact Hl].
        exists []. rewrite app_nil_r. split; [reflexivity | simpl; lia]. }
    subst l. unfold bind at 1. rewrite process_row_run. cbv zeta.
    destruct (is_dict (matcher_decision sv (chat_log s) _)) eqn:Ed.
    + match goal with
      | |- context [process_rows _ _ _ _ rest (results ++ [?r]) ?s1] =>
          destruct (IH (results ++ [r]) s1)
            as (o & s' & Hrun & Hss & Hsmtp & (reqs & Hchat & Hlen) & Hout);
          exists o, s'
      end.
      split; [exact Hrun|]. split; [exact Hss|]. split; [exact Hsmtp|]. split.
      * eexists (_ :: _ :: reqs). split.
        -- rewrite Hchat. unfold log_chat. simpl.
           rewrite <- !app_assoc. reflexivity.
        -- simpl. lia.
      * destruct o as [all|t]; [|exact Hout].
        destruct Hout as (appended & -> & Hall).
        eexists (_ :: appended). rewrite <- app_assoc. split; [reflexivity|].
        constructor; [|exact Hall]. simpl. exists idx. unfold row_of. eauto.
    + eexists _, _. split; [reflexivity|]. split; [reflexivity|].
      split; [reflexivity|]. split.
      * eexists [_]. split; [reflexivity | simpl; lia].
      * eexists. reflexivity.
Qed.

Lemma row_of_fresh idx row r :
  row_of sv idx row r ->
  Email_Sent r = false /\ (Match_Found r = "Yes" \/ Match_Found r = "No").
Proof.
  intros (d & draft & ->). simpl. split; [reflexivity|].
  destruct (is_match_of d draft); simpl; auto.
Qed.

Lemma process_all_cases up clicked s :
  exists o s',
    process_all_cancellations env sv up clicked s = (o, s')
    /\ smtp_log s' = smtp_log s
    /\ processed_data (session s') = processed_data (session s)
    /\ email_sent (session s') = email_sent (session s)
    /\ team_notification_sent (session s') = team_notification_sent (session s)
    /\ (((o = Return tt \/ o = Raise StopException)
         /\ csv_results (session s') = csv_results (session s))
        \/ exists df results,
             up = Frame df /\ clicked = true /\ o = Raise RerunException
             /\ csv_results (session s') = Some results
             /\ length results = length df
             /\ fresh_rows results).
Proof.
  destruct up as [|e| |df]; simpl.
  - exists (Return tt), s. unfold ret. repeat split; auto.
  - exists (Return tt), s. unfold try_except, raise, select_handler.
    rewrite isinstance_Exception. unfold ret. repeat split; auto.
  - exists (Return tt), s. unfold try_except, ret. repeat split; auto.
  - destruct clicked.
    2:{ exists (Return tt), s. unfold try_except, ret. repeat split; auto. }
    unfold try_except, bind at 1.
    destruct (get_openai_client env s) as [[client|t] s0] eqn:Ec.
    2:{ pose proof (get_openai_client_frame _ _ _ _ Ec) as ->.
        unfold get_openai_client in Ec.
        destruct (negb (Py.truthy _)) in Ec; inversion Ec; subst.
        exists (Raise StopException), s. repeat split; auto. }
    pose proof (get_openai_client_frame _ _ _ _ Ec) as ->.
    unfold bind at 1.
    destruct (process_rows_any client get_offers_database (length df) (iterrows df) [] s)
      as (o & s1 & Hrun & Hss & Hsmtp & _ & Hout).
    rewrite Hrun. destruct o as [results|t].
    + destruct Hout as (appended & -> & Hall). simpl.
      eexists _, _. split; [reflexivity|]. simpl.
      rewrite Hss. repeat split; auto. right.
      exists df, appended. repeat split; auto.
      * apply Forall2_length in Hall. unfold iterrows in Hall.
        rewrite length_map in Hall. congruence.
      * unfold fresh_rows. clear -Hall.
        induction Hall as [|[l row] r rows rs (idx & _ & H) _ IH];
          constructor; [|exact IH].
        exact (row_of_fresh _ _ _ H).
    + destruct Hout as (e & ->). unfold select_handler.
      rewrite isinstance_Exception. unfold ret.
      exists (Return tt), s1. rewrite Hss. repeat split; auto.
Qed.

(** X4.  The batch handler stores a complete list or nothing.  Whatever
    the upload, the click and the replies of the service, it opens no SMTP
    session, leaves the single-record result and the two flags alone, and
    lets no exception out; [csv_results] either stays as it was or becomes
    a list with one dict per row of the frame, every dict unsent and
    labelled Yes or No. *)
Theorem batch_stores_all_rows_or_nothing (up : upload) (clicked : bool) (s : state) :
  exists o s',
    process_all_cancellations env sv up clicked s = (o, s')
    /\ smtp_log s' = smtp_log s
    /\ processed_data (session s') = processed_data (session s)
    /\ email_sent (session s') = email_sent (session s)
    /\ team_notification_sent (session s') = team_notification_sent (session s)
    /\ (((o = Return tt \/ o = Raise StopException)
         /\ csv_results (session s') = csv_results (session s))
        \/ exists df results,
             up = Frame df /\ clicked = true /\ o = Raise RerunException
             /\ csv_results (session s') = Some results
             /\ length results = length df
             /\ Forall (fun r => Email_Sent r = false
                                 /\ (Match_Found r = "Yes" \/ Match_Found r = "No"))
                  results).
Proof.
  destruct (process_all_cases up clicked s)
    as (o & s' & Hrun & Hsmtp & Hpd & Hes & Htn & Hcases).
  exists o, s'. split; [exact Hrun|]. split; [exact Hsmtp|].
  split; [exact Hpd|]. split; [exact Hes|]. split; [exact Htn|].
  destruct Hcases as [Hkept | (df & results & Hup & Hclick & Ho & Hcsv & Hlen & Hfresh)].
  - left. exact Hkept.
  - right. exists df, results. unfold fresh_rows in Hfresh. auto 10.
Qed.

(** X5.  Without an API key neither workflow asks the reasoning
    service anything.  The batch handler stops the script and leaves the
    state as it was: the stop signal is not taken by its [except] clause.
    The single-record workflow stops after resetting the two flags, and
    the former result stays. *)
Theorem no_api_key_stops_before_any_request
  (df : list df_row) (f : form_input) (s : state) :
  api_key_configured env = false ->
  process_all_cancellations env sv (Frame df) true s = (Raise StopException, s)
  /\ process_cancellation env sv f s
     = (Raise StopException,
        with_session
          (set_team_notification_sent false (set_email_sent false (session s))) s).
Proof.
  unfold api_key_configured. intros H.
  apply orb_false_elim in H as [H1 H2].
  assert (Hstop : forall s0, get_openai_client env s0 = (Raise StopException, s0)).
  { intros s0. unfold get_openai_client. rewrite H1. simpl. now rewrite H2. }
  split.
  - unfold process_all_cancellations, try_except.
    now rewrite (bind_Raise _ _ _ _ _ (Hstop s)).
  - unfold process_cancellation. unfold bind at 1. simpl. unfold bind at 1. simpl.
    now rewrite (bind_Raise _ _ _ _ _ (Hstop _)).
Qed.

(** ** The summary metrics *)

Lemma length_select_refs keep first (results : list result_row) :
  length (select_refs keep first results) = length (List.filter keep results).
Proof.
  revert first. induction results as [|r rest IH]; intros first; simpl;
    [reflexivity|].
  destruct (keep r); simpl; now rewrite IH.
Qed.

Lemma fresh_rows_counts results :
  fresh_rows results ->
  length (List.filter (fun r => String.eqb (Match_Found r) "Yes") results)
  + length (List.filter (fun r => String.eqb (Match_Found r) "No") results)
  = length results
  /\ List.filter unsent_match results
     = List.filter (fun r => String.eqb (Match_Found r) "Yes") results.
Proof.
  induction 1 as [|r rest [Hsent Hlabel] _ [IHn IHf]]; simpl; [auto|].
  unfold unsent_match at 1. rewrite Hsent, andb_true_r.
  destruct Hlabel as [-> | ->]; simpl; rewrite IHf; split; auto; lia.
Qed.

(** X6.  After a batch run that stored its results, the three metrics of
    the summary agree with the frame and with the two action lists: the
    total is the number of rows, matches and non-matches add up to it, the
    Send All list holds exactly the matches and the team-notification list
    exactly the non-matches. *)
Theorem summary_counts_add_up (df : list df_row) (s s' : state) :
  process_all_cancellations env sv (Frame df) true s = (Raise RerunException, s') ->
  exists matches no_matches,
    summary_metrics (session s') = (length df, matches, no_matches)
    /\ matches + no_matches = length df
    /\ length (matched_results (session s')) = matches
    /\ length (no_match_results (session s')) = no_matches.
Proof.
  intros Hrun.
  destruct (process_all_cases (Frame df) true s)
    as (o & s1 & Hrun' & _ & _ & _ & _ & Hcases).
  rewrite Hrun in Hrun'. injection Hrun' as <- <-.
  destruct Hcases as [[[H|H] _] | (df' & results & Hdf & _ & _ & Hcsv & Hlen & Hfresh)];
    try discriminate.
  injection Hdf as <-.
  destruct (fresh_rows_counts results Hfresh) as [Hsum Hfilter].
  unfold summary_metrics, matched_results, no_match_results, current_results.
  rewrite Hcsv. simpl. rewrite !length_select_refs, Hfilter, Hlen.
  eexists _, _. split; [reflexivity|]. split; [congruence | auto].
Qed.

(** ** The label of a row *)

Lemma ne_str_true v text : ne_str v text = true <-> v <> JStr text.
Proof.
  destruct v; simpl; try (split; [discriminate | reflexivity]).
  destruct (String.eqb_spec s text); simpl; split; congruence.
Qed.

(** X7.  A row of the batch is labelled Yes exactly when the code stored
    for it is not the string NO_MATCH and its draft is not the string
    NO_MATCH; otherwise it is labelled No.  A decision without an
    OFFER_CODE is stored with the code NO_MATCH, hence labelled No. *)
Theorem row_label_follows_code_and_draft
  (client offers_db : string) (idx : Z) (row : df_row) (s s' : state)
  (r : result_row) :
  process_row sv client offers_db idx row s = (Return r, s') ->
  (Match_Found r = "Yes"
   <-> Offer_Code r <> JStr "NO_MATCH" /\ Email_Content r <> "NO_MATCH")
  /\ (Match_Found r = "No"
      <-> Offer_Code r = JStr "NO_MATCH" \/ Email_Content r = "NO_MATCH")
  /\ (forall items,
        matcher_decision sv (chat_log s)
          (matcher_request client (row_cancellation_reason sv row) offers_db)
        = JObj items ->
        assoc "OFFER_CODE" items = None ->
        Offer_Code r = JStr "NO_MATCH" /\ Match_Found r = "No").
Proof.
  rewrite process_row_run. cbv zeta.
  destruct (is_dict (matcher_decision sv (chat_log s) _)) eqn:Ed; [|discriminate].
  intros H. injection H as <- _.
  unfold row_result, is_match_of. simpl.
  set (code := decision_field _ "OFFER_CODE" (JStr "NO_MATCH")).
  set (draft := writer_draft sv _ _).
  pose proof (ne_str_true code "NO_MATCH") as Hcode.
  destruct (ne_str code "NO_MATCH") eqn:En;
    destruct (String.eqb_spec draft "NO_MATCH") as [Hd|Hd]; simpl.
  - split; [|split].
    + split; [discriminate | tauto].
    + split; [auto | reflexivity].
    + intros items Hi Ha. subst code. rewrite Hi in En. simpl in En.
      rewrite Ha in En. discriminate.
  - split; [|split].
    + split; [intros _; split; [now apply Hcode | exact Hd] | reflexivity].
    + split; [discriminate|]. intros [H|H]; [|contradiction].
      apply Hcode in H; [contradiction | reflexivity].
    + intros items Hi Ha. subst code. rewrite Hi in En. simpl in En.
      rewrite Ha in En. discriminate.
  - assert (Hc : code = JStr "NO_MATCH").
    { destruct code; try discriminate. simpl in En.
      destruct (String.eqb_spec s0 "NO_MATCH"); [congruence | discriminate]. }
    split; [|split].
    + split; [discriminate | tauto].
    + split; [auto | reflexivity].
    + auto.
  - assert (Hc : code = JStr "NO_MATCH").
    { destruct code; try discriminate. simpl in En.
      destruct (String.eqb_spec s0 "NO_MATCH"); [congruence | discriminate]. }
    split; [|split].
    + split; [discriminate|]. intros [H _]. contradiction.
    + split; [auto | reflexivity].
    + auto.
Qed.

(** ** Components a fragment keeps *)

Lemma keeps_ret {A B} (component : state -> B) (a : A) : keeps component (ret a).
Proof. intros s o s' H. now inversion H. Qed.

Lemma keeps_bind {A B C} (component : state -> C) (m : py A) (k : A -> py B) :
  keeps component m -> (forall a, keeps component (k a)) ->
  keeps component (bind m k).
Proof.
  intros Hm Hk s o s'. unfold bind.
  destruct (m s) as [[a|t] s1] eqn:E; intros H.
  - rewrite (Hk a _ _ _ H). exact (Hm _ _ _ E).
  - inversion H; subst. exact (Hm _ _ _ E).
Qed.

Lemma keeps_get_session {B} (component : state -> B) : keeps component get_session.
Proof. intros s o s' H. now inversion H. Qed.

Lemma keeps_st_rerun {A B} (component : state -> B) : keeps component (@st_rerun A).
Proof. intros s o s' H. now inversion H. Qed.

Lemma keeps_modify_session {B} (component : state -> B) f :
  (forall s, component (with_session (f (session s)) s) = component s) ->
  keeps component (modify_session f).
Proof. intros Hf s o s' H. inversion H; subst. apply Hf. Qed.

Lemma keeps_try_except {A B} (component : state -> B) (body : py A) hs :
  keeps component body ->
  (forall e h, select_handler hs e = Some h -> keeps component h) ->
  keeps component (try_except body hs).
Proof.
  intros Hb Hh s o s'. unfold try_except.
  destruct (body s) as [[a|[e| |]] s1] eqn:E; intros H;
    try (inversion H; subst; exact (Hb _ _ _ E)).
  destruct (select_handler hs e) as [h|] eqn:Eh.
  - rewrite (Hh e h Eh _ _ _ H). exact (Hb _ _ _ E).
  - inversion H; subst. exact (Hb _ _ _ E).
Qed.

(** *** The reasoning service is left alone by the mail functions *)

Lemma keeps_chat_send_email to_email subject body :
  keeps chat_log (send_email env sv to_email subject body).
Proof.
  intros s o s' H.
  destruct (send_email_cases env sv to_email subject body s)
    as (ok & message & s1 & Hrun & _ & Hchat & _).
  rewrite Hrun in H. now inversion H; subst.
Qed.

Lemma keeps_chat_send_team_notification customer_id customer_email date_cancelled :
  keeps chat_log
    (send_team_notification env sv customer_id customer_email date_cancelled).
Proof.
  unfold send_team_notification.
  destruct (negb (Py.truthy (SENDER_EMAIL env)));
    [apply keeps_ret | apply keeps_chat_send_email].
Qed.

Lemma keeps_chat_modify f : keeps chat_log (modify_session f).
Proof. now apply keeps_modify_session. Qed.

Lemma keeps_chat_display_processed send_clicked :
  keeps chat_log (display_processed env sv send_clicked).
Proof.
  unfold display_processed. apply keeps_bind; [apply keeps_get_session|].
  intros ss. destruct (processed_data ss) as [data|]; [|apply keeps_ret].
  destruct (pd_is_match data).
  - destruct (send_clicked && negb (email_sent ss)); [|apply keeps_ret].
    apply keeps_bind; [apply keeps_chat_send_email|].
    intros [ok message]. simpl. destruct ok; [|apply keeps_ret].
    apply keeps_bind; [apply keeps_chat_modify | intros; apply keeps_st_rerun].
  - destruct (negb (team_notification_sent ss)); [|apply keeps_ret].
    apply keeps_bind; [apply keeps_chat_send_team_notification|].
    intros [ok message]. simpl. destruct ok; [apply keeps_chat_modify | apply keeps_ret].
Qed.

Lemma keeps_chat_send_all_loop refs :
  forall counts, keeps chat_log (send_all_loop env sv refs counts).
Proof.
  induction refs as [|ref rest IH]; intros counts; simpl; [apply keeps_ret|].
  apply keeps_bind; [|intros; apply IH].
  unfold send_one. destruct counts as [a b].
  apply keeps_bind; [apply keeps_get_session|].
  intros ss. destruct (current_results ss !! ref) as [result|]; [|apply keeps_ret].
  apply keeps_bind; [apply keeps_chat_send_email|].
  intros [ok message]. simpl. destruct ok; [|apply keeps_ret].
  apply keeps_bind; [apply keeps_chat_modify | intros; apply keeps_ret].
Qed.

Lemma keeps_chat_send_all_emails clicked :
  keeps chat_log (send_all_emails env sv clicked).
Proof.
  unfold send_all_emails. apply keeps_bind; [apply keeps_get_session|].
  intros ss. destruct (matched_results ss) as [|ref rest]; [apply keeps_ret|].
  destruct clicked; [|apply keeps_ret].
  apply keeps_bind; [apply keeps_chat_send_all_loop | intros; apply keeps_st_rerun].
Qed.

Lemma keeps_chat_notify_loop refs : keeps chat_log (notify_loop env sv refs).
Proof.
  induction refs as [|ref rest IH]; simpl; [apply keeps_ret|].
  apply keeps_bind; [|intros; apply IH].
  unfold notify_one. apply keeps_bind; [apply keeps_get_session|].
  intros ss. destruct (current_results ss !! ref) as [result|]; [|apply keeps_ret].
  apply keeps_bind; [apply keeps_chat_send_team_notification | intros; apply keeps_ret].
Qed.

Lemma keeps_chat_send_team_notifications clicked :
  keeps chat_log (send_team_notifications env sv clicked).
Proof.
  unfold send_team_notifications. apply keeps_bind; [apply keeps_get_session|].
  intros ss. destruct (no_match_results ss) as [|ref rest]; [apply keeps_ret|].
  destruct clicked; [apply keeps_chat_notify_loop | apply keeps_ret].
Qed.

Lemma process_all_unclicked up s :
  process_all_cancellations env sv up false s = (Return tt, s).
Proof.
  destruct up as [|e| |df]; try reflexivity.
  simpl. unfold try_except, raise, select_handler.
  now rewrite isinstance_Exception.
Qed.

(** X8.  The reasoning service is asked only by the two workflows: a
    script run started by anything but the form submitted with a reason or
    the Process All button (a plain rerun, the Reset, Send Email, Copy
    Email, Send All Emails and Send Team Notifications buttons, the form
    submitted without a reason) makes no request, however it ends. *)
Theorem only_workflows_ask_the_service (up : upload) (ev : event) (s s' : state)
  (o : outcome (option (list string * list export_row))) :
  runs_workflow ev = false ->
  main env sv up ev s = (o, s') ->
  chat_log s' = chat_log s.
Proof.
  intros Hev. revert s o s'. change (keeps chat_log (main env sv up ev)).
  unfold main. apply keeps_bind.
  { destruct ev; try apply keeps_ret.
    apply keeps_bind; [apply keeps_chat_modify | intros; apply keeps_st_rerun]. }
  intros _. apply keeps_bind.
  { unfold tab1. destruct ev as [| |[|f| |]|]; try apply keeps_chat_display_processed.
    simpl in Hev. apply negb_false_iff in Hev. rewrite Hev. simpl.
    apply keeps_bind; [apply keeps_ret | intros; apply keeps_chat_display_processed]. }
  intros _. unfold tab2. apply keeps_bind.
  { destruct ev as [| | |[]]; simpl; try discriminate;
      intros s o s' H; rewrite process_all_unclicked in H; now inversion H. }
  intros _. apply keeps_bind; [apply keeps_get_session|].
  intros ss. destruct (current_results ss); [apply keeps_ret|].
  apply keeps_bind; [apply keeps_chat_send_all_emails|]. intros _.
  apply keeps_bind; [apply keeps_chat_send_team_notifications|]. intros _.
  apply keeps_bind; [apply keeps_get_session | intros; apply keeps_ret].
Qed.

(** ** Who sends mail *)

Lemma keeps_opens_only {A} kind (m : py A) : keeps smtp_log m -> opens_only kind m.
Proof.
  intros H s o s' Hrun. exists []. rewrite app_nil_r.
  split; [exact (H _ _ _ Hrun) | constructor].
Qed.

Lemma opens_only_bind {A B} kind (m : py A) (k : A -> py B) :
  opens_only kind m -> (forall a, opens_only kind (k a)) ->
  opens_only kind (bind m k).
Proof.
  intros Hm Hk s o s'. unfold bind.
  destruct (m s) as [[a|t] s1] eqn:E; intros H.
  - destruct (Hm _ _ _ E) as (c1 & H1 & F1).
    destruct (Hk a _ _ _ H) as (c2 & H2 & F2).
    exists (c1 ++ c2). rewrite H2, H1, app_assoc.
    split; [reflexivity | now apply Forall_app].
  - inversion H; subst. exact (Hm _ _ _ E).
Qed.

Lemma keeps_smtp_modify f : keeps smtp_log (modify_session f).
Proof. now apply keeps_modify_session. Qed.

Lemma keeps_smtp_get_openai_client : keeps smtp_log (get_openai_client env).
Proof. intros s o s' H. now rewrite (get_openai_client_frame _ _ _ _ H). Qed.

Lemma keeps_smtp_offer_matcher_agent client reason offers_db :
  keeps smtp_log (offer_matcher_agent sv client reason offers_db).
Proof. intros s o s' H. rewrite offer_matcher_agent_run in H. now inversion H. Qed.

Lemma keeps_smtp_email_writer_agent client offer reason email :
  keeps smtp_log (email_writer_agent sv client offer reason email).
Proof. intros s o s' H. rewrite email_writer_agent_run in H. now inversion H. Qed.

Lemma keeps_dict_get {B} (component : state -> B) d key default :
  keeps component (dict_get d key default).
Proof. intros s o s' H. destruct d; now inversion H. Qed.

Lemma keeps_st_metric {B} (component : state -> B) text v :
  keeps component (st_metric text v).
Proof. intros s o s' H. destruct v; now inversion H. Qed.

(** The single-record workflow opens no SMTP session. *)
Lemma keeps_smtp_process_cancellation f :
  keeps smtp_log (process_cancellation env sv f).
Proof.
  unfold process_cancellation.
  repeat first
    [ apply keeps_smtp_modify
    | apply keeps_smtp_get_openai_client
    | apply keeps_smtp_offer_matcher_agent
    | apply keeps_smtp_email_writer_agent
    | apply keeps_dict_get
    | apply keeps_st_metric
    | apply keeps_bind; [|intros ?] ].
Qed.

Lemma keeps_smtp_process_all up clicked :
  keeps smtp_log (process_all_cancellations env sv up clicked).
Proof.
  intros s o s' H.
  destruct (process_all_cases up clicked s) as (o1 & s1 & Hrun & Hsmtp & _).
  rewrite Hrun in H. now inversion H; subst.
Qed.

Lemma opens_team_send_team_notification customer_id customer_email date_cancelled :
  opens_only (is_team_notification env)
    (send_team_notification env sv customer_id customer_email date_cancelled).
Proof.
  intros s o s' H. unfold send_team_notification in H.
  destruct (Py.truthy (SENDER_EMAIL env)) eqn:Et; simpl in H.
  - destruct (send_email_cases env sv (default "" (SENDER_EMAIL env)) team_subject
                (team_notification_body customer_id customer_email date_cancelled) s)
      as (ok & message & s1 & Hrun & _ & _ & Hcases).
    rewrite Hrun in H. inversion H; subst.
    destruct Hcases as [[-> _] | (host & port & sender & password & _ & _ & Hlog & _)].
    + exists []. rewrite app_nil_r. split; [reflexivity | constructor].
    + cbv zeta in Hlog. eexists [_]. split; [exact Hlog|].
      constructor; [|constructor]. unfold is_team_notification. simpl. auto.
  - inversion H; subst. exists []. rewrite app_nil_r.
    split; [reflexivity | constructor].
Qed.

Lemma opens_team_display_unclicked :
  opens_only (is_team_notification env) (display_processed env sv false).
Proof.
  unfold display_processed.
  apply opens_only_bind; [apply keeps_opens_only, keeps_get_session|].
  intros ss. destruct (processed_data ss) as [data|];
    [|apply keeps_opens_only, keeps_ret].
  destruct (pd_is_match data); simpl; [apply keeps_opens_only, keeps_ret|].
  destruct (negb (team_notification_sent ss)); [|apply keeps_opens_only, keeps_ret].
  apply opens_only_bind; [apply opens_team_send_team_notification|].
  intros [ok message]. simpl.
  destruct ok; apply keeps_opens_only; [apply keeps_smtp_modify | apply keeps_ret].
Qed.

Lemma opens_team_notify_loop refs :
  opens_only (is_team_notification env) (notify_loop env sv refs).
Proof.
  induction refs as [|ref rest IH]; simpl; [apply keeps_opens_only, keeps_ret|].
  apply opens_only_bind; [|intros; apply IH].
  unfold notify_one.
  apply opens_only_bind; [apply keeps_opens_only, keeps_get_session|].
  intros ss. destruct (current_results ss !! ref) as [result|];
    [|apply keeps_opens_only, keeps_ret].
  apply opens_only_bind; [apply opens_team_send_team_notification|].
  intros; apply keeps_opens_only, keeps_ret.
Qed.

(** X9.  Retention emails go out only on a send click.  In a script run
    started by anything but the Send Email or the Send All Emails button
    (a form submission, the batch run, a plain rerun, the other buttons)
    every SMTP session opened is a team notification, addressed to the
    sender address itself: composing an email never sends it. *)
Theorem only_send_clicks_mail_customers (up : upload) (ev : event) (s s' : state)
  (o : outcome (option (list string * list export_row))) :
  is_send_click ev = false ->
  main env sv up ev s = (o, s') ->
  exists calls,
    smtp_log s' = smtp_log s ++ calls
    /\ Forall (fun c => smtp_rcpt c = [default "" (SENDER_EMAIL env)]
                        /\ msg_to c = default "" (SENDER_EMAIL env)
                        /\ msg_subject c = team_subject) calls.
Proof.
  intros Hev. revert s o s'.
  change (opens_only (is_team_notification env) (main env sv up ev)).
  unfold main. apply opens_only_bind.
  { apply keeps_opens_only. destruct ev; try apply keeps_ret.
    apply keeps_bind; [apply keeps_smtp_modify | intros; apply keeps_st_rerun]. }
  intros _. apply opens_only_bind.
  { unfold tab1. destruct ev as [| |[|f| |]|]; try discriminate;
      try apply opens_team_display_unclicked.
    apply opens_only_bind; [|intros; apply opens_team_display_unclicked].
    apply keeps_opens_only.
    destruct (negb _); [apply keeps_smtp_process_cancellation | apply keeps_ret]. }
  intros _. unfold tab2.
  apply opens_only_bind; [apply keeps_opens_only, keeps_smtp_process_all|].
  intros _. apply opens_only_bind; [apply keeps_opens_only, keeps_get_session|].
  intros ss. destruct (current_results ss); [apply keeps_opens_only, keeps_ret|].
  apply opens_only_bind.
  { apply keeps_opens_only.
    replace (is_event _ SendAllClicked) with false
      by (destruct ev as [| | |[]]; simpl in *; congruence).
    intros s o s' H. rewrite send_all_emails_idle in H. now inversion H. }
  intros _. apply opens_only_bind.
  { unfold send_team_notifications.
    apply opens_only_bind; [apply keeps_opens_only, keeps_get_session|].
    intros ss'. destruct (no_match_results ss'); [apply keeps_opens_only, keeps_ret|].
    destruct (is_event _ _); [apply opens_team_notify_loop|].
    apply keeps_opens_only, keeps_ret. }
  intros _. apply opens_only_bind; [apply keeps_opens_only, keeps_get_session|].
  intros; apply keeps_opens_only, keeps_ret.
Qed.

(** ** The stored single-record result *)

(** X10.  The Send Email button sends a matched result once.  While
    [email_sent] is set a click does nothing.  Otherwise the click
    dispatches the stored draft to the stored customer address: a success
    sets [email_sent] and reruns the script, after which a further click
    does nothing; a failure leaves the flag and the result as they were,
    so that the button can be clicked again. *)
Theorem send_button_sends_once (s : state) (data : processed) :
  processed_data (session s) = Some data ->
  pd_is_match data = true ->
  exists ok message s1,
    send_email env sv (pd_customer_email data) retention_subject
      (pd_email_content data) s = (Return (ok, message), s1)
    /\ display_processed env sv true s
       = (if email_sent (session s) then (Return tt, s)
          else if ok
               then (Raise RerunException,
                     with_session (set_email_sent true (session s1)) s1)
               else (Return tt, s1))
    /\ display_processed env sv true
         (with_session (set_email_sent true (session s1)) s1)
       = (Return tt, with_session (set_email_sent true (session s1)) s1)
    /\ session s1 = session s.
Proof.
  intros Hdata Hmatch.
  destruct (send_email_cases env sv (pd_customer_email data) retention_subject
              (pd_email_content data) s)
    as (ok & message & s1 & Hrun & Hss & _ & _).
  exists ok, message, s1. split; [exact Hrun|]. split; [|split; [|exact Hss]].
  - unfold display_processed, bind, get_session. rewrite Hdata, Hmatch.
    destruct (email_sent (session s)); simpl; [reflexivity|].
    rewrite Hrun. simpl. now destruct ok.
  - unfold display_processed, bind, get_session. simpl.
    now rewrite Hss, Hdata, Hmatch.
Qed.

(** X11.  The team is notified of a stored non-match until it worked,
    then never again.  While [team_notification_sent] is unset every
    script run that displays the result, whatever started it, calls
    [send_team_notification] for the stored customer; a success sets the
    flag, after which no run notifies again; a failure leaves the flag
    unset, so that the next run tries again. *)
Theorem team_is_notified_until_it_worked
  (s : state) (data : processed) (send_clicked : bool) :
  processed_data (session s) = Some data ->
  pd_is_match data = false ->
  exists ok message s1,
    send_team_notification env sv (pd_customer_id data) (pd_customer_email data)
      (pd_date_cancelled data) s = (Return (ok, message), s1)
    /\ display_processed env sv send_clicked s
       = (Return tt,
          if team_notification_sent (session s) then s
          else if ok
               then with_session (set_team_notification_sent true (session s1)) s1
               else s1)
    /\ (forall clicked,
          display_processed env sv clicked
            (with_session (set_team_notification_sent true (session s1)) s1)
          = (Return tt,
             with_session (set_team_notification_sent true (session s1)) s1))
    /\ session s1 = session s.
Proof.
  intros Hdata Hmatch.
  destruct (send_team_notification_run env sv (pd_customer_id data)
              (pd_customer_email data) (pd_date_cancelled data) s)
    as (ok & message & s1 & Hrun & Hss & _).
  exists ok, message, s1. split; [exact Hrun|]. split; [|split; [|exact Hss]].
  - unfold display_processed, bind, get_session. rewrite Hdata, Hmatch.
    destruct (team_notification_sent (session s)); simpl; [reflexivity|].
    rewrite Hrun. simpl. now destruct ok.
  - intros clicked. unfold display_processed, bind, get_session. simpl.
    now rewrite Hss, Hdata, Hmatch.
Qed.

(** ** Send Team Notifications *)

Lemma send_team_notification_session customer_id customer_email date_cancelled host port s :
  addresses_accepted env (default "" (SENDER_EMAIL env)) = true ->
  resolve_endpoint env sv (default "" (SENDER_EMAIL env)) s
  = (Return (Some (host, port)), s) ->
  let c := session_for env host port (default "" (SENDER_EMAIL env)) team_subject
             (team_notification_body customer_id customer_email date_cancelled) in
  send_team_notification env sv customer_id customer_email date_cancelled s
  = (Return (session_result sv (smtp_log s) c (default "" (SENDER_EMAIL env))),
     log_smtp c s).
Proof.
  intros Ha Hr. cbv zeta. unfold send_team_notification.
  assert (Ht : Py.truthy (SENDER_EMAIL env) = true).
  { unfold addresses_accepted in Ha.
    destruct (Py.truthy (SENDER_EMAIL env)); [reflexivity | discriminate]. }
  rewrite Ht. simpl. now apply send_email_session.
Qed.

Lemma notify_loop_run host port :
  addresses_accepted env (default "" (SENDER_EMAIL env)) = true ->
  (forall s, resolve_endpoint env sv (default "" (SENDER_EMAIL env)) s
             = (Return (Some (host, port)), s)) ->
  forall rest before s,
    current_results (session s) = before ++ rest ->
    notify_loop env sv (select_refs no_match (length before) rest) s
    = (Return tt,
       mkState (session s) (chat_log s)
         (smtp_log s
          ++ map (notification_for env host port) (List.filter no_match rest))).
Proof.
  intros Ha Hr. induction rest as [|r rest IH]; intros before s Hrows; simpl.
  - rewrite app_nil_r. now destruct s.
  - assert (Hnext : current_results (session s) = (before ++ [r]) ++ rest)
      by (now rewrite <- app_assoc).
    assert (Hlen : S (length before) = length (before ++ [r]))
      by (rewrite length_app; simpl; lia).
    destruct (no_match r) eqn:En.
    + simpl. unfold bind at 1, notify_one, bind at 1, get_session.
      rewrite Hrows, list_lookup_middle by reflexivity.
      unfold bind at 1.
      rewrite (send_team_notification_session _ _ _ host port s Ha (Hr s)).
      unfold ret. rewrite Hlen. rewrite IH by exact Hnext.
      unfold log_smtp, notification_for. simpl. now rewrite <- app_assoc.
    + rewrite Hlen. now apply IH.
Qed.

Lemma send_team_notifications_clicked s :
  send_team_notifications env sv true s
  = notify_loop env sv (no_match_results (session s)) s.
Proof.
  unfold send_team_notifications, bind, get_session.
  now destruct (no_match_results (session s)).
Qed.

(** X12.  Send Team Notifications keeps no record of what it sent.  With
    accepted sender settings and a resolved endpoint, a click opens one
    session per non-match dict, in the order of the list, each carrying
    the id, address and date of its dict, and leaves the session state as
    it was; a second click therefore sends the same notifications again. *)
Theorem team_notifications_are_sent_again (host : string) (port : Z) (s : state) :
  addresses_accepted env (default "" (SENDER_EMAIL env)) = true ->
  (forall s0, resolve_endpoint env sv (default "" (SENDER_EMAIL env)) s0
              = (Return (Some (host, port)), s0)) ->
  let calls := map (notification_for env host port)
                 (List.filter no_match (current_results (session s))) in
  exists s1 s2,
    send_team_notifications env sv true s = (Return tt, s1)
    /\ session s1 = session s
    /\ smtp_log s1 = smtp_log s ++ calls
    /\ send_team_notifications env sv true s1 = (Return tt, s2)
    /\ session s2 = session s
    /\ smtp_log s2 = smtp_log s ++ calls ++ calls.
Proof.
  intros Ha Hr. cbv zeta.
  pose proof (notify_loop_run host port Ha Hr) as Hloop.
  eexists _, _.
  rewrite !send_team_notifications_clicked. unfold no_match_results.
  split; [apply (Hloop _ [] s); reflexivity|]. simpl.
  split; [reflexivity|]. split; [reflexivity|].
  split; [apply (Hloop _ [] _); reflexivity|]. simpl.
  split; [reflexivity | now rewrite <- app_assoc].
Qed.

(** ** A run nothing started *)

(** X13.  A rerun that no widget started changes nothing unless a team
    notification is pending: the state is returned as it was, together
    with the export frame when there are batch results. *)
Theorem idle_rerun_changes_nothing (up : upload) (s : state) :
  pending_notification (session s) = false ->
  main env sv up Rerun s
  = (Return (match current_results (session s) with
             | [] => None
             | _ => Some (csv_results_export (session s))
             end), s).
Proof.
  unfold pending_notification. intros Hp.
  assert (Hshow : display_processed env sv false s = (Return tt, s)).
  { unfold display_processed, bind, get_session.
    destruct (processed_data (session s)) as [data|]; [|reflexivity].
    destruct (pd_is_match data); simpl in *; [reflexivity|].
    now rewrite Hp. }
  unfold main, tab1. unfold bind at 1. unfold ret at 1.
  rewrite (bind_Return _ _ _ _ _ Hshow).
  unfold tab2. simpl is_event.
  rewrite (bind_Return _ _ _ _ _ (process_all_unclicked up s)).
  unfold bind at 1, get_session at 1.
  destruct (current_results (session s)) eqn:Er; [reflexivity|].
  rewrite (bind_Return _ _ _ _ _ (send_all_emails_idle env sv s)).
  rewrite (bind_Return _ _ _ _ _ (send_team_notifications_idle env sv s)).
  reflexivity.
Qed.

(** ** Generated customer ids *)

Lemma pretty_N_char_digit x : is_digit (pretty_N_char x) = true.
Proof. unfold pretty_N_char. repeat case_match; reflexivity. Qed.

Lemma pretty_N_char_nonzero x : (0 < x)%N -> pretty_N_char x <> "0"%char.
Proof. unfold pretty_N_char. repeat case_match; (lia || discriminate). Qed.

Lemma pretty_N_go_digits x :
  forall s, digits_only s = true -> digits_only (pretty_N_go x s) = true.
Proof.
  induction (N.lt_wf_0 x) as [x _ IH]; intros s Hs.
  destruct (decide (x = 0)%N) as [->|Hx]; [now rewrite pretty_N_go_0|].
  rewrite pretty_N_go_step by lia.
  apply IH; [apply N.div_lt; lia|]. simpl. now rewrite pretty_N_char_digit.
Qed.

(** The first digit of a positive number is not 0. *)
Lemma pretty_N_go_first x :
  (0 < x)%N -> forall s, exists c rest,
    pretty_N_go x s = String c rest /\ c <> "0"%char.
Proof.
  induction (N.lt_wf_0 x) as [x _ IH]; intros Hx s.
  rewrite pretty_N_go_step by exact Hx.
  destruct (decide (x `div` 10 = 0)%N) as [Hd|Hd].
  - rewrite Hd, pretty_N_go_0. eexists _, _. split; [reflexivity|].
    apply pretty_N_char_nonzero.
    pose proof (N.div_mod x 10). lia.
  - apply IH; [apply N.div_lt; lia|].
    destruct (x `div` 10)%N; [congruence | lia].
Qed.

Lemma pretty_N_digits (x : N) :
  digits_only (pretty x) = true /\ pretty x <> "".
Proof.
  unfold pretty, pretty_N. destruct (decide (x = 0)%N) as [->|Hx].
  - split; [reflexivity | discriminate].
  - split; [now apply pretty_N_go_digits|].
    destruct (pretty_N_go_first x ltac:(lia) "") as (c & rest & -> & _).
    discriminate.
Qed.

Lemma zeros_S k :
  String.concat "" (repeat "0" (S k)) = String "0" (String.concat "" (repeat "0" k)).
Proof. destruct k; reflexivity. Qed.

Lemma zeros_digits k : digits_only (String.concat "" (repeat "0" k)) = true.
Proof.
  induction k as [|k IH]; [reflexivity|]. rewrite zeros_S. simpl. exact IH.
Qed.

Lemma digits_only_append a b :
  digits_only a = true -> digits_only b = true -> digits_only (a +:+ b) = true.
Proof.
  induction a as [|c a IH]; simpl; [auto|].
  intros H Hb. apply andb_prop in H as [Hc Ha]. now rewrite Hc, IH.
Qed.

Lemma length_append a b : String.length (a +:+ b) = String.length a + String.length b.
Proof. induction a as [|c a IH]; simpl; [reflexivity | now rewrite IH]. Qed.

Lemma append_inv_head a b c : a +:+ b = a +:+ c -> b = c.
Proof. induction a as [|x a IH]; simpl; [auto|]. intros H. injection H. exact IH. Qed.

Lemma append_empty a : a +:+ "" = a.
Proof.
  induction a as [|c a IH]; [reflexivity|].
  change (String c (a +:+ "") = String c a). now rewrite IH.
Qed.

Lemma append_assoc a b c : (a +:+ b) +:+ c = a +:+ (b +:+ c).
Proof.
  induction a as [|x a IH]; [reflexivity|].
  change (String x ((a +:+ b) +:+ c) = String x (a +:+ (b +:+ c))). now rewrite IH.
Qed.

Lemma zero_pad_digits width d :
  digits_only d = true -> d <> "" ->
  digits_only (Py.zero_pad width d) = true /\ Py.zero_pad width d <> "".
Proof.
  intros Hd Hne. unfold Py.zero_pad. destruct (String.length d <? width)%nat.
  - split; [apply digits_only_append; [apply zeros_digits | exact Hd]|].
    intros H. apply (f_equal String.length) in H.
    rewrite length_append in H. destruct d; [contradiction | simpl in H; lia].
  - now split.
Qed.

(** ** Reading a number back *)

Lemma number_from_append acc a b :
  number_from acc (a +:+ b) = number_from (number_from acc a) b.
Proof.
  revert acc. induction a as [|c a IH]; intros acc; [reflexivity|]. simpl. apply IH.
Qed.

Lemma digit_value_char x : (x < 10)%N -> digit_value (pretty_N_char x) = x.
Proof.
  intros Hx.
  assert (H : (x = 0 \/ x = 1 \/ x = 2 \/ x = 3 \/ x = 4 \/ x = 5 \/ x = 6
               \/ x = 7 \/ x = 8 \/ x = 9)%N) by lia.
  repeat destruct H as [-> | H]; try subst x; reflexivity.
Qed.

(** [pretty_N_go x s] writes the digits of [x] in front of [s]. *)
Lemma pretty_N_go_number x :
  forall s, exists ds, pretty_N_go x s = ds +:+ s /\ number_from 0 ds = x.
Proof.
  induction (N.lt_wf_0 x) as [x _ IH]; intros s.
  destruct (decide (x = 0)%N) as [->|Hx].
  - exists "". now rewrite pretty_N_go_0.
  - rewrite pretty_N_go_step by lia.
    destruct (IH (x `div` 10)%N ltac:(apply N.div_lt; lia)
                (String (pretty_N_char (x `mod` 10)) s)) as (ds & -> & Hds).
    exists (ds +:+ String (pretty_N_char (x `mod` 10)) ""). split.
    + now rewrite append_assoc.
    + rewrite number_from_append, Hds. simpl.
      rewrite digit_value_char by (apply N.mod_lt; lia).
      pose proof (N.div_mod x 10). lia.
Qed.

Lemma number_from_pretty (x : N) : number_from 0 (pretty x) = x.
Proof.
  unfold pretty, pretty_N. destruct (decide (x = 0)%N) as [->|Hx]; [reflexivity|].
  destruct (pretty_N_go_number x "") as (ds & -> & Hds). now rewrite append_empty.
Qed.

Lemma number_from_zeros k : number_from 0 (String.concat "" (repeat "0" k)) = 0%N.
Proof. induction k as [|k IH]; [reflexivity|]. rewrite zeros_S. exact IH. Qed.

Lemma number_from_zero_pad width (x : N) :
  number_from 0 (Py.zero_pad width (pretty x)) = x.
Proof.
  unfold Py.zero_pad. destruct (String.length (pretty x) <? width)%nat.
  - rewrite number_from_append, number_from_zeros. apply number_from_pretty.
  - apply number_from_pretty.
Qed.

(** The format 03d writes different ints differently. *)
Lemma fmt_03d_inj n m : Py.fmt_03d n = Py.fmt_03d m -> n = m.
Proof.
  assert (Hdigit : forall width (x : N) rest,
            Py.zero_pad width (pretty x) <> String "-" rest).
  { intros width x rest H.
    destruct (pretty_N_digits x) as [Hd Hne].
    destruct (zero_pad_digits width _ Hd Hne) as [Hd' _].
    rewrite H in Hd'. discriminate. }
  unfold Py.fmt_03d.
  destruct (Z.ltb_spec n 0) as [Hn|Hn], (Z.ltb_spec m 0) as [Hm|Hm]; intros H.
  - apply (append_inv_head "-") in H. apply (f_equal (number_from 0)) in H.
    rewrite !number_from_zero_pad in H. lia.
  - symmetry in H. now apply Hdigit in H.
  - now apply Hdigit in H.
  - apply (f_equal (number_from 0)) in H.
    rewrite !number_from_zero_pad in H. lia.
Qed.

(** ** Stripping a generated id *)

Lemma spaceless_append a b :
  spaceless a = true -> spaceless b = true -> spaceless (a +:+ b) = true.
Proof.
  induction a as [|c a IH]; simpl; [auto|].
  intros H Hb. apply andb_prop in H as [Hc Ha]. now rewrite Hc, IH.
Qed.

Lemma digits_spaceless d : digits_only d = true -> spaceless d = true.
Proof.
  induction d as [|c t IH]; [reflexivity|]. simpl. intros H.
  apply andb_prop in H as [Hc Ht]. rewrite (IH Ht), andb_true_r.
  unfold is_digit in Hc. unfold Py.is_space.
  apply andb_prop in Hc as [H1 H2]. apply Nat.leb_le in H1, H2.
  apply andb_true_intro. split; [|apply Nat.ltb_lt; lia].
  destruct (Nat.eqb_spec (nat_of_ascii c) 32); [lia|].
  destruct (Nat.leb_spec 9 (nat_of_ascii c)), (Nat.leb_spec (nat_of_ascii c) 13),
    (Nat.leb_spec 28 (nat_of_ascii c)), (Nat.leb_spec (nat_of_ascii c) 31);
    simpl; (reflexivity || lia).
Qed.

Lemma spaceless_is_ascii s : spaceless s = true -> Py.is_ascii s = true.
Proof.
  induction s as [|c t IH]; [reflexivity|]. simpl. intros H.
  apply andb_prop in H as [H Ht]. apply andb_prop in H as [_ Hc].
  now rewrite Hc, IH.
Qed.

Lemma lstrip_spaceless s : spaceless s = true -> Py.lstrip s = s.
Proof.
  destruct s as [|c t]; [reflexivity|]. simpl. intros H.
  apply andb_prop in H as [H _]. apply andb_prop in H as [Hc _].
  apply negb_true_iff in Hc. now rewrite Hc.
Qed.

Lemma rstrip_spaceless s : spaceless s = true -> Py.rstrip s = s.
Proof.
  induction s as [|c t IH]; [reflexivity|]. simpl spaceless. intros H.
  apply andb_prop in H as [H Ht]. apply andb_prop in H as [Hc _].
  apply negb_true_iff in Hc. cbn [Py.rstrip]. rewrite (IH Ht), Hc.
  now destruct t.
Qed.

(** A string without whitespace is stripped to itself. *)
Lemma strip_spaceless unicode_strip s :
  spaceless s = true -> Py.strip unicode_strip s = s.
Proof.
  intros H. unfold Py.strip, Py.strip_ascii.
  now rewrite (spaceless_is_ascii _ H), (lstrip_spaceless _ H), (rstrip_spaceless _ H).
Qed.

Lemma fmt_03d_spaceless n : spaceless (Py.fmt_03d n) = true.
Proof.
  unfold Py.fmt_03d.
  destruct (pretty_N_digits (Z.abs_N n)) as [Hd Hne].
  destruct (n <? 0)%Z.
  - apply (spaceless_append "-"); [reflexivity|].
    apply digits_spaceless. now apply zero_pad_digits.
  - apply digits_spaceless. now apply zero_pad_digits.
Qed.

(** Stripping leaves a generated id as it is. *)
Lemma strip_generated_id unicode_strip idx :
  Py.strip unicode_strip (generated_id idx) = generated_id idx.
Proof.
  apply strip_spaceless. unfold generated_id.
  apply (spaceless_append "CUST-"); [reflexivity | apply fmt_03d_spaceless].
Qed.

Lemma row_customer_id_generated idx row :
  lacks_customer_id row -> row_customer_id sv idx row = generated_id idx.
Proof.
  unfold row_customer_id. fold (generated_id idx). intros [-> | ->];
    [apply strip_generated_id | reflexivity].
Qed.

Lemma generated_id_inj i j : generated_id i = generated_id j -> i = j.
Proof.
  unfold generated_id. intros H. apply append_inv_head in H.
  apply fmt_03d_inj in H. lia.
Qed.

(** Two lists related item by item by a relation that is one-to-one have
    repetitions at the same positions. *)
Lemma NoDup_related {A B} (R : A -> B -> Prop) (xs : list A) (ys : list B) :
  (forall a a' b b', R a b -> R a' b' -> (a = a' <-> b = b')) ->
  Forall2 R xs ys -> (NoDup xs <-> NoDup ys).
Proof.
  intros Hone Hall. rewrite !NoDup_alt. split; intros Hnd i j z Hi Hj.
  - destruct (Forall2_lookup_r _ _ _ _ _ Hall Hi) as (a & Ha & Ra).
    destruct (Forall2_lookup_r _ _ _ _ _ Hall Hj) as (a' & Ha' & Ra').
    apply (Hnd i j a Ha). rewrite Ha'. f_equal.
    symmetry. now apply (Hone a a' z z Ra Ra').
  - destruct (Forall2_lookup_l _ _ _ _ _ Hall Hi) as (b & Hb & Rb).
    destruct (Forall2_lookup_l _ _ _ _ _ Hall Hj) as (b' & Hb' & Rb').
    apply (Hnd i j b Hb). rewrite Hb'. f_equal.
    symmetry. now apply (Hone z z b b' Rb Rb').
Qed.

Lemma NoDup_range_index n : NoDup (range_index n).
Proof.
  unfold range_index. apply NoDup_fmap_2; [|apply NoDup_seq].
  intros i j H. injection H as H. lia.
Qed.

(** What a batch run stored, row by row. *)
Lemma process_all_stored df s s' :
  process_all_cancellations env sv (Frame df) true s = (Raise RerunException, s') ->
  exists results,
    csv_results (session s') = Some results
    /\ Forall2 (fun row r => exists idx, row_label row = IntLabel idx
                                        /\ row_of sv idx row r) df results.
Proof.
  unfold process_all_cancellations, try_except, bind at 1.
  destruct (get_openai_client env s) as [[client|t] s0] eqn:Ec.
  2:{ unfold get_openai_client in Ec.
      destruct (negb (Py.truthy _)) in Ec; inversion Ec; subst. discriminate. }
  unfold bind at 1.
  destruct (process_rows_any client get_offers_database (length df) (iterrows df) [] s0)
    as (o & s1 & Hrun & _ & _ & _ & Hout).
  rewrite Hrun. destruct o as [results|t].
  - destruct Hout as (appended & -> & Hall). simpl. intros H.
    injection H as <-. exists appended. split; [reflexivity|].
    unfold iterrows in Hall. apply Forall2_fmap_l in Hall. exact Hall.
  - destruct Hout as (e & ->). unfold select_handler.
    rewrite isinstance_Exception. discriminate.
Qed.

(** X14.  When no row of the frame carries a customer id, the ids a
    batch run stores follow the index labels of the rows: the label of
    every row is an int, and the id of the row is CUST- followed by that
    int plus one in the format 03d.  Rows of the same label get the same
    id: the ids are pairwise distinct exactly when the labels are.  In a
    frame with a range index the id of a row is CUST- followed by its
    position counted from one. *)
Theorem generated_ids_follow_labels (df : list df_row) (s s' : state) :
  Forall lacks_customer_id df ->
  process_all_cancellations env sv (Frame df) true s = (Raise RerunException, s') ->
  exists results,
    csv_results (session s') = Some results
    /\ length results = length df
    /\ (forall i row r, df !! i = Some row -> results !! i = Some r ->
         exists idx, row_label row = IntLabel idx
                     /\ Customer_ID r = "CUST-" +:+ Py.fmt_03d (idx + 1))
    /\ (NoDup (map Customer_ID results) <-> NoDup (map row_label df))
    /\ (has_range_index df ->
        NoDup (map Customer_ID results)
        /\ forall i r, results !! i = Some r ->
             Customer_ID r = "CUST-" +:+ Py.fmt_03d (Z.of_nat i + 1)).
Proof.
  intros Hlack Hrun.
  destruct (process_all_stored df s s' Hrun) as (results & Hcsv & Hall).
  exists results. split; [exact Hcsv|].
  assert (Hid : Forall2 (fun row r => exists idx, row_label row = IntLabel idx
                                                 /\ Customer_ID r = generated_id idx)
                  df results).
  { apply Forall2_same_length_lookup. split; [now apply Forall2_length in Hall|].
    intros i row r Hrow Hr.
    destruct (Forall2_lookup_lr _ _ _ _ _ _ Hall Hrow Hr)
      as (idx & Hidx & d & draft & ->).
    exists idx. split; [exact Hidx|]. simpl.
    apply row_customer_id_generated.
    exact (proj1 (Forall_lookup _ _) Hlack _ _ Hrow). }
  split; [symmetry; now apply Forall2_length in Hid|].
  assert (Hnd : NoDup (map Customer_ID results) <-> NoDup (map row_label df)).
  { symmetry.
    apply (NoDup_related (fun l id => exists idx, l = IntLabel idx
                                                  /\ id = generated_id idx)).
    - intros a a' b b' (i & -> & ->) (j & -> & ->). split.
      + intros H. injection H as ->. reflexivity.
      + intros H. apply generated_id_inj in H. now subst.
    - apply Forall2_fmap. exact Hid. }
  split; [|split; [exact Hnd|]].
  - intros i row r Hrow Hr. exact (Forall2_lookup_lr _ _ _ _ _ _ Hid Hrow Hr).
  - intros Hindex. split.
    + apply Hnd. rewrite Hindex. apply NoDup_range_index.
    + intros i r Hr.
      destruct (Forall2_lookup_r _ _ _ _ _ Hid Hr) as (row & Hrow & idx & Hidx & ->).
      rewrite (range_index_label df i row Hindex Hrow) in Hidx.
      now injection Hidx as <-.
Qed.

(** ** What Send All Emails leaves alone *)

Lemma send_all_emails_rows clicked s :
  exists o s',
    send_all_emails env sv clicked s = (o, s')
    /\ chat_log s' = chat_log s
    /\ processed_data (session s') = processed_data (session s)
    /\ email_sent (session s') = email_sent (session s)
    /\ team_notification_sent (session s') = team_notification_sent (session s)
    /\ Forall2 same_or_marked (current_results (session s))
         (current_results (session s')).
Proof.
  assert (Hsame : forall l : list result_row, Forall2 same_or_marked l l).
  { induction l; constructor; [now left | assumption]. }
  unfold send_all_emails, bind at 1, get_session.
  destruct (matched_results (session s)) as [|ref rest] eqn:Er.
  { exists (Return tt), s. unfold ret. repeat split; auto. }
  destruct clicked.
  2:{ exists (Return tt), s. unfold ret. repeat split; auto. }
  destruct (send_all_loop_run env sv (matched_results (session s))
              (NoDup_select_refs _ _ _) s 0 0)
    as (oks & s1 & _ & Hloop & Hlen & Hchat & Hpd & Hes & Htn & Hout & Hat & _).
  { intros i Hi. apply elem_of_matched_results in Hi as (r & Hr & _). now exists r. }
  rewrite Er in Hloop, Hlen, Hout, Hat.
  rewrite (bind_Return _ _ _ _ _ Hloop).
  exists (Raise RerunException), s1.
  split; [reflexivity|]. split; [exact Hchat|]. split; [exact Hpd|].
  split; [exact Hes|]. split; [exact Htn|].
  assert (Hrow : forall i,
            current_results (session s1) !! i = current_results (session s) !! i
            \/ current_results (session s1) !! i
               = mark_sent <$> current_results (session s) !! i).
  { intros i. destruct (decide (i ∈ ref :: rest)) as [Hi|Hi]; [|left; now apply Hout].
    apply list_elem_of_lookup_1 in Hi as [k Hk].
    destruct (lookup_lt_is_Some_2 oks k) as [ok Hok].
    { rewrite Hlen. eapply lookup_lt_Some; eassumption. }
    rewrite (Hat k i ok Hk Hok). destruct ok; [now right | left].
    now destruct (current_results (session s) !! i). }
  apply Forall2_same_length_lookup. split.
  - apply Nat.le_antisymm; apply Nat.nlt_ge; intros Hlt.
    + destruct (lookup_lt_is_Some_2 (current_results (session s))
                  (length (current_results (session s1)))) as [r Hr]; [lia|].
      destruct (Hrow (length (current_results (session s1)))) as [H|H];
        rewrite Hr in H; rewrite lookup_ge_None_2 in H by lia; discriminate.
    + destruct (lookup_lt_is_Some_2 (current_results (session s1))
                  (length (current_results (session s)))) as [r Hr]; [lia|].
      destruct (Hrow (length (current_results (session s)))) as [H|H];
        rewrite Hr in H; rewrite lookup_ge_None_2 in H by lia; discriminate.
  - intros i r r1 Hr Hr1. destruct (Hrow i) as [H|H]; rewrite Hr, Hr1 in H;
      injection H as ->; [now left | now right].
Qed.

Lemma same_or_marked_metrics rows rows1 :
  Forall2 same_or_marked rows rows1 ->
  length rows1 = length rows
  /\ (forall label,
        length (List.filter (fun r => String.eqb (Match_Found r) label) rows1)
        = length (List.filter (fun r => String.eqb (Match_Found r) label) rows))
  /\ Forall2 only_sent_differs (map export_of rows) (map export_of rows1).
Proof.
  induction 1 as [|r r1 rows rows1 Hr _ (IHl & IHf & IHx)].
  - repeat split; constructor.
  - assert (Hlabel : Match_Found r1 = Match_Found r)
      by (destruct Hr as [-> | ->]; reflexivity).
    split; [simpl; now rewrite IHl|]. split.
    + intros label. simpl. rewrite Hlabel.
      destruct (String.eqb (Match_Found r) label); simpl; now rewrite IHf.
    + simpl. constructor; [|exact IHx].
      destruct Hr as [-> | ->]; unfold only_sent_differs; simpl; repeat split; auto.
Qed.

(** X15.  Send All Emails changes nothing but the Email Sent marks.
    Whatever the click and the relay do, the reasoning service is not
    asked, the single-record result and flags stay, the three summary
    metrics stay, and the export has the same rows in the same order,
    equal in every column except Email Sent, which never turns back from
    True to False. *)
Theorem send_all_changes_only_sent_marks (clicked : bool) (s : state) :
  exists o s',
    send_all_emails env sv clicked s = (o, s')
    /\ chat_log s' = chat_log s
    /\ processed_data (session s') = processed_data (session s)
    /\ email_sent (session s') = email_sent (session s)
    /\ team_notification_sent (session s') = team_notification_sent (session s)
    /\ summary_metrics (session s') = summary_metrics (session s)
    /\ fst (csv_results_export (session s')) = fst (csv_results_export (session s))
    /\ Forall2 only_sent_differs (snd (csv_results_export (session s)))
         (snd (csv_results_export (session s'))).
Proof.
  destruct (send_all_emails_rows clicked s)
    as (o & s' & Hrun & Hchat & Hpd & Hes & Htn & Hrows).
  destruct (same_or_marked_metrics _ _ Hrows) as (Hlen & Hlabel & Hexport).
  exists o, s'. repeat split; auto.
  unfold summary_metrics. cbv zeta. now rewrite Hlen, !Hlabel.
Qed.

End MoreProperties.

(** * Runs on concrete collaborators *)

(** ** Strings and the catalog *)

Example contains_at : Py.contains "@" "customer@example.com" = true.
Proof. reflexivity. Qed.

Example contains_none : Py.contains "@" "customer.example.com" = false.
Proof. reflexivity. Qed.

Example lower_mixed (unicode_lower : string -> string) :
  Py.lower unicode_lower "Bob@GMail.COM" = "bob@gmail.com".
Proof. reflexivity. Qed.

Example strip_both (unicode_strip : string -> string) :
  Py.strip unicode_strip "  a b  " = "a b".
Proof. reflexivity. Qed.

(** A no-break space is whitespace of Unicode: it is stripped by the
    library, not by the ASCII rule. *)
Example strip_no_break_space :
  Py.strip Demo.strip_utf8 (" NO_MATCH" +:+ Demo.nbsp) = "NO_MATCH"
  /\ Py.strip_ascii (" NO_MATCH" +:+ Demo.nbsp) = "NO_MATCH" +:+ Demo.nbsp.
Proof. split; vm_compute; reflexivity. Qed.

Example fmt_03d_7 : Py.fmt_03d 7 = "007".
Proof. vm_compute. reflexivity. Qed.

Example fmt_03d_1234 : Py.fmt_03d 1234 = "1234".
Proof. vm_compute. reflexivity. Qed.

Example fmt_03d_negative : Py.fmt_03d (-5) = "-05".
Proof. vm_compute. reflexivity. Qed.

Example domain_of_plain : domain_of "bob@gmail.com" = "gmail.com".
Proof. reflexivity. Qed.

(** The codes of the catalog are pairwise distinct. *)
Lemma catalog_codes_distinct : NoDup catalog_codes.
Proof.
  apply (bool_decide_unpack _). vm_compute. exact I.
Qed.

(** ** The transport endpoint is guessed from the local part *)

(** C5, at a sender of the domain [acme.io] whose local part contains
    [gmail.com], with no SMTP server configured: [send_email] does not
    return the custom-domain message; it opens a session with
    [smtp.gmail.com] on port 587, whatever the relay then answers. *)
Theorem provider_guessed_from_local_part (sv : services) (s : state) :
  SENDER_EMAIL Demo.acme_env = Some "alerts.gmail.com@acme.io"
  /\ SMTP_SERVER Demo.acme_env = None
  /\ domain_of "alerts.gmail.com@acme.io" = "acme.io"
  /\ ~ In "acme.io" known_domains
  /\ exists ok message,
       send_email Demo.acme_env sv "customer@example.com" retention_subject "Hello" s
       = (Return (ok, message),
          mkState (session s) (chat_log s)
            (smtp_log s
             ++ [ mkSmtp "smtp.gmail.com" 587 10
                    "alerts.gmail.com@acme.io" "app-password"
                    "alerts.gmail.com@acme.io" ["customer@example.com"]
                    "alerts.gmail.com@acme.io" "customer@example.com"
                    retention_subject "Hello" ]))
       /\ message <> msg_custom_domain "alerts.gmail.com@acme.io".
Proof.
  split; [reflexivity|]. split; [reflexivity|]. split; [reflexivity|].
  split; [simpl; intuition discriminate|].
  unfold send_email, try_except, send_email_body, resolve_endpoint, bind,
    smtp_session, port_or_default.
  simpl.
  destruct (smtp sv (smtp_log s) _) as [e|[|err errs]].
  - rewrite select_handler_send_email. unfold ret.
    eexists _, _. split; [reflexivity|].
    unfold handler_message, msg_authentication, msg_smtp, msg_other, msg_custom_domain.
    destruct (exc_class_of e); simpl; discriminate.
  - eexists _, _. split; [reflexivity|].
    unfold msg_sent, msg_custom_domain. simpl. discriminate.
  - eexists _, _. split; [reflexivity|].
    unfold msg_send_errors, msg_custom_domain. simpl. discriminate.
Qed.

(** The same sender with a relay that accepts the message: the email is
    reported as sent. *)
Example acme_sender_delivers_through_gmail :
  fst (send_email Demo.acme_env Demo.helpful "customer@example.com"
         retention_subject "Hello" Demo.fresh)
  = Return (true, "Email sent successfully to customer@example.com! Check your inbox (and spam folder).").
Proof. vm_compute. reflexivity. Qed.

(** A sender in which no provider name occurs is refused. *)
Example plain_custom_domain_refused :
  send_email (mkEnv None None (Some "alerts@acme.io") (Some "pw") None None)
    Demo.helpful "customer@example.com" retention_subject "Hello" Demo.fresh
  = (Return (false, msg_custom_domain "alerts@acme.io"), Demo.fresh).
Proof. vm_compute. reflexivity. Qed.

(** ** The matcher *)

(** C2, counterexample.  A reasoning service that answers with the code
    LOYALTY_50, which no offer of the catalog has: the matcher returns
    that code. *)
Lemma matcher_returns_fabricated_code :
  fst (offer_matcher_agent Demo.fabricating "sk-test"
         "The service is too expensive" get_offers_database Demo.fresh)
  = Return Demo.fabricated_decision
  /\ decision_field Demo.fabricated_decision "OFFER_CODE" JNull = JStr "LOYALTY_50"
  /\ ~ In (JStr "LOYALTY_50") allowed_codes.
Proof.
  split; [vm_compute; reflexivity|]. split; [reflexivity|].
  unfold allowed_codes, catalog_codes. simpl. intuition discriminate.
Qed.

Lemma matcher_degrades_to_no_match_witness :
  matcher_failure Demo.down (chat_log Demo.fresh)
    (matcher_request "sk-test" "I am relocating abroad" get_offers_database)
  = Some Demo.APIConnectionError
  /\ exists reasoning,
       offer_matcher_agent Demo.down "sk-test" "I am relocating abroad"
         get_offers_database Demo.fresh
       = (Return (JObj [ ("OFFER_CODE", JStr "NO_MATCH");
                         ("OFFER_NAME", JStr "None");
                         ("MATCH_REASONING", JStr reasoning) ]),
          log_chat (matcher_request "sk-test" "I am relocating abroad"
                      get_offers_database) Demo.fresh)
       /\ reasoning = "Error occurred: Connection error."
       /\ reasoning <> "".
Proof.
  split; [reflexivity|].
  apply (matcher_degrades_to_no_match Demo.down "sk-test" "I am relocating abroad"
           get_offers_database Demo.fresh Demo.APIConnectionError).
  reflexivity.
Defined.

(** ** The email writer *)



Example helpful_writer_answers_sentinel :
  fst (email_writer_agent Demo.helpful "sk-test"
         (matched_offer_text Demo.helpful Demo.service_no_match)
         "I am relocating abroad" "customer@example.com" Demo.fresh)
  = Return "NO_MATCH".
Proof. vm_compute. reflexivity. Qed.

(** A reply that ends with a no-break space gives the sentinel. *)
Example writer_strips_no_break_space :
  fst (email_writer_agent Demo.padding "sk-test" "NO_MATCH - None"
         "I am relocating abroad" "customer@example.com" Demo.fresh)
  = Return "NO_MATCH".
Proof. vm_compute. reflexivity. Qed.

(** ** The batch run *)

(** C7, counterexample.  A frame of three rows with a range index for
    which the run stores no dict and offers no export: without an API key
    the script is stopped before the first row, and a reply to the
    matcher that parses to a list ends the run at the first row. *)
Lemma batch_stores_nothing_for_three_rows :
  length Demo.frame3 = 3
  /\ has_range_index Demo.frame3
  /\ api_key_configured Demo.unset_env = false
  /\ tab2 Demo.unset_env Demo.helpful (Frame Demo.frame3) ProcessAllClicked Demo.fresh
     = (Raise StopException, Demo.fresh)
  /\ api_key_configured Demo.gmail_env = true
  /\ json_loads Demo.listing "[]" = inr (JArr [])
  /\ tab2 Demo.gmail_env Demo.listing (Frame Demo.frame3) ProcessAllClicked Demo.fresh
     = (Return None,
        mkState initial_session
          [ matcher_request "sk-test" "The service is too expensive for my budget"
              get_offers_database ] [])
  /\ csv_results initial_session = None.
Proof. repeat split; vm_compute; reflexivity. Qed.

(** The replies of the helpful service to the matcher parse to dicts,
    with a parser that parses an array to a list. *)
Lemma helpful_replies_with_json_objects : replies_with_json_objects Demo.helpful.
Proof.
  intros log req content v Hjson Hreply Hparse. simpl in Hreply, Hparse.
  unfold Demo.helpful_chat in Hreply. rewrite Hjson in Hreply.
  destruct (Py.contains _ _); injection Hreply as <-;
    vm_compute in Hparse; injection Hparse as <-; reflexivity.
Qed.

Lemma batch_keeps_rows_and_order_witness :
  api_key_configured Demo.gmail_env = true
  /\ replies_with_json_objects Demo.helpful
  /\ has_range_index Demo.frame3
  /\ exists results s',
       process_all_cancellations Demo.gmail_env Demo.helpful (Frame Demo.frame3) true
         Demo.fresh = (Raise RerunException, s')
       /\ csv_results (session s') = Some results
       /\ length results = 3
       /\ length (snd (csv_results_export (session s'))) = 3
       /\ exists x, snd (csv_results_export (session s')) !! 1 = Some x
                    /\ x_Email x = "bob@example.com"
                    /\ x_Customer_ID x = "CUST-002".
Proof.
  split; [reflexivity|]. split; [exact helpful_replies_with_json_objects|].
  split; [reflexivity|].
  destruct (batch_keeps_rows_and_order Demo.gmail_env Demo.helpful Demo.frame3
              Demo.fresh eq_refl helpful_replies_with_json_objects eq_refl)
    as (results & s' & Hrun & Hcsv & Hlen & Hrows & _ & Hexport & _).
  exists results, s'. split; [exact Hrun|]. split; [exact Hcsv|].
  split; [exact Hlen|]. split; [exact Hexport|].
  destruct (Hrows 1 _ eq_refl)
    as (r & x & _ & _ & _ & _ & _ & _ & Hx & Hid & Hemail & _).
  exists x. split; [exact Hx|]. split; [exact Hemail | exact Hid].
Defined.

(** Three rows, the second of which no offer fits: the dicts come out in
    the order of the rows. *)
Example batch_of_three :
  exists s',
    process_all_cancellations Demo.gmail_env Demo.helpful (Frame Demo.frame3) true
      Demo.fresh = (Raise RerunException, s')
    /\ map Email (current_results (session s'))
       = ["ann@example.com"; "bob@example.com"; "cy@example.com"]
    /\ map Customer_ID (current_results (session s'))
       = ["CUST-001"; "CUST-002"; "CUST-003"]
    /\ map Match_Found (current_results (session s')) = ["Yes"; "No"; "Yes"]
    /\ map x_Email (snd (csv_results_export (session s')))
       = ["ann@example.com"; "bob@example.com"; "cy@example.com"].
Proof. eexists. vm_compute. repeat split. Qed.

(** Two rows of the same label get the same id. *)
Example batch_of_equal_labels :
  exists s',
    process_all_cancellations Demo.gmail_env Demo.helpful
      (Frame Demo.frame_same_label) true Demo.fresh = (Raise RerunException, s')
    /\ map Customer_ID (current_results (session s')) = ["CUST-001"; "CUST-001"].
Proof. eexists. vm_compute. repeat split. Qed.

(** A label that is a str stops the batch before the service is asked:
    nothing is stored. *)
Example batch_stops_on_a_str_label :
  process_all_cancellations Demo.gmail_env Demo.helpful
    (Frame Demo.frame_trailing_delimiter) true Demo.fresh
  = (Return tt, Demo.fresh).
Proof. vm_compute. reflexivity. Qed.

(** A label beyond the number of rows stops the batch at the progress bar. *)
Example batch_stops_on_a_large_label :
  process_all_cancellations Demo.gmail_env Demo.helpful
    (Frame [ mkDfRow (IntLabel 7) (Cell "ann@example.com") (Cell "too slow") None None ])
    true Demo.fresh
  = (Return tt, Demo.fresh).
Proof. vm_compute. reflexivity. Qed.

(** ** The single-record workflow *)


(** Without an API key the run stops right after the reset: both flags
    are false, and the former result is still there. *)
Example resubmission_without_api_key :
  exists s2,
    tab1 Demo.unset_env
      (mkServices Demo.helpful_chat Demo.accepting_smtp Demo.loads_replies
         Demo.int_ports (fun _ => "") (fun _ => "") "2026-01-15"
         Demo.lower_utf8 Demo.strip_utf8 Demo.progress_refused)
      (FormSubmitted (mkForm "CUST-002" "bob@example.com" "I am relocating" "2026-01-15"))
      Demo.used = (Raise StopException, s2)
    /\ email_sent (session s2) = false
    /\ team_notification_sent (session s2) = false
    /\ processed_data (session s2) = processed_data (session Demo.used).
Proof. eexists. vm_compute. repeat split. Qed.

(** ** Send All Emails with a relay that fails once *)

(** First click: the only dispatch fails, the dict stays unsent. *)
Example send_all_first_click :
  send_all_emails Demo.gmail_env Demo.helpful_flaky true Demo.one_unsent
  = (Raise RerunException,
     mkState (session Demo.one_unsent) []
       [ mkSmtp "smtp.gmail.com" 587 10 "retention@gmail.com" "app-password"
           "retention@gmail.com" ["ann@example.com"]
           "retention@gmail.com" "ann@example.com"
           retention_subject Demo.retention_email ])
  /\ send_all_loop Demo.gmail_env Demo.helpful_flaky [0] (0, 0) Demo.one_unsent
     = (Return (0, 1),
        snd (send_all_emails Demo.gmail_env Demo.helpful_flaky true Demo.one_unsent)).
Proof. split; vm_compute; reflexivity. Qed.

(** Second click: the failed dict is dispatched again and marked; third
    click: nothing is left, and nothing happens. *)
Example send_all_later_clicks :
  let s1 := snd (send_all_emails Demo.gmail_env Demo.helpful_flaky true Demo.one_unsent) in
  let s2 := snd (send_all_emails Demo.gmail_env Demo.helpful_flaky true s1) in
  map Email_Sent (current_results (session s1)) = [false]
  /\ map Email_Sent (current_results (session s2)) = [true]
  /\ length (smtp_log s2) = 2
  /\ send_all_emails Demo.gmail_env Demo.helpful_flaky true s2 = (Return tt, s2).
Proof. cbv zeta. repeat split; vm_compute; reflexivity. Qed.

(** ** The dispatcher and the notifier *)

Lemma send_email_returns_and_names_failure_witness :
  addresses_accepted Demo.gmail_env "customer@example.com" = true
  /\ smtp (Demo.refusing Demo.BadCredentials) []
       (session_for Demo.gmail_env "smtp.gmail.com" 587 "customer@example.com"
          retention_subject "Hello")
     = inl Demo.BadCredentials
  /\ send_email Demo.gmail_env (Demo.refusing Demo.BadCredentials)
       "customer@example.com" retention_subject "Hello" Demo.fresh
     = (Return (false,
                "Authentication failed: (535, b'5.7.8 Username and Password not accepted.'). Check your email and password. For Gmail, use an App Password. For custom domains, verify SMTP credentials."),
        log_smtp (session_for Demo.gmail_env "smtp.gmail.com" 587
                    "customer@example.com" retention_subject "Hello") Demo.fresh).
Proof.
  split; [reflexivity|]. split; [reflexivity|].
  pose proof (send_email_returns_and_names_failure Demo.gmail_env
                (Demo.refusing Demo.BadCredentials)
                "customer@example.com" retention_subject "Hello" Demo.fresh) as H.
  cbv zeta in H. destruct H as (_ & _ & _ & Hfail & _).
  destruct (Hfail "smtp.gmail.com" 587%Z Demo.BadCredentials eq_refl eq_refl eq_refl)
    as (Hauth & _ & _).
  exact (Hauth eq_refl).
Defined.

(** A dropped connection is reported by the SMTP clause, a timeout by the
    general clause. *)
Example transport_failure_is_named :
  fst (send_email Demo.gmail_env (Demo.refusing Demo.SMTPServerDisconnected)
         "customer@example.com" retention_subject "Hello" Demo.fresh)
  = Return (false,
            "SMTP error: Connection unexpectedly closed. Check SMTP_SERVER and SMTP_PORT settings.")
  /\ fst (send_email Demo.gmail_env (Demo.refusing Demo.TimeoutError)
            "customer@example.com" retention_subject "Hello" Demo.fresh)
     = Return (false,
               "Error sending email (TimeoutError): timed out. Verify your email configuration in .env file.").
Proof. split; vm_compute; reflexivity. Qed.

Example bad_port_is_reported :
  send_email
    (mkEnv None None (Some "retention@gmail.com") (Some "pw") None (Some "smtp"))
    Demo.helpful "customer@example.com" retention_subject "Hello" Demo.fresh
  = (Return (false,
             "Error sending email (ValueError): invalid literal for int() with base 10: 'smtp'. Verify your email configuration in .env file."),
     Demo.fresh).
Proof. vm_compute. reflexivity. Qed.

Example team_notification_to_sender :
  map smtp_rcpt
    (smtp_log (snd (send_team_notification Demo.gmail_env Demo.helpful
                      "CUST-002" "bob@example.com" "2026-01-15" Demo.fresh)))
  = [["retention@gmail.com"]].
Proof. vm_compute. reflexivity. Qed.

Example team_notification_unset :
  send_team_notification Demo.unset_env Demo.helpful
    "CUST-002" "bob@example.com" "2026-01-15" Demo.fresh
  = (Return (false, "SENDER_EMAIL not set in .env file"), Demo.fresh).
Proof. reflexivity. Qed.

(** ** The offer text *)

Example offer_text_of_a_match :
  matched_offer_text Demo.helpful Demo.price_decision
  = "PRICE_DISC_20 - 20% Discount for 6 Months".
Proof. reflexivity. Qed.

Example offer_text_of_no_match :
  matched_offer_text Demo.helpful Demo.service_no_match = "NO_MATCH - None".
Proof. reflexivity. Qed.

Example writer_is_asked_on_no_match :
  chat_log
    (snd (process_row Demo.down "sk-test" get_offers_database 0
            (mkDfRow (IntLabel 0) (Cell "bob@example.com") (Cell "I am relocating")
               None None)
            Demo.fresh))
  = [ matcher_request "sk-test" "I am relocating" get_offers_database;
      writer_request "sk-test" "NO_MATCH - None" "I am relocating" "bob@example.com" ].
Proof. vm_compute. reflexivity. Qed.

(** * Further runs on concrete collaborators *)

Lemma send_email_refuses_address_without_at_witness :
  Py.contains "@" "customer.example.com" && Py.contains "@" "retention@gmail.com" = false
  /\ send_email Demo.gmail_env Demo.helpful "customer.example.com" retention_subject
       "Hello" Demo.fresh
     = (Return (false,
                "Invalid email format. To: customer.example.com, From: retention@gmail.com"),
        Demo.fresh).
Proof.
  split; [reflexivity|].
  apply (send_email_refuses_address_without_at Demo.gmail_env Demo.helpful
           "customer.example.com" retention_subject "Hello"
           "retention@gmail.com" "app-password" Demo.fresh);
    try reflexivity; discriminate.
Defined.

Lemma send_email_reports_bad_port_witness :
  py_int Demo.helpful "smtp"
  = inl "invalid literal for int() with base 10: 'smtp'"
  /\ send_email Samples.bad_port_env Demo.helpful "customer@example.com"
       retention_subject "Hello" Demo.fresh
     = (Return (false,
                "Error sending email (ValueError): invalid literal for int() with base 10: 'smtp'. Verify your email configuration in .env file."),
        Demo.fresh).
Proof.
  split; [reflexivity|].
  apply (send_email_reports_bad_port Samples.bad_port_env Demo.helpful
           "customer@example.com" retention_subject "Hello" "smtp"
           "invalid literal for int() with base 10: 'smtp'" Demo.fresh);
    try reflexivity; discriminate.
Defined.

Lemma no_api_key_stops_before_any_request_witness :
  api_key_configured Demo.unset_env = false
  /\ process_all_cancellations Demo.unset_env Demo.helpful (Frame Demo.frame3) true
       Demo.used = (Raise StopException, Demo.used)
  /\ chat_log (snd (process_cancellation Demo.unset_env Demo.helpful Demo.price_form
                      Demo.used)) = [].
Proof.
  split; [reflexivity|].
  destruct (no_api_key_stops_before_any_request Demo.unset_env Demo.helpful
              Demo.frame3 Demo.price_form Demo.used eq_refl) as [Hbatch Hsingle].
  split; [exact Hbatch|]. rewrite Hsingle. reflexivity.
Defined.

Lemma summary_counts_add_up_witness :
  exists s' matches no_matches,
    process_all_cancellations Demo.gmail_env Demo.helpful (Frame Demo.frame3) true
      Demo.fresh = (Raise RerunException, s')
    /\ summary_metrics (session s') = (3, matches, no_matches)
    /\ matches + no_matches = 3
    /\ length (matched_results (session s')) = matches
    /\ length (no_match_results (session s')) = no_matches.
Proof.
  destruct (process_all_cancellations Demo.gmail_env Demo.helpful (Frame Demo.frame3)
              true Demo.fresh) as [[[]|[e| |]] s'] eqn:E;
    try (vm_compute in E; discriminate).
  destruct (summary_counts_add_up Demo.gmail_env Demo.helpful Demo.frame3 Demo.fresh
              s' E) as (matches & no_matches & H).
  exists s', matches, no_matches. split; [reflexivity | exact H].
Defined.

Example summary_of_three :
  summary_metrics
    (session (snd (process_all_cancellations Demo.gmail_env Demo.helpful
                     (Frame Demo.frame3) true Demo.fresh)))
  = (3, 2, 1).
Proof. vm_compute. reflexivity. Qed.

Lemma row_label_follows_code_and_draft_witness :
  exists r s',
    process_row Demo.helpful "sk-test" get_offers_database 0
      (mkDfRow (IntLabel 0) (Cell "ann@example.com") (Cell "The service is too expensive")
         None None)
      Demo.fresh = (Return r, s')
    /\ (Match_Found r = "Yes"
        <-> Offer_Code r <> JStr "NO_MATCH" /\ Email_Content r <> "NO_MATCH").
Proof.
  destruct (process_row Demo.helpful "sk-test" get_offers_database 0
              (mkDfRow (IntLabel 0) (Cell "ann@example.com")
                 (Cell "The service is too expensive") None None) Demo.fresh) as [[r|t] s'] eqn:E;
    [|vm_compute in E; discriminate].
  exists r, s'. split; [reflexivity|].
  exact (proj1 (row_label_follows_code_and_draft Demo.helpful _ _ _ _ _ _ _ E)).
Defined.

(** A decision without a code: the writer is asked about "None - None",
    and the row is stored as a non-match. *)
Example decision_without_code :
  let sv := mkServices (fun _ req => if chat_json_object req then inr (Some "{}")
                                     else inr (Some "Hello"))
              Demo.accepting_smtp (fun _ => inr (JObj [])) Demo.int_ports
              (fun _ => "[]") (fun _ => "{}") "2026-01-15"
              Demo.lower_utf8 Demo.strip_utf8 Demo.progress_refused in
  let run := process_row sv "sk-test" get_offers_database 0
               (mkDfRow (IntLabel 0) (Cell "ann@example.com") (Cell "too slow") None None)
               Demo.fresh in
  exists r, fst run = Return r
            /\ Offer_Code r = JStr "NO_MATCH" /\ Offer_Name r = JStr "None"
            /\ Match_Found r = "No" /\ Email_Content r = "Hello"
            /\ map chat_user (chat_log (snd run))
               = [ matcher_user_message "too slow" get_offers_database;
                   writer_user_message "None - None" "too slow" "ann@example.com" ].
Proof. cbv zeta. eexists. vm_compute. repeat split. Qed.

Lemma only_workflows_ask_the_service_witness :
  runs_workflow (Tab2 SendAllClicked) = false
  /\ exists o s',
       main Demo.gmail_env Demo.helpful NoFile (Tab2 SendAllClicked) Demo.one_unsent
       = (o, s')
       /\ chat_log s' = chat_log Demo.one_unsent.
Proof.
  split; [reflexivity|].
  destruct (main Demo.gmail_env Demo.helpful NoFile (Tab2 SendAllClicked)
              Demo.one_unsent) as [o s'] eqn:E.
  exists o, s'. split; [reflexivity|].
  exact (only_workflows_ask_the_service Demo.gmail_env Demo.helpful NoFile
           (Tab2 SendAllClicked) Demo.one_unsent s' o eq_refl E).
Defined.

Lemma only_send_clicks_mail_customers_witness :
  is_send_click (Tab1 (FormSubmitted Samples.relocation_form)) = false
  /\ exists o s' calls,
       main Demo.gmail_env Demo.helpful NoFile
         (Tab1 (FormSubmitted Samples.relocation_form)) Demo.fresh = (o, s')
       /\ smtp_log s' = smtp_log Demo.fresh ++ calls
       /\ Forall (fun c => smtp_rcpt c = ["retention@gmail.com"]
                           /\ msg_to c = "retention@gmail.com"
                           /\ msg_subject c = team_subject) calls.
Proof.
  split; [reflexivity|].
  destruct (main Demo.gmail_env Demo.helpful NoFile
              (Tab1 (FormSubmitted Samples.relocation_form)) Demo.fresh)
    as [o s'] eqn:E.
  destruct (only_send_clicks_mail_customers Demo.gmail_env Demo.helpful NoFile
              (Tab1 (FormSubmitted Samples.relocation_form)) Demo.fresh s' o eq_refl E)
    as (calls & Hlog & Hcalls).
  exists o, s', calls. split; [reflexivity|]. split; [exact Hlog | exact Hcalls].
Defined.

(** The relocation is no match: the submission notifies the team once. *)
Example relocation_notifies_team :
  map (fun c => (smtp_rcpt c, msg_subject c))
    (smtp_log (snd (main Demo.gmail_env Demo.helpful NoFile
                      (Tab1 (FormSubmitted Samples.relocation_form)) Demo.fresh)))
  = [ (["retention@gmail.com"], team_subject) ].
Proof. vm_compute. reflexivity. Qed.

Lemma send_button_sends_once_witness :
  processed_data (session Samples.matched) <> None
  /\ exists s1,
       display_processed Demo.gmail_env Demo.helpful true Samples.matched
       = (Raise RerunException, s1)
       /\ email_sent (session s1) = true
       /\ display_processed Demo.gmail_env Demo.helpful true s1 = (Return tt, s1).
Proof.
  split; [discriminate|].
  destruct (send_button_sends_once Demo.gmail_env Demo.helpful Samples.matched _
              eq_refl eq_refl) as (ok & message & s1 & Hsend & Hclick & Hagain & _).
  vm_compute in Hsend. injection Hsend as <- _ <-.
  eexists. split; [exact Hclick|]. split; [reflexivity | exact Hagain].
Defined.

Lemma team_is_notified_until_it_worked_witness :
  pd_is_match
    (mkProcessed "CUST-000" "old@example.com" "old reason" "2026-01-01"
       Demo.service_no_match "NO_MATCH" false) = false
  /\ exists s1,
       display_processed Demo.unset_env Demo.helpful false
         (with_session (set_team_notification_sent false (session Demo.used)) Demo.used)
       = (Return tt, s1)
       /\ team_notification_sent (session s1) = false.
Proof.
  split; [reflexivity|].
  destruct (team_is_notified_until_it_worked Demo.unset_env Demo.helpful
              (with_session (set_team_notification_sent false (session Demo.used))
                 Demo.used) _ false eq_refl eq_refl)
    as (ok & message & s1 & Hsend & Hshow & _ & _).
  vm_compute in Hsend. injection Hsend as <- _ <-.
  eexists. split; [exact Hshow | reflexivity].
Defined.

Lemma team_notifications_are_sent_again_witness :
  addresses_accepted Demo.gmail_env "retention@gmail.com" = true
  /\ exists s1 s2,
       send_team_notifications Demo.gmail_env Demo.helpful true Samples.mixed
       = (Return tt, s1)
       /\ send_team_notifications Demo.gmail_env Demo.helpful true s1 = (Return tt, s2)
       /\ session s2 = session Samples.mixed
       /\ length (smtp_log s1) = 2 /\ length (smtp_log s2) = 4.
Proof.
  split; [reflexivity|].
  destruct (team_notifications_are_sent_again Demo.gmail_env Demo.helpful
              "smtp.gmail.com" 587%Z Samples.mixed eq_refl (fun s0 => eq_refl))
    as (s1 & s2 & H1 & _ & Hlog1 & H2 & Hss & Hlog2).
  exists s1, s2. split; [exact H1|]. split; [exact H2|]. split; [exact Hss|].
  rewrite Hlog1, Hlog2. split; reflexivity.
Defined.

Lemma idle_rerun_changes_nothing_witness :
  pending_notification (session Demo.one_unsent) = false
  /\ exists export,
       main Demo.gmail_env Demo.helpful NoFile Rerun Demo.one_unsent
       = (Return (Some export), Demo.one_unsent).
Proof.
  split; [reflexivity|]. eexists.
  exact (idle_rerun_changes_nothing Demo.gmail_env Demo.helpful NoFile
           Demo.one_unsent eq_refl).
Defined.

Lemma frame3_lacks_ids : Forall lacks_customer_id Demo.frame3.
Proof. repeat constructor. Qed.

Lemma generated_ids_follow_labels_witness :
  Forall lacks_customer_id Demo.frame3
  /\ has_range_index Demo.frame3
  /\ exists s' results,
       process_all_cancellations Demo.gmail_env Demo.helpful (Frame Demo.frame3) true
         Demo.fresh = (Raise RerunException, s')
       /\ csv_results (session s') = Some results
       /\ NoDup (map Customer_ID results)
       /\ forall i r, results !! i = Some r ->
            Customer_ID r = "CUST-" +:+ Py.fmt_03d (Z.of_nat i + 1).
Proof.
  split; [exact frame3_lacks_ids|]. split; [reflexivity|].
  destruct (process_all_cancellations Demo.gmail_env Demo.helpful (Frame Demo.frame3)
              true Demo.fresh) as [[[]|[e| |]] s'] eqn:E;
    try (vm_compute in E; discriminate).
  destruct (generated_ids_follow_labels Demo.gmail_env Demo.helpful Demo.frame3
              Demo.fresh s' frame3_lacks_ids E) as (results & Hcsv & _ & _ & _ & Hrange).
  exists s', results. split; [reflexivity|]. split; [exact Hcsv|].
  exact (Hrange eq_refl).
Defined.

Example send_all_keeps_the_summary :
  let s1 := snd (send_all_emails Demo.gmail_env Demo.helpful true Samples.mixed) in
  summary_metrics (session s1) = (3, 1, 2)
  /\ map x_Email_Sent (snd (csv_results_export (session s1))) = [false; true; false].
Proof. cbv zeta. split; vm_compute; reflexivity. Qed.
